(** * Repository bootstrap scripts: a shallow embedding

    The three Python scripts of the repository are embedded as programs of a
    small state / error / trace monad:

    - [create_github_public_repo_httpx.py]     -> [Module Httpx]
    - [create_github_public_repo_requests.py]  -> [Module Requests]
    - [create_gitignore.py]                    -> [Module Standalone]

    The working directory is a finite map from entry names to nodes, standard
    input is a list of lines, and everything the scripts cannot decide
    themselves (HTTP answers, the behaviour of external commands, the
    formatting of exceptions) is supplied by an environment record. *)

From Stdlib Require Import ZArith Ascii String List.
From stdpp Require Import base option list strings gmap fin_maps.

Local Open Scope string_scope.
Local Open Scope Z_scope.
Local Open Scope list_scope.

(** ** Strings *)

(** [str.lower()] restricted to ASCII letters: 'A'..'Z' are moved to
    'a'..'z', every other character is kept. *)
Definition lower_ascii (c : ascii) : ascii :=
  let n := nat_of_ascii c in
  if (Nat.leb 65 n && Nat.leb n 90)%bool then ascii_of_nat (n + 32) else c.

Fixpoint lower (s : string) : string :=
  match s with
  | EmptyString => EmptyString
  | String c s' => String (lower_ascii c) (lower s')
  end.

(** [s.startswith(p)]. *)
Fixpoint startswith (p s : string) : bool :=
  match p, s with
  | EmptyString, _ => true
  | String a p', String b s' => if Ascii.eqb a b then startswith p' s' else false
  | String _ _, EmptyString => false
  end.

Fixpoint endswith_slash (s : string) : bool :=
  match s with
  | EmptyString => false
  | String c EmptyString => Ascii.eqb c "/"%char
  | String _ s' => endswith_slash s'
  end.

(** [os.path.join(a, b)] for a relative second component. *)
Definition path_join (a b : string) : string :=
  match a with
  | EmptyString => b
  | _ => if endswith_slash a then a +:+ b else a +:+ "/" +:+ b
  end.

(** ** File system, exceptions, events *)

(** An entry of a directory: a regular file with its content, or a
    directory, with the relative paths and contents of the files below it. *)
Inductive node : Type :=
| File (content : string)
| Dir (tree : list (string * string)).

Definition is_file (o : option node) : bool :=
  match o with Some (File _) => true | _ => false end.

Definition is_dir (o : option node) : bool :=
  match o with Some (Dir _) => true | _ => false end.

Definition exists_ (o : option node) : bool :=
  match o with Some _ => true | None => false end.

(** The Python exceptions the scripts can meet. *)
Inductive exn : Type :=
| EOFError
| FileNotFoundError (msg : string)
| IsADirectoryError (path : string)
| CalledProcessError (cmd : list string) (code : Z)
| HTTPStatusError (status : Z)
| TransportError (msg : string)
| NameError (name : string)
| UnboundLocalError (name : string).

(** [except IOError] (an alias of [OSError]). *)
Definition is_IOError (e : exn) : bool :=
  match e with
  | FileNotFoundError _ | IsADirectoryError _ => true
  | _ => false
  end.

(** [except httpx.HTTPError] / [except requests.exceptions.RequestException]. *)
Definition is_HTTPError (e : exn) : bool :=
  match e with
  | HTTPStatusError _ | TransportError _ => true
  | _ => false
  end.

(** [except subprocess.CalledProcessError]. *)
Definition is_CalledProcessError (e : exn) : bool :=
  match e with
  | CalledProcessError _ _ => true
  | _ => false
  end.

(** [except Exception]. *)
Definition is_Exception (e : exn) : bool := true.

(** The JSON body of the creation request. *)
Record payload : Type := Payload {
  p_name : string;
  p_description : string;
  p_private : bool
}.

(** What a run does to the outside world, in order. *)
Inductive event : Type :=
| Prompt (msg : string)
| Print (msg : string)
| HttpGet (url : string) (headers : list (string * string))
| HttpPost (url : string) (data : payload) (headers : list (string * string))
| Run (cmd : list string)
| Rmtree (name : string)
| Listdir
| Remove (name : string)
| WriteFile (path : string) (content : string).

(** The answer of the remote host to one request: a response with its
    status code, or no response at all. *)
Inductive http_result : Type :=
| Response (status_code : Z)
| NoResponse (msg : string).

(** ** Environment and state *)

Record Env : Type := {
  (** [os.getcwd()] *)
  getcwd : string;
  (** [os.path.dirname(os.path.abspath(__file__))] *)
  script_directory : string;
  (** [os.getenv("GITHUB_TOKEN")] *)
  GITHUB_TOKEN : option string;
  (** [response.raise_for_status()] raises for these status codes *)
  raises_for_status : Z -> bool;
  (** [str(e)] *)
  str_exn : exn -> string;
  (** the answer to the n-th external call when it is an HTTP request *)
  http : nat -> http_result;
  (** exit code and effect on the working directory of the n-th external
      call when it is a command *)
  proc : nat -> list string -> gmap string node -> Z * gmap string node
}.

Record World : Type := mkWorld {
  (** entries of the current working directory *)
  cwd : gmap string node;
  (** entries of the script's directory, when that is another directory *)
  sfiles : gmap string node;
  (** lines still to be read from standard input *)
  stdin : list string;
  (** number of external calls made so far *)
  ticks : nat
}.

(** How a computation ends: with a value, with a raised exception, with
    [exit(code)], or, for the model only, out of fuel. *)
Inductive result (A : Type) : Type :=
| Ok (a : A)
| Raise (e : exn)
| Exit (code : Z)
| OutOfFuel.
Arguments Ok {A} a.
Arguments Raise {A} e.
Arguments Exit {A} code.
Arguments OutOfFuel {A}.

Definition M (A : Type) : Type := World -> result A * World * list event.

Definition ret {A} (a : A) : M A := fun w => (Ok a, w, []).

Definition bind {A B} (m : M A) (k : A -> M B) : M B := fun w =>
  match m w with
  | (Ok a, w1, t1) =>
      match k a w1 with
      | (r, w2, t2) => (r, w2, t1 ++ t2)
      end
  | (Raise e, w1, t1) => (Raise e, w1, t1)
  | (Exit c, w1, t1) => (Exit c, w1, t1)
  | (OutOfFuel, w1, t1) => (OutOfFuel, w1, t1)
  end.

#[global] Instance M_ret : MRet M := @ret.
#[global] Instance M_bind : MBind M := fun A B k m => bind m k.

Definition raise {A} (e : exn) : M A := fun w => (Raise e, w, []).
Definition exit {A} (code : Z) : M A := fun w => (Exit code, w, []).
Definition emit (e : event) : M unit := fun w => (Ok tt, w, [e]).
Definition get_world : M World := fun w => (Ok w, w, []).

(** [try: m except <handles>: h]. *)
Definition try_except {A} (m : M A) (handles : exn -> bool) (h : exn -> M A) : M A :=
  fun w =>
    match m w with
    | (Raise e, w1, t1) =>
        if handles e then
          match h e w1 with
          | (r, w2, t2) => (r, w2, t1 ++ t2)
          end
        else (Raise e, w1, t1)
    | other => other
    end.

Definition print (msg : string) : M unit := emit (Print msg).

(** [input(msg)]: writes the prompt, then reads a line; at the end of the
    input it raises [EOFError]. *)
Definition input (msg : string) : M string := fun w =>
  match stdin w with
  | [] => (Raise EOFError, w, [Prompt msg])
  | line :: rest =>
      (Ok line, mkWorld (cwd w) (sfiles w) rest (ticks w), [Prompt msg])
  end.

(** The exit status of the process. An uncaught exception ends the
    interpreter with status 1. *)
Definition exit_status {A} (r : result A) : option Z :=
  match r with
  | Ok _ => Some 0
  | Raise _ => Some 1
  | Exit c => Some c
  | OutOfFuel => None
  end.

(** ** Primitive operations *)

Section Primitives.
Context (E : Env).

(** The entries of the script's directory. When the scripts are started
    from their own directory, that is the working directory itself. *)
Definition script_files (w : World) : gmap string node :=
  if String.eqb (script_directory E) (getcwd E) then cwd w else sfiles w.

Definition set_cwd (d : gmap string node) : M unit := fun w =>
  (Ok tt, mkWorld d (sfiles w) (stdin w) (ticks w), []).

Definition tick : M nat := fun w =>
  (Ok (ticks w), mkWorld (cwd w) (sfiles w) (stdin w) (S (ticks w)), []).

(** [os.path.isdir(name)], [os.path.isfile(name)], [os.path.exists(name)]
    for an entry of the working directory. *)
Definition isdir (name : string) : M bool := fun w =>
  (Ok (is_dir (cwd w !! name)), w, []).
Definition isfile (name : string) : M bool := fun w =>
  (Ok (is_file (cwd w !! name)), w, []).
Definition path_exists (name : string) : M bool := fun w =>
  (Ok (exists_ (cwd w !! name)), w, []).

(** [os.path.exists] for an entry of the script's directory. *)
Definition script_path_exists (name : string) : M bool := fun w =>
  (Ok (exists_ (script_files w !! name)), w, []).

(** [shutil.rmtree(name)], for an entry that is a directory (the only
    call is guarded by [os.path.isdir]). Entries are regular files and
    directories: a symbolic link, on which [rmtree] would raise, is not
    among them. *)
Definition rmtree (name : string) : M unit :=
  w ← get_world;
  emit (Rmtree name) ;;
  set_cwd (delete name (cwd w)).

(** [os.listdir()] *)
Definition listdir : M (list string) :=
  w ← get_world;
  emit Listdir ;;
  ret (map_to_list (cwd w)).*1.

(** [os.remove(name)] *)
Definition remove (name : string) : M unit :=
  w ← get_world;
  match cwd w !! name with
  | Some (File _) => emit (Remove name) ;; set_cwd (delete name (cwd w))
  | Some (Dir _) => raise (IsADirectoryError name)
  | None => raise (FileNotFoundError name)
  end.

(** [with open(path, "w") as f: f.write(content)] where [path] names the
    entry [name] of the working directory. *)
Definition write_file (name path content : string) : M unit :=
  w ← get_world;
  match cwd w !! name with
  | Some (Dir _) => raise (IsADirectoryError path)
  | _ => emit (WriteFile path content) ;;
         set_cwd (<[name := File content]> (cwd w))
  end.

(** [with open(path, "r") as f: f.read()] where [path] names the entry
    [name] of the script's directory. The text of the file is returned as
    it is stored, which is what [read()] gives for a text without carriage
    returns (reading in text mode replaces them by line feeds). *)
Definition read_script_file (name path : string) : M string :=
  w ← get_world;
  match script_files w !! name with
  | Some (File content) => ret content
  | Some (Dir _) => raise (IsADirectoryError path)
  | None => raise (FileNotFoundError path)
  end.

(** [client.get(url, headers=headers)]: the status code of the response,
    or the transport error raised instead. *)
Definition http_get (url : string) (headers : list (string * string)) : M Z :=
  n ← tick;
  emit (HttpGet url headers) ;;
  match http E n with
  | Response status_code => ret status_code
  | NoResponse msg => raise (TransportError msg)
  end.

(** [client.post(url, json=data, headers=headers)] *)
Definition http_post (url : string) (data : payload)
    (headers : list (string * string)) : M Z :=
  n ← tick;
  emit (HttpPost url data headers) ;;
  match http E n with
  | Response status_code => ret status_code
  | NoResponse msg => raise (TransportError msg)
  end.

(** [response.raise_for_status()] *)
Definition raise_for_status (status_code : Z) : M unit :=
  if raises_for_status E status_code
  then raise (HTTPStatusError status_code)
  else ret tt.

(** [subprocess.run(cmd, check=check)]. The command is assumed to start;
    its exit code and what it does to the working directory come from the
    environment. *)
Definition subprocess_run (cmd : list string) (check : bool) : M Z :=
  n ← tick;
  w ← get_world;
  emit (Run cmd) ;;
  let '(code, d) := proc E n cmd (cwd w) in
  set_cwd d ;;
  if (check && negb (code =? 0))%bool
  then raise (CalledProcessError cmd code)
  else ret code.

(** [for item in items: body(item)] *)
Fixpoint for_each {A} (items : list A) (body : A -> M unit) : M unit :=
  match items with
  | [] => ret tt
  | item :: rest => body item ;; for_each rest body
  end.

(** [try: x = rhs; rest(x)  except <handles> as e: h(x, e)]. In the handler
    the variable [x] is bound only if the assignment was completed. *)
Definition try_assign_except {A B} (rhs : M A) (rest : A -> M B)
    (handles : exn -> bool) (h : option A -> exn -> M B) : M B :=
  fun w =>
    match rhs w with
    | (Ok a, w1, t1) =>
        match try_except (rest a) handles (h (Some a)) w1 with
        | (r, w2, t2) => (r, w2, t1 ++ t2)
        end
    | (Raise e, w1, t1) =>
        if handles e then
          match h None e w1 with
          | (r, w2, t2) => (r, w2, t1 ++ t2)
          end
        else (Raise e, w1, t1)
    | (Exit c, w1, t1) => (Exit c, w1, t1)
    | (OutOfFuel, w1, t1) => (OutOfFuel, w1, t1)
    end.

(** The two workflow scripts share these functions word for word. *)

(** [clean_git_artifacts()] *)
Definition clean_git_artifacts : M unit :=
  d ← isdir ".git";
  (if d : bool then
     print "Cleaning up existing .git directory..." ;;
     rmtree ".git"
   else ret tt) ;;
  items ← listdir;
  for_each items (fun item =>
    if startswith ".git" item then
      f ← isfile item;
      if f : bool then
        remove item ;;
        print ("Removed " +:+ item)
      else ret tt
    else ret tt).

(** The text written to the README: "# ", the name, an empty line, the
    description. *)
Definition readme_content (repo_name repo_description : string) : string :=
  "# " +:+ repo_name +:+ "

" +:+ repo_description.

(** The README block, the same in both workflow scripts (the first lines of
    [setup_git_repository] in the httpx script, module level in the requests
    script): [if not os.path.exists(readme_path): ... f.write(...)]. *)
Definition create_readme (repo_name repo_description : string) : M unit :=
  let readme_path := "README.md" in
  e ← path_exists readme_path;
  if negb e then
    print ("Creating " +:+ readme_path +:+ "...") ;;
    write_file readme_path readme_path (readme_content repo_name repo_description)
  else ret tt.

Definition api_headers (github_token : string) : list (string * string) :=
  [ ("Authorization", "token " +:+ github_token);
    ("Accept", "application/vnd.github.v3+json") ].

Definition repos_url (username repo_name : string) : string :=
  "https://api.github.com/repos/" +:+ username +:+ "/" +:+ repo_name.

Definition remote_url_of (username repo_name : string) : string :=
  "git@github.com:" +:+ username +:+ "/" +:+ repo_name +:+ ".git".

(** [if not token:] *)
Definition token_missing (t : option string) : bool :=
  match t with
  | None => true
  | Some s => String.eqb s ""
  end.
End Primitives.

Definition overwrite_question : string :=
  ".gitignore already exists. Do you want to overwrite it? (y/n): ".
Definition name_question : string :=
  "Enter the name of the new GitHub repository: ".
Definition retry_question : string :=
  "Do you want to try a different name? (y/n): ".
Definition github_api_url : string := "https://api.github.com/user/repos".

(** ** create_github_public_repo_httpx.py *)

Module Httpx.
Section Script.
Context (E : Env).

Definition get_script_directory : string := script_directory E.

(** [create_gitignore(project_path)]; the caller passes the working
    directory, so [gitignore_path] names its entry [.gitignore]. *)
Definition create_gitignore (project_path : string) : M unit :=
  let script_dir := get_script_directory in
  let gitignore_template_path := path_join script_dir ".gitignore_template" in
  let gitignore_path := path_join project_path ".gitignore" in
  e ← path_exists ".gitignore";
  proceed ← (if e : bool then
               user_input ← input overwrite_question;
               if negb (String.eqb (lower user_input) "y") then
                 print "Keeping existing .gitignore file" ;;
                 ret false
               else ret true
             else ret true);
  if proceed : bool then
    t ← script_path_exists E ".gitignore_template";
    (if negb t then
       raise (FileNotFoundError
                (".gitignore_template not found at " +:+ gitignore_template_path))
     else ret tt) ;;
    try_except
      (gitignore_content ← read_script_file E ".gitignore_template"
                                            gitignore_template_path;
       write_file ".gitignore" gitignore_path gitignore_content ;;
       print ("Created .gitignore file at " +:+ gitignore_path))
      is_IOError
      (fun e =>
         print ("Error writing .gitignore file: " +:+ str_exn E e) ;;
         raise e)
  else ret tt.

(** [check_github_repo_exists(client, username, repo_name, headers)] *)
Definition check_github_repo_exists (username repo_name : string)
    (headers : list (string * string)) : M bool :=
  let url := repos_url username repo_name in
  status_code ← http_get E url headers;
  ret (status_code =? 200).

(** [setup_git_repository(repo_name, repo_description)] *)
Definition setup_git_repository (repo_name repo_description : string) : M unit :=
  create_readme repo_name repo_description ;;
  print "Initializing local Git repository..." ;;
  subprocess_run E ["git"; "init"] true ;;
  print "Creating and switching to 'main' branch..." ;;
  subprocess_run E ["git"; "checkout"; "-b"; "main"] true ;;
  ret tt.

(** The [while True:] loop of [main] that asks for the repository name.
    Every iteration reads at least one line, so the loop is run with more
    fuel than there are lines of input. *)
Fixpoint name_loop (fuel : nat) (github_username : string)
    (headers : list (string * string)) : M string :=
  match fuel with
  | O => fun w => (OutOfFuel, w, [])
  | S fuel' =>
      repo_name ← input name_question;
      taken ← check_github_repo_exists github_username repo_name headers;
      if taken : bool then
        print ("Repository '" +:+ repo_name +:+ "' already exists on GitHub!") ;;
        answer ← input retry_question;
        if negb (String.eqb (lower answer) "y") then exit 1
        else name_loop fuel' github_username headers
      else ret repo_name
  end.

(** The [try] block of [main] around the creation request. *)
Definition create_repository (repo_name repo_description : string)
    (headers : list (string * string)) : M unit :=
  let data := Payload repo_name repo_description false in
  try_assign_except
    (http_post E github_api_url data headers)
    (fun response =>
       raise_for_status E response ;;
       print ("Repository '" +:+ repo_name +:+ "' created successfully on GitHub!"))
    is_HTTPError
    (fun response e =>
       print ("Error creating repository: " +:+ str_exn E e) ;;
       match response with
       | None => raise (UnboundLocalError "response")
       | Some status_code =>
           (if status_code =? 422 then
              print "This might mean the repository already exists or the name is invalid."
            else ret tt) ;;
           exit 1
       end).

(** [main()] *)
Definition main : M unit :=
  github_username ← input "Enter your GitHub username: ";
  let github_token := GITHUB_TOKEN E in
  (if token_missing github_token then
     print "GitHub token is not set. Please set the GITHUB_TOKEN environment variable." ;;
     exit 1
   else ret tt) ;;
  let headers := api_headers (default "" github_token) in
  w ← get_world;
  repo_name ← name_loop (S (length (stdin w))) github_username headers;
  repo_description ← input "Enter a description for the repository: ";
  clean_git_artifacts ;;
  create_repository repo_name repo_description headers ;;
  let project_path := getcwd E in
  try_except (create_gitignore project_path) is_Exception
    (fun e => print ("Error creating .gitignore: " +:+ str_exn E e) ;; exit 1) ;;
  try_except (setup_git_repository repo_name repo_description)
    is_CalledProcessError
    (fun e => print ("Error setting up git repository: " +:+ str_exn E e) ;; exit 1) ;;
  try_except
    (print "Adding files according to .gitignore rules..." ;;
     subprocess_run E ["git"; "add"; "."] true ;;
     subprocess_run E ["git"; "commit"; "-m"; "Initial commit"] true ;;
     ret tt)
    is_CalledProcessError
    (fun e => print ("Error during git add/commit: " +:+ str_exn E e) ;; exit 1) ;;
  let remote_url := remote_url_of github_username repo_name in
  try_except
    (subprocess_run E ["git"; "remote"; "add"; "origin"; remote_url] true ;;
     print ("Pushing to remote repository: " +:+ remote_url) ;;
     subprocess_run E ["git"; "push"; "-u"; "origin"; "main"] true ;;
     print ("Project successfully pushed to GitHub at " +:+ remote_url))
    is_CalledProcessError
    (fun e =>
       print ("Error pushing to GitHub: " +:+ str_exn E e) ;;
       print "This might be due to SSH key issues or network problems." ;;
       exit 1).
End Script.
End Httpx.

(** ** create_github_public_repo_requests.py *)

Module Requests.
Section Script.
Context (E : Env).

Definition get_script_directory : string := script_directory E.

(** [create_gitignore(project_path)]; the caller passes the working
    directory, so [gitignore_path] names its entry [.gitignore]. *)
Definition create_gitignore (project_path : string) : M unit :=
  let script_dir := get_script_directory in
  let gitignore_script := path_join script_dir "create_gitignore.py" in
  s ← script_path_exists E "create_gitignore.py";
  (if negb s then
     raise (FileNotFoundError
              ("create_gitignore.py not found at " +:+ gitignore_script))
   else ret tt) ;;
  let gitignore_path := path_join project_path ".gitignore" in
  e ← path_exists ".gitignore";
  proceed ← (if e : bool then
               user_input ← input overwrite_question;
               if negb (String.eqb (lower user_input) "y") then
                 print "Keeping existing .gitignore file" ;;
                 ret false
               else
                 print "Overwriting existing .gitignore file" ;;
                 ret true
             else ret true);
  if proceed : bool then
    try_except
      (subprocess_run E ["python"; gitignore_script] true ;;
       print "Created .gitignore using create_gitignore.py")
      is_CalledProcessError
      (fun e =>
         print ("Error creating .gitignore: " +:+ str_exn E e) ;;
         raise e)
  else ret tt.

(** [check_github_repo_exists(repo_name, headers)], which reads the global
    [GITHUB_USERNAME]. *)
Definition check_github_repo_exists (GITHUB_USERNAME repo_name : string)
    (headers : list (string * string)) : M bool :=
  let url := repos_url GITHUB_USERNAME repo_name in
  status_code ← http_get E url headers;
  ret (status_code =? 200).

(** The module-level [while True:] loop that asks for the repository
    name. *)
Fixpoint name_loop (fuel : nat) (GITHUB_USERNAME : string)
    (headers : list (string * string)) : M string :=
  match fuel with
  | O => fun w => (OutOfFuel, w, [])
  | S fuel' =>
      repo_name ← input name_question;
      taken ← check_github_repo_exists GITHUB_USERNAME repo_name headers;
      if taken : bool then
        print ("Repository '" +:+ repo_name +:+ "' already exists on GitHub!") ;;
        continue_anyway ← input retry_question;
        if String.eqb (lower continue_anyway) "y"
        then name_loop fuel' GITHUB_USERNAME headers
        else exit 1
      else ret repo_name
  end.

(** The module-level [try] block around the creation request. *)
Definition create_repository (repo_name repo_description : string)
    (headers : list (string * string)) : M unit :=
  let data := Payload repo_name repo_description false in
  try_assign_except
    (http_post E github_api_url data headers)
    (fun response =>
       raise_for_status E response ;;
       print ("Repository '" +:+ repo_name +:+ "' created successfully on GitHub!"))
    is_HTTPError
    (fun response e =>
       print ("Error creating repository: " +:+ str_exn E e) ;;
       match response with
       | None => raise (NameError "response")
       | Some status_code =>
           (if status_code =? 422 then
              print "This might mean the repository already exists or the name is invalid."
            else ret tt) ;;
           exit 1
       end).

(** The statements of the module, run from top to bottom. *)
Definition script : M unit :=
  GITHUB_USERNAME ← input "Enter your GitHub username: ";
  let GITHUB_TOKEN_ := GITHUB_TOKEN E in
  (if token_missing GITHUB_TOKEN_ then
     print "GitHub token is not set. Please set the GITHUB_TOKEN environment variable." ;;
     exit 1
   else ret tt) ;;
  let headers := api_headers (default "" GITHUB_TOKEN_) in
  w ← get_world;
  repo_name ← name_loop (S (length (stdin w))) GITHUB_USERNAME headers;
  repo_description ← input "Enter a description for the repository: ";
  clean_git_artifacts ;;
  create_repository repo_name repo_description headers ;;
  let project_path := getcwd E in
  try_except (create_gitignore project_path) is_Exception
    (fun e => print ("Error during .gitignore creation: " +:+ str_exn E e) ;; exit 1) ;;
  print "Initializing local Git repository..." ;;
  try_except (subprocess_run E ["git"; "init"] true ;; ret tt)
    is_CalledProcessError
    (fun e => print ("Error initializing git repository: " +:+ str_exn E e) ;; exit 1) ;;
  create_readme repo_name repo_description ;;
  print "Creating and switching to 'main' branch..." ;;
  try_except (subprocess_run E ["git"; "checkout"; "-b"; "main"] true ;; ret tt)
    is_CalledProcessError
    (fun e => print ("Error creating main branch: " +:+ str_exn E e) ;; exit 1) ;;
  print "Adding files according to .gitignore rules..." ;;
  try_except
    (subprocess_run E ["git"; "add"; "."] true ;;
     subprocess_run E ["git"; "commit"; "-m"; "Initial commit"] true ;;
     ret tt)
    is_CalledProcessError
    (fun e => print ("Error during git add/commit: " +:+ str_exn E e) ;; exit 1) ;;
  let remote_url := remote_url_of GITHUB_USERNAME repo_name in
  try_except
    (subprocess_run E ["git"; "remote"; "add"; "origin"; remote_url] true ;; ret tt)
    is_CalledProcessError
    (fun e => print ("Error adding remote: " +:+ str_exn E e) ;; exit 1) ;;
  print ("Pushing to remote repository: " +:+ remote_url) ;;
  try_except
    (subprocess_run E ["git"; "push"; "-u"; "origin"; "main"] true ;;
     print ("Project successfully pushed to GitHub at " +:+ remote_url))
    is_CalledProcessError
    (fun e =>
       print ("Error pushing to GitHub: " +:+ str_exn E e) ;;
       print "This might be due to SSH key issues or network problems." ;;
       exit 1).
End Script.
End Requests.

(** ** create_gitignore.py *)

Module Standalone.
Section Script.
Context (E : Env).

Definition gitignore_content : string :=
"# Python-related
*.py[cod]
__pycache__/
*.so

# Environment Variables
.env
.config

# Virtual environments
.venv/
env/
ENV/
venv/

# IDEs and editors
.vscode/
.idea/
*.swp
*.swo
*.iml

# Poetry files
poetry.lock

# Operating system files
.DS_Store
Thumbs.db

# Logs and databases
*.log
*.sqlite3
*.db

# Django-related
# Django migration files (keep migrations if needed for versioning)
*.pyc

# Local settings (such as secret keys and local configuration)
local_settings.py
settings_local.py

# Packages #
############
# it's better to unpack these files and commit the raw source
# git has its own built in compression methods
*.7z
*.dmg
*.gz
*.iso
*.jar
*.rar
*.tar
*.zip

# Database files
*.sqlite3
db.sqlite3

# Media and static files
/media/
/static/

# Django secret key file (optional, if used)
.secret_key

# Tests
.coverage
.tox/

# Git-related
*.orig
*.rej

# Qodo
*.qodo
".

(** [create_gitignore(project_path)]; the caller passes the working
    directory, so [gitignore_path] names its entry [.gitignore]. The three
    commands are run without [check=True] and their results are dropped. *)
Definition create_gitignore (project_path : string) : M unit :=
  let gitignore_path := path_join project_path ".gitignore" in
  write_file ".gitignore" gitignore_path gitignore_content ;;
  print ("Created .gitignore file at " +:+ gitignore_path) ;;
  subprocess_run E ["git"; "add"; ".gitignore"] false ;;
  subprocess_run E ["git"; "commit"; "-m"; "Add .gitignore file"] false ;;
  subprocess_run E ["git"; "push"] false ;;
  ret tt.

(** [main()] *)
Definition main : M unit :=
  let project_path := getcwd E in
  create_gitignore project_path.
End Script.
End Standalone.

(** * Vocabulary of the properties *)

(** ** Runs *)

(** The three components of a run: how it ends, the state it leaves, and
    its events. *)
Definition outcome {A} (x : result A * World * list event) : result A := x.1.1.
Definition final {A} (x : result A * World * list event) : World := x.1.2.
Definition trace {A} (x : result A * World * list event) : list event := x.2.

(** ** The cleanup *)

(** Whether the cleanup removes the entry [name] whose node is [o]. *)
Definition swept (name : string) (o : option node) : bool :=
  (String.eqb name ".git" && is_dir o) || (startswith ".git" name && is_file o).

(** The events of the loop of the cleanup. *)
Definition is_removal (e : event) : Prop :=
  match e with
  | Remove _ | Print _ => True
  | _ => False
  end.

(** The body of the loop of [clean_git_artifacts], under a name. *)
Definition sweep_body (item : string) : M unit :=
  if startswith ".git" item then
    f ← isfile item;
    if f : bool then
      remove item ;;
      print ("Removed " +:+ item)
    else ret tt
  else ret tt.

(** The state after one more external call. *)
Definition ticked (w : World) : World :=
  mkWorld (cwd w) (sfiles w) (stdin w) (S (ticks w)).

(** ** The name loop *)

(** The events of an iteration that finds the name taken. *)
Definition taken_events (username name : string) (headers : list (string * string))
  : list event :=
  [Prompt name_question;
   HttpGet (repos_url username name) headers;
   Print ("Repository '" +:+ name +:+ "' already exists on GitHub!");
   Prompt retry_question].

(** The behaviour the specification asks of the loop, written as a relation
    between the input still to be read (and the number of external calls
    made) before and after the loop, its outcome and the events of the run.
    A name whose lookup is answered with status 200 is taken. The retry
    answer counts as a yes when its lower-case form is "y". *)
Inductive name_loop_spec (E : Env) (username : string)
    (headers : list (string * string)) :
    nat -> list string -> result string -> list string -> nat -> list event -> Prop :=
| spec_free n name rest status_code :
    http E n = Response status_code -> status_code <> 200 ->
    name_loop_spec E username headers n (name :: rest) (Ok name) rest (S n)
      [Prompt name_question; HttpGet (repos_url username name) headers]
| spec_opt_out n name answer rest :
    http E n = Response 200 -> lower answer <> "y" ->
    name_loop_spec E username headers n (name :: answer :: rest) (Exit 1) rest (S n)
      (taken_events username name headers)
| spec_retry n name answer rest r rest' n' t :
    http E n = Response 200 -> lower answer = "y" ->
    name_loop_spec E username headers (S n) rest r rest' n' t ->
    name_loop_spec E username headers n (name :: answer :: rest) r rest' n'
      (taken_events username name headers ++ t)
| spec_eof_name n :
    name_loop_spec E username headers n [] (Raise EOFError) [] n
      [Prompt name_question]
| spec_eof_answer n name :
    http E n = Response 200 ->
    name_loop_spec E username headers n [name] (Raise EOFError) [] (S n)
      (taken_events username name headers)
| spec_no_response n name rest msg :
    http E n = NoResponse msg ->
    name_loop_spec E username headers n (name :: rest)
      (Raise (TransportError msg)) rest (S n)
      [Prompt name_question; HttpGet (repos_url username name) headers].

(** What the specification relates to a run [x] of the loop from [w]. *)
Definition meets_name_loop_spec (E : Env) (username : string)
    (headers : list (string * string)) (w : World)
    (x : result string * World * list event) : Prop :=
  name_loop_spec E username headers (ticks w) (stdin w)
    (outcome x) (stdin (final x)) (ticks (final x)) (trace x) /\
  cwd (final x) = cwd w /\ sfiles (final x) = sfiles w.

(** ** Concrete environments and states *)

Module Demo.
(** The first lookup finds the name, the second does not, the creation
    request is answered with 201; every command succeeds and leaves the
    working directory alone. *)
Definition env : Env := {|
  getcwd := "/home/u/demo";
  script_directory := "/opt/tools";
  GITHUB_TOKEN := Some "tok";
  raises_for_status := fun status_code =>
    ((400 <=? status_code) && (status_code <? 600))%bool;
  str_exn := fun _ => "error";
  http := fun n =>
    match n with
    | O => Response 200
    | 1%nat => Response 404
    | _ => Response 201
    end;
  proc := fun _ _ d => (0, d)
|}.

(** The same, but the creation request gets no response. *)
Definition env_offline : Env := {|
  getcwd := "/home/u/demo";
  script_directory := "/opt/tools";
  GITHUB_TOKEN := Some "tok";
  raises_for_status := fun status_code =>
    ((400 <=? status_code) && (status_code <? 600))%bool;
  str_exn := fun _ => "error";
  http := fun n =>
    match n with
    | O => Response 404
    | _ => NoResponse "connection refused"
    end;
  proc := fun _ _ d => (0, d)
|}.

(** Every command fails with exit code 128. *)
Definition env_git_fails : Env := {|
  getcwd := "/home/u/demo";
  script_directory := "/opt/tools";
  GITHUB_TOKEN := Some "tok";
  raises_for_status := fun _ => false;
  str_exn := fun _ => "error";
  http := fun _ => Response 200;
  proc := fun _ _ d => (128, d)
|}.

(** No token in the environment. *)
Definition env_no_token : Env := {|
  getcwd := "/home/u/demo";
  script_directory := "/opt/tools";
  GITHUB_TOKEN := None;
  raises_for_status := fun _ => false;
  str_exn := fun _ => "error";
  http := fun _ => Response 200;
  proc := fun _ _ d => (0, d)
|}.

(** The directory of the scripts. *)
Definition tools : gmap string node :=
  <[".gitignore_template" := File "*.pyc"]>
    (<["create_gitignore.py" := File "import os"]> ∅).

(** A working directory with an old [.gitignore], a [.git] directory and a
    [.github] directory. *)
Definition dir_old : gmap string node :=
  <[".gitignore" := File "old"]>
    (<[".git" := Dir [("HEAD", "ref: refs/heads/main")]]>
       (<[".github" := Dir []]> ∅)).

(** The start of a run with the lines [inp] on standard input. *)
Definition world (inp : list string) : World := mkWorld dir_old tools inp 0.

Definition headers : list (string * string) := api_headers "tok".
End Demo.

(** ** Writing [.gitignore] *)

(** The events of a declined overwrite. *)
Definition keeping : list event :=
  [Prompt overwrite_question; Print "Keeping existing .gitignore file"].

(** The state after a line of input has been read. *)
Definition consumed (w : World) (rest : list string) : World :=
  mkWorld (cwd w) (sfiles w) rest (ticks w).

(** How [create_gitignore] gets past its question: either there is no
    [.gitignore] and nothing is asked, or there is one and the answer read
    is "y" in lower case. [said] is what is printed after the answer. *)
Inductive confirmed (said : list event) (w : World) : list event -> World -> Prop :=
| confirmed_absent :
    exists_ (cwd w !! ".gitignore") = false ->
    confirmed said w [] w
| confirmed_yes answer rest :
    exists_ (cwd w !! ".gitignore") = true ->
    stdin w = answer :: rest ->
    lower answer = "y" ->
    confirmed said w (Prompt overwrite_question :: said) (consumed w rest).

(** The runs of [Httpx.create_gitignore]. *)
Inductive httpx_gitignore_run (E : Env) (project_path : string) (w : World) :
    result unit * World * list event -> Prop :=
| httpx_gi_eof :
    exists_ (cwd w !! ".gitignore") = true -> stdin w = [] ->
    httpx_gitignore_run E project_path w (Raise EOFError, w, [Prompt overwrite_question])
| httpx_gi_keep answer rest :
    exists_ (cwd w !! ".gitignore") = true -> stdin w = answer :: rest ->
    lower answer <> "y" ->
    httpx_gitignore_run E project_path w (Ok tt, consumed w rest, keeping)
| httpx_gi_written pre w1 content :
    confirmed [] w pre w1 ->
    script_files E w !! ".gitignore_template" = Some (File content) ->
    is_dir (cwd w !! ".gitignore") = false ->
    httpx_gitignore_run E project_path w
      (Ok tt,
       mkWorld (<[".gitignore" := File content]> (cwd w)) (sfiles w) (stdin w1)
               (ticks w),
       pre ++ [WriteFile (path_join project_path ".gitignore") content;
               Print ("Created .gitignore file at " +:+
                      path_join project_path ".gitignore")])
| httpx_gi_no_template pre w1 msg :
    confirmed [] w pre w1 ->
    script_files E w !! ".gitignore_template" = None ->
    httpx_gitignore_run E project_path w (Raise (FileNotFoundError msg), w1, pre)
| httpx_gi_io_error pre w1 path :
    confirmed [] w pre w1 ->
    httpx_gitignore_run E project_path w
      (Raise (IsADirectoryError path), w1,
       pre ++ [Print ("Error writing .gitignore file: " +:+
                      str_exn E (IsADirectoryError path))]).

(** The command by which the requests script has [.gitignore] written. *)
Definition python_cmd (E : Env) : list string :=
  ["python"; path_join (script_directory E) "create_gitignore.py"].

(** The state after the n-th external call [cmd] has run in [w]. *)
Definition after_cmd (E : Env) (cmd : list string) (w : World) : World :=
  mkWorld (proc E (ticks w) cmd (cwd w)).2 (sfiles w) (stdin w) (S (ticks w)).

(** The exit code of the external call [cmd] run in [w]. *)
Definition exit_code (E : Env) (cmd : list string) (w : World) : Z :=
  (proc E (ticks w) cmd (cwd w)).1.

(** The runs of [Requests.create_gitignore]. *)
Inductive requests_gitignore_run (E : Env) (project_path : string) (w : World) :
    result unit * World * list event -> Prop :=
| requests_gi_no_script msg :
    script_files E w !! "create_gitignore.py" = None ->
    requests_gitignore_run E project_path w (Raise (FileNotFoundError msg), w, [])
| requests_gi_eof :
    exists_ (cwd w !! ".gitignore") = true -> stdin w = [] ->
    requests_gitignore_run E project_path w
      (Raise EOFError, w, [Prompt overwrite_question])
| requests_gi_keep answer rest :
    exists_ (cwd w !! ".gitignore") = true -> stdin w = answer :: rest ->
    lower answer <> "y" ->
    requests_gitignore_run E project_path w (Ok tt, consumed w rest, keeping)
| requests_gi_ran pre w1 :
    confirmed [Print "Overwriting existing .gitignore file"] w pre w1 ->
    exit_code E (python_cmd E) w1 = 0 ->
    requests_gitignore_run E project_path w
      (Ok tt, after_cmd E (python_cmd E) w1,
       pre ++ [Run (python_cmd E);
               Print "Created .gitignore using create_gitignore.py"])
| requests_gi_failed pre w1 :
    confirmed [Print "Overwriting existing .gitignore file"] w pre w1 ->
    exit_code E (python_cmd E) w1 <> 0 ->
    requests_gitignore_run E project_path w
      (Raise (CalledProcessError (python_cmd E) (exit_code E (python_cmd E) w1)),
       after_cmd E (python_cmd E) w1,
       pre ++ [Run (python_cmd E);
               Print ("Error creating .gitignore: " +:+
                      str_exn E (CalledProcessError (python_cmd E)
                                   (exit_code E (python_cmd E) w1)))]).

(** Writing a file, or running a command (which may write). *)
Definition is_write (e : event) : Prop :=
  match e with
  | WriteFile _ _ | Run _ => True
  | _ => False
  end.

(** A run [x] from [w] of a [create_gitignore] that respects an existing
    [.gitignore]: the working directory is changed, a file written or a
    command run only after the overwrite question has been answered with
    "y" or "Y". *)
Definition guarded (w : World) (x : result unit * World * list event) : Prop :=
  cwd (final x) <> cwd w \/ Exists is_write (trace x) ->
  exists answer rest,
    stdin w = answer :: rest /\ (answer = "y" \/ answer = "Y") /\
    head (trace x) = Some (Prompt overwrite_question).

(** A run [x] from [w] in which every other answer makes [create_gitignore]
    return at once, with nothing but the line of input consumed. *)
Definition declinable (w : World) (x : result unit * World * list event) : Prop :=
  forall answer rest,
    stdin w = answer :: rest -> answer <> "y" -> answer <> "Y" ->
    x = (Ok tt, consumed w rest, keeping).

(** ** The two halves of the workflow scripts *)

Definition username_question : string := "Enter your GitHub username: ".
Definition description_question : string := "Enter a description for the repository: ".

(** What [Httpx.main] does after the cleanup. That [Httpx.main] is the
    first half followed by [httpx_workflow] is the lemma
    [httpx_main_splits]. *)
Definition httpx_publish (E : Env) (github_username repo_name repo_description : string)
    (headers : list (string * string)) : M unit :=
  Httpx.create_repository E repo_name repo_description headers ;;
  let project_path := getcwd E in
  try_except (Httpx.create_gitignore E project_path) is_Exception
    (fun e => print ("Error creating .gitignore: " +:+ str_exn E e) ;; exit 1) ;;
  try_except (Httpx.setup_git_repository E repo_name repo_description)
    is_CalledProcessError
    (fun e => print ("Error setting up git repository: " +:+ str_exn E e) ;; exit 1) ;;
  try_except
    (print "Adding files according to .gitignore rules..." ;;
     subprocess_run E ["git"; "add"; "."] true ;;
     subprocess_run E ["git"; "commit"; "-m"; "Initial commit"] true ;;
     ret tt)
    is_CalledProcessError
    (fun e => print ("Error during git add/commit: " +:+ str_exn E e) ;; exit 1) ;;
  let remote_url := remote_url_of github_username repo_name in
  try_except
    (subprocess_run E ["git"; "remote"; "add"; "origin"; remote_url] true ;;
     print ("Pushing to remote repository: " +:+ remote_url) ;;
     subprocess_run E ["git"; "push"; "-u"; "origin"; "main"] true ;;
     print ("Project successfully pushed to GitHub at " +:+ remote_url))
    is_CalledProcessError
    (fun e =>
       print ("Error pushing to GitHub: " +:+ str_exn E e) ;;
       print "This might be due to SSH key issues or network problems." ;;
       exit 1).

(** What [Httpx.main] does once the description has been read. *)
Definition httpx_workflow (E : Env) (github_username repo_name repo_description : string)
    (headers : list (string * string)) : M unit :=
  clean_git_artifacts ;;
  httpx_publish E github_username repo_name repo_description headers.

(** What the requests script does after the cleanup. That the script is
    the first half followed by [requests_workflow] is the lemma
    [requests_script_splits]. *)
Definition requests_publish (E : Env) (GITHUB_USERNAME repo_name repo_description : string)
    (headers : list (string * string)) : M unit :=
  Requests.create_repository E repo_name repo_description headers ;;
  let project_path := getcwd E in
  try_except (Requests.create_gitignore E project_path) is_Exception
    (fun e => print ("Error during .gitignore creation: " +:+ str_exn E e) ;; exit 1) ;;
  print "Initializing local Git repository..." ;;
  try_except (subprocess_run E ["git"; "init"] true ;; ret tt)
    is_CalledProcessError
    (fun e => print ("Error initializing git repository: " +:+ str_exn E e) ;; exit 1) ;;
  create_readme repo_name repo_description ;;
  print "Creating and switching to 'main' branch..." ;;
  try_except (subprocess_run E ["git"; "checkout"; "-b"; "main"] true ;; ret tt)
    is_CalledProcessError
    (fun e => print ("Error creating main branch: " +:+ str_exn E e) ;; exit 1) ;;
  print "Adding files according to .gitignore rules..." ;;
  try_except
    (subprocess_run E ["git"; "add"; "."] true ;;
     subprocess_run E ["git"; "commit"; "-m"; "Initial commit"] true ;;
     ret tt)
    is_CalledProcessError
    (fun e => print ("Error during git add/commit: " +:+ str_exn E e) ;; exit 1) ;;
  let remote_url := remote_url_of GITHUB_USERNAME repo_name in
  try_except
    (subprocess_run E ["git"; "remote"; "add"; "origin"; remote_url] true ;; ret tt)
    is_CalledProcessError
    (fun e => print ("Error adding remote: " +:+ str_exn E e) ;; exit 1) ;;
  print ("Pushing to remote repository: " +:+ remote_url) ;;
  try_except
    (subprocess_run E ["git"; "push"; "-u"; "origin"; "main"] true ;;
     print ("Project successfully pushed to GitHub at " +:+ remote_url))
    is_CalledProcessError
    (fun e =>
       print ("Error pushing to GitHub: " +:+ str_exn E e) ;;
       print "This might be due to SSH key issues or network problems." ;;
       exit 1).

(** What the requests script does once the description has been read. *)
Definition requests_workflow (E : Env) (GITHUB_USERNAME repo_name repo_description : string)
    (headers : list (string * string)) : M unit :=
  clean_git_artifacts ;;
  requests_publish E GITHUB_USERNAME repo_name repo_description headers.

(** The [headers] of the scripts. *)
Definition token_headers (E : Env) : list (string * string) :=
  api_headers (default "" (GITHUB_TOKEN E)).

(** How a workflow script gets from its start in [w] to the cleanup: it
    either stops before, with [r], [w'] and the events [t], or it reaches
    the cleanup in [w'] after the events [t], with the three lines read. *)
Inductive prelude_run (E : Env) (loop : nat -> string -> list (string * string) -> M string)
    (w : World) : option (string * string * string) -> result unit -> World ->
                  list event -> Prop :=
| prelude_no_username :
    stdin w = [] ->
    prelude_run E loop w None (Raise EOFError) w [Prompt username_question]
| prelude_no_token username inp :
    stdin w = username :: inp ->
    token_missing (GITHUB_TOKEN E) = true ->
    prelude_run E loop w None (Exit 1) (consumed w inp)
      [Prompt username_question;
       Print "GitHub token is not set. Please set the GITHUB_TOKEN environment variable."]
| prelude_loop_raise username inp e w2 t2 :
    stdin w = username :: inp ->
    token_missing (GITHUB_TOKEN E) = false ->
    loop (S (length inp)) username (token_headers E) (consumed w inp) = (Raise e, w2, t2) ->
    prelude_run E loop w None (Raise e) w2 (Prompt username_question :: t2)
| prelude_loop_exit username inp c w2 t2 :
    stdin w = username :: inp ->
    token_missing (GITHUB_TOKEN E) = false ->
    loop (S (length inp)) username (token_headers E) (consumed w inp) = (Exit c, w2, t2) ->
    prelude_run E loop w None (Exit c) w2 (Prompt username_question :: t2)
| prelude_loop_fuel username inp w2 t2 :
    stdin w = username :: inp ->
    token_missing (GITHUB_TOKEN E) = false ->
    loop (S (length inp)) username (token_headers E) (consumed w inp) = (OutOfFuel, w2, t2) ->
    prelude_run E loop w None OutOfFuel w2 (Prompt username_question :: t2)
| prelude_no_description username inp name w2 t2 :
    stdin w = username :: inp ->
    token_missing (GITHUB_TOKEN E) = false ->
    loop (S (length inp)) username (token_headers E) (consumed w inp) = (Ok name, w2, t2) ->
    stdin w2 = [] ->
    prelude_run E loop w None (Raise EOFError) w2
      (Prompt username_question :: t2 ++ [Prompt description_question])
| prelude_done username inp name w2 t2 description rest :
    stdin w = username :: inp ->
    token_missing (GITHUB_TOKEN E) = false ->
    loop (S (length inp)) username (token_headers E) (consumed w inp) = (Ok name, w2, t2) ->
    stdin w2 = description :: rest ->
    prelude_run E loop w (Some (username, name, description)) (Ok tt)
      (consumed w2 rest)
      (Prompt username_question :: t2 ++ [Prompt description_question]).

(** A script whose first half is [prelude_run] and whose second half is
    [workflow]. *)
Definition splits_into (E : Env)
    (loop : nat -> string -> list (string * string) -> M string)
    (workflow : string -> string -> string -> list (string * string) -> M unit)
    (w : World) (x : result unit * World * list event) : Prop :=
  exists reached r w1 t1,
    prelude_run E loop w reached r w1 t1 /\
    match reached with
    | None => x = (r, w1, t1)
    | Some (username, name, description) =>
        x = (outcome (workflow username name description (token_headers E) w1),
             final (workflow username name description (token_headers E) w1),
             t1 ++ trace (workflow username name description (token_headers E) w1))
    end.

(** Events of the first half: questions other than the overwrite question,
    messages and lookups. *)
Definition prelude_event (e : event) : Prop :=
  match e with
  | Prompt msg => msg <> overwrite_question
  | Print _ | HttpGet _ _ => True
  | _ => False
  end.

(** A name loop that meets [name_loop_spec] whenever it is given more fuel
    than there are lines of input. *)
Definition loop_meets_spec (E : Env)
    (loop : nat -> string -> list (string * string) -> M string) : Prop :=
  forall fuel username headers w,
    (length (stdin w) < fuel)%nat ->
    meets_name_loop_spec E username headers w (loop fuel username headers w).

(** ** Steps *)

(** The states of the specification's state machine that follow the name
    loop. *)
Inductive step : Type :=
| CreateRemote
| CleanLocalArtifacts
| WriteGitignore
| InitLocalRepo
| WriteReadme
| CreateBranch
| Commit
| AddRemote
| Push.

#[global] Instance step_eq_dec : EqDecision step.
Proof. solve_decision. Defined.

(** The step an event belongs to, if it is the act of a step: the listing
    of the working directory is the act of the cleanup, the POST request
    that of the creation of the remote repository, and so on. Staging
    ([git add .]) is no step of its own in the specification. *)
Definition step_of (E : Env) (e : event) : option step :=
  match e with
  | Listdir => Some CleanLocalArtifacts
  | HttpPost _ _ _ => Some CreateRemote
  | WriteFile path _ =>
      if String.eqb path "README.md" then Some WriteReadme
      else if String.eqb path (path_join (getcwd E) ".gitignore")
           then Some WriteGitignore
           else None
  | Run cmd =>
      if bool_decide (cmd = python_cmd E) then Some WriteGitignore
      else if bool_decide (cmd = ["git"; "init"]) then Some InitLocalRepo
      else if bool_decide (cmd = ["git"; "checkout"; "-b"; "main"])
           then Some CreateBranch
      else if bool_decide (cmd = ["git"; "commit"; "-m"; "Initial commit"])
           then Some Commit
      else if bool_decide (take 4 cmd = ["git"; "remote"; "add"; "origin"])
           then Some AddRemote
      else if bool_decide (cmd = ["git"; "push"; "-u"; "origin"; "main"])
           then Some Push
      else None
  | _ => None
  end.

(** The steps of a run, in order. *)
Definition steps (E : Env) (t : list event) : list step := omap (step_of E) t.

(** The order of the specification. *)
Definition spec_order : list step :=
  [CreateRemote; CleanLocalArtifacts; WriteGitignore; InitLocalRepo; WriteReadme;
   CreateBranch; Commit; AddRemote; Push].

(** [a] comes before [b] in [l]: the first [a] is followed by a [b]. *)
Fixpoint comes_before (a b : step) (l : list step) : bool :=
  match l with
  | [] => false
  | x :: l' => if bool_decide (x = a) then bool_decide (b ∈ l')
               else comes_before a b l'
  end.

(** The last character of a string. *)
Fixpoint last_char (s : string) : option ascii :=
  match s with
  | EmptyString => None
  | String c EmptyString => Some c
  | String _ s' => last_char s'
  end.

(** ** Two small logics for straight-line code *)

(** A handler that ends the run. *)
Definition fatal {A} (h : exn -> M A) : Prop :=
  forall e w a, outcome (h e w) <> Ok a.

(** Every event of [m], from every state, is in the class [C]. *)
Definition emits (C : event -> Prop) {A} (m : M A) : Prop :=
  forall w, Forall C (trace (m w)).

(** The steps of every run of [m] that ends normally are in [L]. *)
Definition oksteps (E : Env) {A} (m : M A) (L : list step -> Prop) : Prop :=
  forall w a w' t, m w = (Ok a, w', t) -> L (steps E t).

(** The concatenations of a list of [L1] and a list of [L2]. *)
Definition seq (L1 L2 : list step -> Prop) (s : list step) : Prop :=
  exists s1 s2, s = s1 ++ s2 /\ L1 s1 /\ L2 s2.

(** The steps of a run of the second half that ends normally: [gi] is the
    writing of [.gitignore] and [rd] that of the README, each of which may
    be skipped. *)
Definition httpx_order (gi rd : list step) : list step :=
  [CleanLocalArtifacts; CreateRemote] ++ gi ++ rd ++
  [InitLocalRepo; CreateBranch; Commit; AddRemote; Push].

(** The same for the requests script. *)
Definition requests_order (gi rd : list step) : list step :=
  [CleanLocalArtifacts; CreateRemote] ++ gi ++ [InitLocalRepo] ++ rd ++
  [CreateBranch; Commit; AddRemote; Push].

(** The step [s], or nothing. *)
Definition optional (s : step) (l : list step) : Prop := l = [] \/ l = [s].

(** Events other than the overwrite question and the listing of the
    working directory. *)
Definition calm (e : event) : Prop :=
  match e with
  | Prompt msg => msg <> overwrite_question
  | Listdir => False
  | _ => True
  end.

(** A run that never asks the overwrite question and that, once it has
    listed the working directory, has removed [.gitignore]. *)
Definition no_question_and_removed (t : list event) : Prop :=
  (Prompt overwrite_question ∉ t) /\
  (Listdir ∈ t -> Remove ".gitignore" ∈ t).

(** A run of a workflow script that has got past its questions and has
    then cleaned the working directory: its events are the question for the
    user name, the events [t] of the name loop, the question for the
    description, the events of the cleanup run in [w1], and whatever
    follows. The cleanup run in [w1] removes [.gitignore], and the working
    directory it leaves has no such entry. *)
Definition cleaned_after_questions (t : list event) (w1 : World)
    (tr : list event) : Prop :=
  (exists later,
      tr = Prompt username_question :: t ++
           Prompt description_question :: trace (clean_git_artifacts w1) ++ later) /\
  Remove ".gitignore" ∈ trace (clean_git_artifacts w1) /\
  cwd (final (clean_git_artifacts w1)) !! ".gitignore" = None.

(** ** How the scripts end *)

(** A computation that, from every state, ends normally, or with an
    exception in [X], or with [exit(1)]; it never runs out of fuel. *)
Definition tame (X : exn -> Prop) {A} (m : M A) : Prop :=
  forall w,
    match outcome (m w) with
    | Ok _ => True
    | Raise e => X e
    | Exit c => c = 1
    | OutOfFuel => False
    end.




(** ** What the scripts do to the outside *)

(** The acts of a script that last: a creation request, and a command that
    the script starts. *)
Inductive action : Type :=
| Created (data : payload)
| Command (cmd : list string).

Definition action_of (e : event) : option action :=
  match e with
  | HttpPost _ data _ => Some (Created data)
  | Run cmd => Some (Command cmd)
  | _ => None
  end.

(** The actions of a run, in order. *)
Definition actions (t : list event) : list action := omap action_of t.

(** The git commands of a workflow script for the user [username] and the
    repository [name]. *)
Definition git_commands (username name : string) : list action :=
  [Command ["git"; "init"];
   Command ["git"; "checkout"; "-b"; "main"];
   Command ["git"; "add"; "."];
   Command ["git"; "commit"; "-m"; "Initial commit"];
   Command ["git"; "remote"; "add"; "origin"; remote_url_of username name];
   Command ["git"; "push"; "-u"; "origin"; "main"]].

(** The actions of the httpx script for the user [username], the
    repository [name] and its [description]. *)
Definition httpx_plan (username name description : string) : list action :=
  Created (Payload name description false) :: git_commands username name.

(** The actions of the requests script: the same, with the command that
    starts the writer script after the creation request when [writer] is
    true. What the writer script does in its own process, the commands it
    runs among them, is not an action of the requests script. *)
Definition requests_plan (E : Env) (writer : bool)
    (username name description : string) : list action :=
  Created (Payload name description false) ::
  (if writer then [Command (python_cmd E)] else []) ++ git_commands username name.

(** From every state the actions of [m] are the first actions of [l], and
    all of [l] when [m] ends normally. *)
Definition within {A} (m : M A) (l : list action) : Prop :=
  forall w,
    actions (trace (m w)) `prefix_of` l /\
    (forall a, outcome (m w) = Ok a -> actions (trace (m w)) = l).

(** The same with a choice between two lists, [f true] and [f false], that
    may depend on the state. *)
Definition within_either {A} (m : M A) (f : bool -> list action) : Prop :=
  forall w, exists b,
    actions (trace (m w)) `prefix_of` f b /\
    (forall a, outcome (m w) = Ok a -> actions (trace (m w)) = f b).

(** A run [x] from [w] of a workflow script that follows [plan]: either it
    has performed no action and has not ended normally, or it has read the
    user name and then, as the name loop goes, a free name and the
    description, and its actions are the first actions of the plan for
    these three, and the whole plan when it has ended normally. And a run
    that does read these three, with the token set, sends the creation
    request for them as its first action. *)
Definition follows_plan (E : Env) (w : World)
    (plan : bool -> string -> string -> string -> list action)
    (x : result unit * World * list event) : Prop :=
  ((actions (trace x) = [] /\ outcome x <> Ok tt) \/
   exists username inp name description rest n' t writer,
     stdin w = username :: inp /\
     name_loop_spec E username (token_headers E) (ticks w) inp (Ok name)
       (description :: rest) n' t /\
     actions (trace x) `prefix_of` plan writer username name description /\
     (outcome x = Ok tt ->
      actions (trace x) = plan writer username name description)) /\
  (forall username inp name description rest n' t,
      token_missing (GITHUB_TOKEN E) = false ->
      stdin w = username :: inp ->
      name_loop_spec E username (token_headers E) (ticks w) inp (Ok name)
        (description :: rest) n' t ->
      [Created (Payload name description false)] `prefix_of` actions (trace x)).

(** An event that is no action. *)
Definition inactive (e : event) : Prop := action_of e = None.

(** The requests of a script. *)
Inductive request : Type :=
| Lookup (url : string) (headers : list (string * string))
| Creation (url : string) (data : payload) (headers : list (string * string)).

Definition request_of (e : event) : option request :=
  match e with
  | HttpGet url headers => Some (Lookup url headers)
  | HttpPost url data headers => Some (Creation url data headers)
  | _ => None
  end.

(** The requests of a run, in order. *)
Definition traffic (t : list event) : list request := omap request_of t.

(** An event that is no request. *)
Definition offline (e : event) : Prop := request_of e = None.

(** The lookups of the repository names [names] of the user [username]. *)
Definition lookups (username : string) (headers : list (string * string))
    (names : list string) : list request :=
  map (fun name => Lookup (repos_url username name) headers) names.

(** The requests of a workflow script: lookups of names, followed by at most
    one creation request, which is for the name looked up last and for a
    public repository; all with the same two headers. *)
Definition lookups_then_creation (E : Env) (t : list event) : Prop :=
  exists username names,
    traffic t = lookups username (token_headers E) names \/
    exists name description,
      last names = Some name /\
      traffic t = lookups username (token_headers E) names ++
                  [Creation github_api_url (Payload name description false)
                            (token_headers E)].

(** ** Text files *)


(** ** Commands *)











(** ** More concrete environments and states *)

Module Cases.
(** The scripts are started from their own directory; the name is free and
    the creation request is answered with 201. *)
Definition env_beside_template : Env := {|
  getcwd := "/opt/tools";
  script_directory := "/opt/tools";
  GITHUB_TOKEN := Some "tok";
  raises_for_status := fun status_code =>
    ((400 <=? status_code) && (status_code <? 600))%bool;
  str_exn := fun _ => "error";
  http := fun n =>
    match n with
    | O => Response 404
    | _ => Response 201
    end;
  proc := fun _ _ d => (0, d)
|}.

(** No request gets a response. *)
Definition env_unreachable : Env := {|
  getcwd := "/home/u/demo";
  script_directory := "/opt/tools";
  GITHUB_TOKEN := Some "tok";
  raises_for_status := fun status_code =>
    ((400 <=? status_code) && (status_code <? 600))%bool;
  str_exn := fun _ => "error";
  http := fun _ => NoResponse "connection refused";
  proc := fun _ _ d => (0, d)
|}.



(** A run started in the directory of the scripts. *)
Definition world_beside_template (inp : list string) : World :=
  mkWorld Demo.tools ∅ inp 0.

(** A run whose script directory holds neither the template nor the writer
    script. *)
Definition world_no_scripts (inp : list string) : World :=
  mkWorld Demo.dir_old ∅ inp 0.
End Cases.

(** * Properties *)

(** ** Strings *)

Lemma lower_y_iff (s : string) : lower s = "y" <-> (s = "y" \/ s = "Y").
Proof.
  split.
  - destruct s as [|c s]; [discriminate|].
    destruct s as [|c' s]; [|discriminate].
    simpl. intros H. injection H as H.
    destruct c as [[] [] [] [] [] [] [] []]; vm_compute in H;
      try discriminate; auto.
  - intros [-> | ->]; reflexivity.
Qed.

Lemma affirmative_cases (s : string) :
  String.eqb (lower s) "y" = true <-> (s = "y" \/ s = "Y").
Proof. rewrite String.eqb_eq. apply lower_y_iff. Qed.

(** ** Running computations *)

Lemma bind_run {A B} (m : M A) (k : A -> M B) (w : World) :
  (m ≫= k) w =
  match m w with
  | (Ok a, w1, t1) => let '(r, w2, t2) := k a w1 in (r, w2, t1 ++ t2)
  | (Raise e, w1, t1) => (Raise e, w1, t1)
  | (Exit c, w1, t1) => (Exit c, w1, t1)
  | (OutOfFuel, w1, t1) => (OutOfFuel, w1, t1)
  end.
Proof. reflexivity. Qed.

Lemma bind_ok {A B} (m : M A) (k : A -> M B) (w w1 : World) a t1 :
  m w = (Ok a, w1, t1) ->
  (m ≫= k) w = let '(r, w2, t2) := k a w1 in (r, w2, t1 ++ t2).
Proof. intros H. rewrite bind_run, H. reflexivity. Qed.

(** Unfolds the monad's plumbing and the primitives without effects on
    the outside world. *)
Ltac msimpl :=
  cbv [mbind M_bind bind mret M_ret ret get_world emit print set_cwd raise
       exit isdir isfile path_exists script_path_exists tick
       try_except try_assign_except].

Tactic Notation "msimpl" "in" hyp(H) :=
  cbv [mbind M_bind bind mret M_ret ret get_world emit print set_cwd raise
       exit isdir isfile path_exists script_path_exists tick
       try_except try_assign_except] in H.

(** The same, together with the tests on looked-up entries. *)
Ltac mrun :=
  cbv [mbind M_bind bind mret M_ret ret get_world emit print set_cwd raise
       exit isdir isfile path_exists script_path_exists tick
       try_except try_assign_except
       is_file is_dir exists_ negb is_IOError is_HTTPError
       is_CalledProcessError is_Exception];
  cbn [cwd sfiles stdin ticks].

Lemma input_run (msg : string) (w : World) :
  input msg w =
  match stdin w with
  | [] => (Raise EOFError, w, [Prompt msg])
  | line :: rest => (Ok line, mkWorld (cwd w) (sfiles w) rest (ticks w), [Prompt msg])
  end.
Proof. reflexivity. Qed.

(** ** C3: the credential check *)

(** C3. When GITHUB_TOKEN is unset or empty, both workflow scripts end with
    exit status 1 right after the credential check: the run consists of the
    user-name prompt and, if a line could be read, the error message and
    [exit(1)]; it makes no request, runs no command and leaves the working
    directory as it was. *)
Theorem C3_missing_token_exits (E : Env) (w : World) :
  GITHUB_TOKEN E = None \/ GITHUB_TOKEN E = Some "" ->
  let no_effect (x : result unit * World * list event) :=
    exit_status (outcome x) = Some 1 /\
    cwd (final x) = cwd w /\ sfiles (final x) = sfiles w /\
    ticks (final x) = ticks w /\
    Forall (fun e => match e with Prompt _ | Print _ => True | _ => False end)
           (trace x) /\
    (stdin w <> [] -> outcome x = Exit 1) in
  no_effect (Httpx.main E w) /\ no_effect (Requests.script E w).
Proof.
  intros Htok.
  assert (Hm : token_missing (GITHUB_TOKEN E) = true)
    by (destruct Htok as [-> | ->]; reflexivity).
  unfold Httpx.main, Requests.script.
  rewrite !bind_run, !input_run, Hm.
  destruct (stdin w) as [|line rest]; simpl;
    repeat split; auto; try congruence; repeat constructor.
Qed.

(** ** The cleanup: [clean_git_artifacts] *)

#[local] Arguments startswith : simpl never.
#[local] Arguments String.append : simpl never.

Lemma sweep_body_run (item : string) (w : World) :
  sweep_body item w =
  if (startswith ".git" item && is_file (cwd w !! item))%bool
  then (Ok tt, mkWorld (delete item (cwd w)) (sfiles w) (stdin w) (ticks w),
        [Remove item; Print ("Removed " +:+ item)])
  else (Ok tt, w, []).
Proof.
  unfold sweep_body.
  destruct (startswith ".git" item); [|reflexivity].
  unfold remove.
  destruct (cwd w !! item) as [[c|tr]|] eqn:Hk; msimpl; cbv [is_file];
    msimpl; rewrite ?Hk; reflexivity.
Qed.

Lemma for_each_sweep (items : list string) (w : World) :
  exists d t,
    for_each items sweep_body w
      = (Ok tt, mkWorld d (sfiles w) (stdin w) (ticks w), t) /\
    Forall is_removal t /\
    (forall k : string,
        d !! k = if (bool_decide (k ∈ items) && startswith ".git" k
                     && is_file (cwd w !! k))%bool
                 then None else cwd w !! k) /\
    (forall k : string,
        k ∈ items -> startswith ".git" k = true ->
        is_file (cwd w !! k) = true -> Remove k ∈ t).
Proof.
  revert w. induction items as [|item rest IH]; intros w.
  - exists (cwd w), []. destruct w; simpl. repeat split; auto.
    intros k Hk. inversion Hk.
  - cbn [for_each]. rewrite bind_run, sweep_body_run.
    destruct (startswith ".git" item && is_file (cwd w !! item))%bool eqn:Hc.
    + destruct (IH (mkWorld (delete item (cwd w)) (sfiles w) (stdin w) (ticks w)))
        as (d & t & Hrun & Hev & Hlk & Hrm).
      rewrite Hrun. exists d, ([Remove item; Print ("Removed " +:+ item)] ++ t).
      simpl in *. repeat split; auto.
      * repeat constructor; auto.
      * intros k. rewrite Hlk. apply andb_true_iff in Hc as [Hs Hf].
        destruct (decide (k = item)) as [->|Hne].
        -- rewrite lookup_delete_eq, Hs, Hf.
           rewrite (bool_decide_eq_true_2 (item ∈ item :: rest)) by left.
           destruct (bool_decide (item ∈ rest)); reflexivity.
        -- rewrite lookup_delete_ne by congruence.
           rewrite (bool_decide_ext (k ∈ item :: rest) (k ∈ rest)); [reflexivity|].
           rewrite elem_of_cons. tauto.
      * intros k Hk Hs Hf. apply elem_of_cons in Hk as [->|Hk]; [left|].
        destruct (decide (k = item)) as [->|Hne]; [left|].
        right. right. apply Hrm; auto.
        rewrite lookup_delete_ne by congruence. exact Hf.
    + destruct (IH w) as (d & t & Hrun & Hev & Hlk & Hrm).
      rewrite Hrun. exists d, t. simpl. repeat split; auto.
      * intros k. rewrite Hlk.
        destruct (decide (k = item)) as [->|Hne].
        -- rewrite (bool_decide_eq_true_2 (item ∈ item :: rest)) by left.
           rewrite <- !andb_assoc, Hc, andb_false_r. reflexivity.
        -- rewrite (bool_decide_ext (k ∈ item :: rest) (k ∈ rest)); [reflexivity|].
           rewrite elem_of_cons. tauto.
      * intros k Hk Hs Hf. apply elem_of_cons in Hk as [->|Hk].
        -- rewrite Hs, Hf in Hc. discriminate.
        -- apply Hrm; auto.
Qed.

(** What the cleanup does: it ends normally, touches only the working
    directory, lists it once, and removes exactly the entries selected by
    [swept]. *)
Lemma clean_git_artifacts_run (w : World) :
  exists d post,
    clean_git_artifacts w =
      (Ok tt, mkWorld d (sfiles w) (stdin w) (ticks w),
       (if is_dir (cwd w !! ".git")
        then [Print "Cleaning up existing .git directory..."; Rmtree ".git"]
        else []) ++ Listdir :: post) /\
    Forall is_removal post /\
    (forall k : string, d !! k = if swept k (cwd w !! k) then None else cwd w !! k) /\
    (forall k : string, startswith ".git" k = true ->
                        is_file (cwd w !! k) = true -> Remove k ∈ post).
Proof.
  unfold clean_git_artifacts. fold sweep_body.
  change (fun item => sweep_body item) with sweep_body.
  set (d1 := if is_dir (cwd w !! ".git") then delete ".git" (cwd w) else cwd w).
  set (w1 := mkWorld d1 (sfiles w) (stdin w) (ticks w)).
  destruct (for_each_sweep (map_to_list d1).*1 w1) as (d & post & Hrun & Hev & Hlk & Hrm).
  exists d, post.
  assert (Hin : forall k : string, k ∈ (map_to_list d1).*1 <-> is_Some (d1 !! k)).
  { intros k. rewrite list_elem_of_fmap. split.
    - intros ([k' v] & -> & Hkv). apply elem_of_map_to_list in Hkv. eauto.
    - intros [v Hv]. exists (k, v). split; auto. by apply elem_of_map_to_list. }
  assert (Hd1 : forall k : string,
             d1 !! k = if (String.eqb k ".git" && is_dir (cwd w !! k))%bool
                       then None else cwd w !! k).
  { intros k. subst d1. destruct (String.eqb_spec k ".git") as [->|Hne]; simpl.
    - destruct (is_dir (cwd w !! ".git")); [apply lookup_delete_eq|reflexivity].
    - destruct (is_dir (cwd w !! ".git")); [|reflexivity].
      apply lookup_delete_ne. congruence. }
  split; [|split; [exact Hev|split]].
  - destruct (is_dir (cwd w !! ".git")) eqn:Hdir; subst d1 w1; simpl.
    + unfold rmtree, listdir. msimpl. rewrite Hdir. msimpl.
      cbn [cwd sfiles stdin ticks] in *. rewrite Hrun. reflexivity.
    + unfold listdir. msimpl. rewrite Hdir. msimpl.
      destruct w; cbn [cwd sfiles stdin ticks] in *. rewrite Hrun. reflexivity.
  - intros k. rewrite Hlk. subst w1. simpl. rewrite Hd1.
    unfold swept.
    destruct (String.eqb k ".git" && is_dir (cwd w !! k))%bool eqn:H1; simpl.
    + destruct (bool_decide _ && startswith ".git" k)%bool; reflexivity.
    + destruct (startswith ".git" k) eqn:Hs;
        [|rewrite andb_false_r; reflexivity].
      destruct (is_file (cwd w !! k)) eqn:Hf;
        [|rewrite andb_false_r; reflexivity].
      rewrite bool_decide_eq_true_2; [reflexivity|].
      apply Hin. rewrite Hd1, H1. destruct (cwd w !! k); [eauto|discriminate].
  - intros k Hs Hf. apply Hrm; auto.
    + apply Hin. rewrite Hd1.
      destruct (cwd w !! k) as [[c|tr]|] eqn:Hk; try discriminate.
      simpl. rewrite andb_false_r. eauto.
    + subst w1. simpl. rewrite Hd1.
      destruct (cwd w !! k) as [[c|tr]|] eqn:Hk; try discriminate.
      simpl. rewrite andb_false_r. reflexivity.
Qed.

Lemma swept_fixpoint (k : string) (o : option node) :
  let o' := if swept k o then None else o in
  (if swept k o' then None else o') = o'.
Proof.
  destruct (swept k o) eqn:H; simpl.
  - unfold swept. simpl. rewrite !andb_false_r. reflexivity.
  - rewrite H. reflexivity.
Qed.

(** C5. The cleanup is idempotent on the state of the machine: running it a
    second time right after the first changes nothing, neither in the
    working directory nor elsewhere. *)
Theorem C5_clean_idempotent (w : World) :
  final (clean_git_artifacts (final (clean_git_artifacts w)))
  = final (clean_git_artifacts w).
Proof.
  destruct (clean_git_artifacts_run w) as (d & post & Hrun & _ & Hlk & _).
  rewrite Hrun. unfold final at 2 3. simpl.
  destruct (clean_git_artifacts_run (mkWorld d (sfiles w) (stdin w) (ticks w)))
    as (d' & post' & Hrun' & _ & Hlk' & _).
  rewrite Hrun'. unfold final. simpl. f_equal.
  apply map_eq. intros k. rewrite Hlk'. simpl. rewrite Hlk.
  apply swept_fixpoint.
Qed.

(** ** External calls *)

Lemma http_get_run (E : Env) url headers (w : World) :
  http_get E url headers w =
  match http E (ticks w) with
  | Response status_code => (Ok status_code, ticked w, [HttpGet url headers])
  | NoResponse msg => (Raise (TransportError msg), ticked w, [HttpGet url headers])
  end.
Proof. unfold http_get. msimpl. destruct (http E (ticks w)); reflexivity. Qed.

Lemma http_post_run (E : Env) url data headers (w : World) :
  http_post E url data headers w =
  match http E (ticks w) with
  | Response status_code => (Ok status_code, ticked w, [HttpPost url data headers])
  | NoResponse msg =>
      (Raise (TransportError msg), ticked w, [HttpPost url data headers])
  end.
Proof. unfold http_post. msimpl. destruct (http E (ticks w)); reflexivity. Qed.

Lemma subprocess_run_run (E : Env) cmd (check : bool) (w : World) :
  subprocess_run E cmd check w =
  let w' := mkWorld (proc E (ticks w) cmd (cwd w)).2 (sfiles w) (stdin w)
                    (S (ticks w)) in
  let code := (proc E (ticks w) cmd (cwd w)).1 in
  if (check && negb (code =? 0))%bool
  then (Raise (CalledProcessError cmd code), w', [Run cmd])
  else (Ok code, w', [Run cmd]).
Proof.
  unfold subprocess_run. msimpl. cbn [cwd sfiles stdin ticks].
  destruct (proc E (ticks w) cmd (cwd w)) as [code d]. msimpl. simpl.
  destruct (check && negb (code =? 0))%bool; reflexivity.
Qed.

(** ** C2: the remote-existence check *)

(** C2. Whenever the lookup request is answered, with whatever status code,
    [check_github_repo_exists] returns a boolean, and it is [true] exactly
    when the status code is 200; this holds for every user and repository
    name, in both workflow scripts. *)
Theorem C2_exists_iff_200 (E : Env) (username repo_name : string)
    (headers : list (string * string)) (w : World) (status_code : Z) :
  http E (ticks w) = Response status_code ->
  exists b : bool,
    outcome (Httpx.check_github_repo_exists E username repo_name headers w) = Ok b /\
    outcome (Requests.check_github_repo_exists E username repo_name headers w) = Ok b /\
    (b = true <-> status_code = 200).
Proof.
  intros H. exists (status_code =? 200).
  unfold Httpx.check_github_repo_exists, Requests.check_github_repo_exists.
  rewrite !bind_run, http_get_run, H. simpl.
  repeat split; auto; apply Z.eqb_eq.
Qed.

(** ** C7: the README block *)

Lemma create_readme_run (repo_name repo_description : string) (w : World) :
  create_readme repo_name repo_description w =
  if exists_ (cwd w !! "README.md") then (Ok tt, w, [])
  else (Ok tt,
        mkWorld (<["README.md" := File (readme_content repo_name repo_description)]>
                   (cwd w))
                (sfiles w) (stdin w) (ticks w),
        [Print "Creating README.md...";
         WriteFile "README.md" (readme_content repo_name repo_description)]).
Proof.
  unfold create_readme, write_file.
  destruct (cwd w !! "README.md") as [n|] eqn:H;
    repeat progress (mrun; rewrite ?H); reflexivity.
Qed.

(** C7. The README block writes [README.md] only when the working directory
    has no entry of that name, and then its content is "# ", the repository
    name, an empty line and the description; when an entry of that name
    exists, nothing is written and the state is unchanged. *)
Theorem C7_readme_only_if_absent (repo_name repo_description : string) (w : World) :
  create_readme repo_name repo_description w =
  if exists_ (cwd w !! "README.md") then (Ok tt, w, [])
  else
    let content := "# " +:+ repo_name +:+ String "010" (String "010" repo_description) in
    (Ok tt,
     mkWorld (<["README.md" := File content]> (cwd w)) (sfiles w) (stdin w) (ticks w),
     [Print "Creating README.md..."; WriteFile "README.md" content]).
Proof. apply create_readme_run. Qed.

(** ** C10: the standalone script ignores the exit codes of git *)

(** C10. In the standalone script, once [.gitignore] has been written,
    [git add], [git commit] and [git push] are run in this order and
    [create_gitignore] returns normally, whatever their exit codes are;
    nothing is printed about them. *)
Theorem C10_standalone_ignores_exit_codes (E : Env) (project_path : string)
    (w : World) :
  is_dir (cwd w !! ".gitignore") = false ->
  let path := path_join project_path ".gitignore" in
  outcome (Standalone.create_gitignore E project_path w) = Ok tt /\
  trace (Standalone.create_gitignore E project_path w) =
    [WriteFile path Standalone.gitignore_content;
     Print ("Created .gitignore file at " +:+ path);
     Run ["git"; "add"; ".gitignore"];
     Run ["git"; "commit"; "-m"; "Add .gitignore file"];
     Run ["git"; "push"]].
Proof.
  intros Hd. unfold Standalone.create_gitignore.
  assert (Hw : write_file ".gitignore" (path_join project_path ".gitignore")
                 Standalone.gitignore_content w =
               (Ok tt, mkWorld (<[".gitignore" := File Standalone.gitignore_content]> (cwd w))
                               (sfiles w) (stdin w) (ticks w),
                [WriteFile (path_join project_path ".gitignore")
                           Standalone.gitignore_content])).
  { unfold write_file. msimpl.
    destruct (cwd w !! ".gitignore") as [[c|tr]|]; try discriminate; reflexivity. }
  msimpl. rewrite Hw.
  repeat progress (msimpl; rewrite ?subprocess_run_run; cbn [andb]).
  split; reflexivity.
Qed.

(** ** C6: the loop that asks for a free repository name *)

Ltac name_loop_done :=
  cbn [fst snd stdin cwd sfiles ticks];
  repeat split; try reflexivity;
  solve [econstructor; eauto].

Ltac split_list_input :=
  match goal with
  | |- context [match ?l with [] => _ | _ :: _ => _ end] =>
      is_var l; destruct l as [|? ?]
  end.

Ltac split_http :=
  match goal with
  | |- context [http ?E ?n] => destruct (http E n) as [sc|msg] eqn:Hhttp
  end.

Ltac split_status :=
  match goal with
  | |- context [?x =? 200] => destruct (Z.eqb_spec x 200) as [->|Hsc]
  end.

Ltac split_answer :=
  match goal with
  | |- context [String.eqb (lower ?a) "y"] =>
      destruct (String.eqb_spec (lower a) "y") as [Hy|Hy]
  end.

Ltac name_loop_tac :=
  msimpl; unfold input; cbn [stdin cwd sfiles ticks];
  split_list_input; [ name_loop_done | ];
  msimpl; rewrite http_get_run; cbn [stdin cwd sfiles ticks];
  split_http; [ | name_loop_done ];
  msimpl; unfold ticked; cbn [stdin cwd sfiles ticks];
  split_status; [ | name_loop_done ];
  msimpl; cbn [stdin cwd sfiles ticks];
  split_list_input; [ name_loop_done | ];
  msimpl; split_answer; cbn [negb]; [ | name_loop_done ].

Lemma httpx_name_loop_meets_spec (E : Env) username headers (fuel : nat) :
  forall w : World,
    (length (stdin w) < fuel)%nat ->
    meets_name_loop_spec E username headers w
      (Httpx.name_loop E fuel username headers w).
Proof.
  unfold meets_name_loop_spec, outcome, final, trace.
  induction fuel as [|fuel IH]; intros [d sf inp n] Hlen;
    cbn [stdin cwd sfiles ticks] in *; [lia|].
  cbn [Httpx.name_loop]. unfold Httpx.check_github_repo_exists.
  name_loop_tac.
  match goal with
  | |- context [Httpx.name_loop E fuel username headers ?w'] =>
      specialize (IH w'); destruct (Httpx.name_loop E fuel username headers w')
        as [[r w2] t2]
  end.
  cbn [stdin cwd sfiles ticks fst snd] in *.
  destruct IH as (Hspec & Hcwd & Hsf); [simpl in Hlen; lia|].
  repeat split; auto.
  change (?a :: ?b :: ?c :: ?d :: t2) with ([a; b; c; d] ++ t2).
  eapply spec_retry; eauto.
Qed.

Lemma requests_name_loop_meets_spec (E : Env) username headers (fuel : nat) :
  forall w : World,
    (length (stdin w) < fuel)%nat ->
    meets_name_loop_spec E username headers w
      (Requests.name_loop E fuel username headers w).
Proof.
  unfold meets_name_loop_spec, outcome, final, trace.
  induction fuel as [|fuel IH]; intros [d sf inp n] Hlen;
    cbn [stdin cwd sfiles ticks] in *; [lia|].
  cbn [Requests.name_loop]. unfold Requests.check_github_repo_exists.
  name_loop_tac.
  match goal with
  | |- context [Requests.name_loop E fuel username headers ?w'] =>
      specialize (IH w'); destruct (Requests.name_loop E fuel username headers w')
        as [[r w2] t2]
  end.
  cbn [stdin cwd sfiles ticks fst snd] in *.
  destruct IH as (Hspec & Hcwd & Hsf); [simpl in Hlen; lia|].
  repeat split; auto.
  change (?a :: ?b :: ?c :: ?d :: t2) with ([a; b; c; d] ++ t2).
  eapply spec_retry; eauto.
Qed.

(** C6 (amended). From every state and for every input, the name loop of both
    workflow scripts behaves as [name_loop_spec] says: a name whose lookup
    is answered with status 200 leads to the retry question, and an answer
    whose lower-case form is "y" (that is "y" or "Y") leads to a new name
    prompt; the loop is left with the entered name when its lookup is
    answered with any other status, with [exit(1)] when the retry answer is
    anything else, and otherwise only by an uncaught exception (end of
    input, or a lookup without response). The loop touches no file. *)
Theorem C6_name_loop_meets_spec (E : Env) (username : string)
    (headers : list (string * string)) (w : World) :
  meets_name_loop_spec E username headers w
    (Httpx.name_loop E (S (length (stdin w))) username headers w) /\
  meets_name_loop_spec E username headers w
    (Requests.name_loop E (S (length (stdin w))) username headers w).
Proof.
  split.
  - apply httpx_name_loop_meets_spec. lia.
  - apply requests_name_loop_meets_spec. lia.
Qed.

(** ** Concrete runs *)

(** C6, as stated, fails: the name "taken" exists remotely and the user
    answers "Y", which is not the answer 'y'; the process does not exit with
    code 1 but asks for another name and leaves the loop with "demo". And
    the loop is also left in a third way: when the lookup of "demo" gets no
    response, it ends with the uncaught transport error, although no free
    name was supplied and no retry question answered. *)
Lemma C6_counterexample_capital_Y :
  "Y" <> "y" /\
  http Demo.env 0 = Response 200 /\
  Httpx.name_loop Demo.env 4 "user" Demo.headers (Demo.world ["taken"; "Y"; "demo"])
  = (Ok "demo", mkWorld Demo.dir_old Demo.tools [] 2,
     taken_events "user" "taken" Demo.headers ++
     [Prompt name_question; HttpGet (repos_url "user" "demo") Demo.headers]) /\
  outcome (Requests.name_loop Demo.env 4 "user" Demo.headers
             (Demo.world ["taken"; "Y"; "demo"])) = Ok "demo" /\
  http Demo.env_offline 1 = NoResponse "connection refused" /\
  Httpx.name_loop Demo.env_offline 2 "user" Demo.headers
    (mkWorld Demo.dir_old Demo.tools ["demo"] 1)
  = (Raise (TransportError "connection refused"),
     mkWorld Demo.dir_old Demo.tools [] 2,
     [Prompt name_question; HttpGet (repos_url "user" "demo") Demo.headers]).
Proof. repeat split; try discriminate; vm_compute; reflexivity. Qed.

(** ** C1: writing [.gitignore] *)

Lemma script_files_same_dirs (E : Env) (w : World) inp n :
  script_files E (mkWorld (cwd w) (sfiles w) inp n) = script_files E w.
Proof. reflexivity. Qed.

(** Case analysis over everything [Httpx.create_gitignore] looks at. *)
Ltac httpx_gitignore_cases E w :=
  unfold Httpx.create_gitignore, Httpx.get_script_directory,
    read_script_file, write_file, script_path_exists, input;
  destruct (cwd w !! ".gitignore") as [[old|tr]|] eqn:Hg;
  destruct (script_files E w !! ".gitignore_template") as [[c1|tr1]|] eqn:Ht1;
  destruct (stdin w) as [|? ?] eqn:Hin;
  try match goal with
      | Hin : stdin w = ?a :: _ |- _ =>
          destruct (String.eqb (lower a) "y") eqn:?
      end;
  repeat progress
    (mrun; rewrite ?script_files_same_dirs, ?Hg, ?Ht1, ?Hin;
     try match goal with
         | H : String.eqb (lower _) "y" = _ |- _ => rewrite H
         end).

Lemma httpx_create_gitignore_run (E : Env) (project_path : string) (w : World) :
  httpx_gitignore_run E project_path w (Httpx.create_gitignore E project_path w).
Proof.
  httpx_gitignore_cases E w;
    try (apply httpx_gi_eof; [rewrite Hg; reflexivity | assumption]);
    try (eapply httpx_gi_keep; [rewrite Hg; reflexivity | eassumption |
           apply String.eqb_neq; assumption]).
  all: try match goal with
           | H : String.eqb _ _ = true |- _ => apply String.eqb_eq in H
           end.
  all: try (eapply (httpx_gi_no_template _ _ _ []); [apply confirmed_absent | ];
            solve [rewrite ?Hg; auto]).
  all: try (eapply (httpx_gi_no_template _ _ _ [_]);
            [eapply confirmed_yes; [rewrite Hg; reflexivity | eassumption | assumption]
            | assumption ]).
  all: try (eapply (httpx_gi_io_error _ _ _ []); apply confirmed_absent;
            solve [rewrite ?Hg; auto]).
  all: try (eapply (httpx_gi_io_error _ _ _ [_]);
            eapply confirmed_yes; [rewrite Hg; reflexivity | eassumption | assumption]).
  all: try (rewrite <- Hin;
            eapply (httpx_gi_written _ _ _ [] w _);
            [apply confirmed_absent; rewrite Hg; reflexivity
            | eassumption | rewrite Hg; reflexivity ]).
  all: try (eapply (httpx_gi_written _ _ _ [_] (consumed w _) _);
            [eapply confirmed_yes; [rewrite Hg; reflexivity | eassumption | assumption]
            | eassumption | rewrite Hg; reflexivity ]).
Qed.

Lemma requests_create_gitignore_run (E : Env) (project_path : string) (w : World) :
  requests_gitignore_run E project_path w (Requests.create_gitignore E project_path w).
Proof.
  unfold Requests.create_gitignore, Requests.get_script_directory,
    script_path_exists, input.
  destruct (script_files E w !! "create_gitignore.py") as [nd|] eqn:Hs.
  2: { mrun. rewrite Hs. mrun. apply requests_gi_no_script. exact Hs. }
  destruct (cwd w !! ".gitignore") as [nd'|] eqn:Hg.
  - destruct (stdin w) as [|answer rest] eqn:Hin.
    + repeat progress (mrun; rewrite ?Hs, ?Hg, ?Hin).
      apply requests_gi_eof; [rewrite Hg; reflexivity | assumption].
    + destruct (String.eqb (lower answer) "y") eqn:Hy.
      * assert (Hc : confirmed [Print "Overwriting existing .gitignore file"] w
                       [Prompt overwrite_question;
                        Print "Overwriting existing .gitignore file"]
                       (consumed w rest)).
        { eapply confirmed_yes; [rewrite Hg; reflexivity | eassumption |].
          apply String.eqb_eq. exact Hy. }
        repeat progress (mrun; rewrite ?Hs, ?Hg, ?Hin, ?Hy).
        rewrite subprocess_run_run. cbn [cwd sfiles stdin ticks andb].
        fold (consumed w rest).
        change (proc E (ticks w) ?c (cwd w)) with
          (proc E (ticks (consumed w rest)) c (cwd (consumed w rest))).
        fold (python_cmd E).
        fold (exit_code E (python_cmd E) (consumed w rest)).
        destruct (Z.eqb_spec (exit_code E (python_cmd E) (consumed w rest)) 0)
          as [Hz|Hz]; mrun; cbn [app].
        -- apply (requests_gi_ran E project_path w _ _ Hc Hz).
        -- apply (requests_gi_failed E project_path w _ _ Hc Hz).
      * repeat progress (mrun; rewrite ?Hs, ?Hg, ?Hin, ?Hy).
        eapply requests_gi_keep; [rewrite Hg; reflexivity | eassumption |].
        apply String.eqb_neq. exact Hy.
  - assert (Hc : confirmed [Print "Overwriting existing .gitignore file"] w [] w).
    { apply confirmed_absent. rewrite Hg. reflexivity. }
    repeat progress (mrun; rewrite ?Hs, ?Hg).
    rewrite subprocess_run_run. cbn [andb].
    fold (python_cmd E). fold (exit_code E (python_cmd E) w).
    destruct (Z.eqb_spec (exit_code E (python_cmd E) w) 0) as [Hz|Hz];
      mrun; cbn [app].
    + apply (requests_gi_ran E project_path w _ _ Hc Hz).
    + apply (requests_gi_failed E project_path w _ _ Hc Hz).
Qed.

Lemma standalone_create_gitignore_run (E : Env) (project_path : string) (w : World) :
  is_dir (cwd w !! ".gitignore") = false ->
  let path := path_join project_path ".gitignore" in
  let w1 := mkWorld (<[".gitignore" := File Standalone.gitignore_content]> (cwd w))
                    (sfiles w) (stdin w) (ticks w) in
  let w2 := after_cmd E ["git"; "add"; ".gitignore"] w1 in
  let w3 := after_cmd E ["git"; "commit"; "-m"; "Add .gitignore file"] w2 in
  let w4 := after_cmd E ["git"; "push"] w3 in
  Standalone.create_gitignore E project_path w =
  (Ok tt, w4,
   [WriteFile path Standalone.gitignore_content;
    Print ("Created .gitignore file at " +:+ path);
    Run ["git"; "add"; ".gitignore"];
    Run ["git"; "commit"; "-m"; "Add .gitignore file"];
    Run ["git"; "push"]]).
Proof.
  intros Hd. unfold Standalone.create_gitignore, write_file.
  destruct (cwd w !! ".gitignore") as [[c|tr]|] eqn:Hg; try discriminate;
    repeat progress (mrun; rewrite ?Hg; rewrite ?subprocess_run_run; cbn [andb]);
    reflexivity.
Qed.

Lemma no_write_keeping : ~ Exists is_write keeping.
Proof. intros H. repeat (apply Exists_cons in H as [H|H]; [exact H|]). inversion H. Qed.

Lemma confirmed_existing (said : list event) (w : World) pre w1 :
  exists_ (cwd w !! ".gitignore") = true ->
  confirmed said w pre w1 ->
  exists answer rest,
    stdin w = answer :: rest /\ lower answer = "y" /\
    pre = Prompt overwrite_question :: said /\ w1 = consumed w rest.
Proof.
  intros He [Hn | answer rest _ Hin Hy]; [congruence|].
  exists answer, rest. auto.
Qed.

Ltac guarded_by_answer He Hc :=
  destruct (confirmed_existing _ _ _ _ He Hc) as (a & r & Hin & Hy & -> & ->);
  split;
  [ intros _; exists a, r; split;
    [exact Hin|split; [apply lower_y_iff; exact Hy|reflexivity]]
  | intros a' r' Hin' Hn1 Hn2; rewrite Hin in Hin'; injection Hin' as <- <-;
    apply lower_y_iff in Hy as [->| ->]; contradiction ].

Ltac untouched :=
  let Hc := fresh in
  intros [Hc|Hc];
  [ contradiction Hc; reflexivity
  | repeat (apply Exists_cons in Hc as [Hc|Hc]; [destruct Hc|]); inversion Hc ].

Lemma httpx_create_gitignore_guarded (E : Env) (project_path : string) (w : World) :
  exists_ (cwd w !! ".gitignore") = true ->
  guarded w (Httpx.create_gitignore E project_path w) /\
  declinable w (Httpx.create_gitignore E project_path w).
Proof.
  intros He.
  destruct (httpx_create_gitignore_run E project_path w)
    as [_ Hin | answer rest _ Hin Hy | pre w1 c Hc _ _ | pre w1 msg Hc _ | pre w1 path Hc];
    unfold guarded, declinable, final, trace; cbn [fst snd consumed cwd].
  - split; [untouched|]. intros a r Hin'. congruence.
  - split; [untouched|].
    intros a r Hin' _ _. rewrite Hin in Hin'. injection Hin' as <- <-. reflexivity.
  - guarded_by_answer He Hc.
  - guarded_by_answer He Hc.
  - guarded_by_answer He Hc.
Qed.

Lemma requests_create_gitignore_guarded (E : Env) (project_path : string)
    (w : World) :
  exists_ (cwd w !! ".gitignore") = true ->
  guarded w (Requests.create_gitignore E project_path w) /\
  (exists_ (script_files E w !! "create_gitignore.py") = true ->
   declinable w (Requests.create_gitignore E project_path w)).
Proof.
  intros He.
  destruct (requests_create_gitignore_run E project_path w)
    as [msg Hs | _ Hin | answer rest _ Hin Hy | pre w1 Hc _ | pre w1 Hc _];
    unfold guarded, declinable, final, trace; cbn [fst snd consumed cwd].
  - split; [untouched|]. rewrite Hs. discriminate.
  - split; [untouched|]. intros _ a r Hin'. congruence.
  - split; [untouched|].
    intros _ a r Hin' _ _. rewrite Hin in Hin'. injection Hin' as <- <-. reflexivity.
  - assert (H := fun P Q (x : P /\ Q) => conj (proj1 x) (fun _ : exists_
      (script_files E w !! "create_gitignore.py") = true => proj2 x)).
    apply H. guarded_by_answer He Hc.
  - assert (H := fun P Q (x : P /\ Q) => conj (proj1 x) (fun _ : exists_
      (script_files E w !! "create_gitignore.py") = true => proj2 x)).
    apply H. guarded_by_answer He Hc.
Qed.

(** C1 (amended). When a [.gitignore] exists, [create_gitignore] of both
    workflow scripts is guarded by the overwrite question: it writes, runs
    the writer or changes the working directory only after the answer "y"
    or "Y"; any other answer makes it return without writing, the working
    directory unchanged (in the requests script provided the writer script
    is there, else it raises before asking). The [create_gitignore] of the
    standalone script is not guarded: it reads no answer and, when
    [.gitignore] is a regular file, starts by overwriting it. *)
Theorem C1_overwrite_needs_yes (E : Env) (project_path : string) (w : World) :
  exists_ (cwd w !! ".gitignore") = true ->
  (guarded w (Httpx.create_gitignore E project_path w) /\
   declinable w (Httpx.create_gitignore E project_path w)) /\
  (guarded w (Requests.create_gitignore E project_path w) /\
   (exists_ (script_files E w !! "create_gitignore.py") = true ->
    declinable w (Requests.create_gitignore E project_path w))) /\
  (is_dir (cwd w !! ".gitignore") = false ->
   stdin (final (Standalone.create_gitignore E project_path w)) = stdin w /\
   head (trace (Standalone.create_gitignore E project_path w)) =
     Some (WriteFile (path_join project_path ".gitignore")
                     Standalone.gitignore_content)).
Proof.
  intros He. split; [|split].
  - apply httpx_create_gitignore_guarded. exact He.
  - apply requests_create_gitignore_guarded. exact He.
  - intros Hd. rewrite (standalone_create_gitignore_run E project_path w Hd).
    split; reflexivity.
Qed.

(** C1, as stated, fails twice. In the httpx script the answer "Y", which is
    not the answer 'y', makes [create_gitignore] replace the old file by the
    template. In the standalone script the old file is replaced although
    there is no answer at all. *)
Lemma C1_counterexample_overwritten :
  "Y" <> "y" /\
  cwd (Demo.world ["Y"]) !! ".gitignore" = Some (File "old") /\
  cwd (final (Httpx.create_gitignore Demo.env "/home/u/demo" (Demo.world ["Y"])))
    !! ".gitignore" = Some (File "*.pyc") /\
  cwd (Demo.world []) !! ".gitignore" = Some (File "old") /\
  cwd (final (Standalone.create_gitignore Demo.env "/home/u/demo" (Demo.world [])))
    !! ".gitignore" = Some (File Standalone.gitignore_content).
Proof. repeat split; try discriminate; vm_compute; reflexivity. Qed.

(** A witness of C1: the answer "n" keeps the old file. *)
Lemma C1_witness_answer_n :
  exists_ (cwd (Demo.world ["n"]) !! ".gitignore") = true /\
  declinable (Demo.world ["n"])
    (Httpx.create_gitignore Demo.env "/home/u/demo" (Demo.world ["n"])).
Proof.
  split; [reflexivity|].
  exact (proj2 (proj1 (C1_overwrite_needs_yes Demo.env "/home/u/demo"
                         (Demo.world ["n"]) eq_refl))).
Defined.

(** A witness of C2: the first lookup of the demo environment finds the
    repository. *)
Lemma C2_witness_found :
  http Demo.env (ticks (Demo.world [])) = Response 200 /\
  exists b : bool,
    outcome (Httpx.check_github_repo_exists Demo.env "user" "taken" Demo.headers
               (Demo.world [])) = Ok b /\
    outcome (Requests.check_github_repo_exists Demo.env "user" "taken" Demo.headers
               (Demo.world [])) = Ok b /\
    (b = true <-> 200 = 200).
Proof.
  split; [reflexivity|].
  exact (C2_exists_iff_200 Demo.env "user" "taken" Demo.headers (Demo.world []) 200
           eq_refl).
Defined.

(** A witness of C3: no token in the environment. *)
Lemma C3_witness_no_token :
  (GITHUB_TOKEN Demo.env_no_token = None \/ GITHUB_TOKEN Demo.env_no_token = Some "") /\
  outcome (Httpx.main Demo.env_no_token (Demo.world ["user"])) = Exit 1 /\
  outcome (Requests.script Demo.env_no_token (Demo.world ["user"])) = Exit 1.
Proof.
  split; [left; reflexivity|].
  pose proof (C3_missing_token_exits Demo.env_no_token (Demo.world ["user"])
                (or_introl eq_refl)) as [H1 H2].
  split.
  - apply H1. discriminate.
  - apply H2. discriminate.
Defined.

(** A witness of C10: an old [.gitignore] that is a regular file, and a git
    that fails every time with exit code 128. *)
Lemma C10_witness_git_fails :
  is_dir (cwd (Demo.world []) !! ".gitignore") = false /\
  exit_code Demo.env_git_fails ["git"; "push"] (Demo.world []) = 128 /\
  outcome (Standalone.create_gitignore Demo.env_git_fails "/home/u/demo"
             (Demo.world [])) = Ok tt.
Proof.
  split; [reflexivity|]. split; [reflexivity|].
  exact (proj1 (C10_standalone_ignores_exit_codes Demo.env_git_fails "/home/u/demo"
                  (Demo.world []) eq_refl)).
Defined.

(** ** The two halves of the workflow scripts *)

Lemma ret_run {A} (a : A) (w : World) : ret a w = (Ok a, w, []).
Proof. reflexivity. Qed.

Lemma get_world_run (w : World) : get_world w = (Ok w, w, []).
Proof. reflexivity. Qed.

Lemma triple_eta {A} (x : result A * World * list event) (t : list event) :
  (let '(r, w, t') := x in (r, w, t ++ t')) = (outcome x, final x, t ++ trace x).
Proof. destruct x as [[r w] t']. reflexivity. Qed.

Lemma httpx_main_splits (E : Env) (w : World) :
  splits_into E (Httpx.name_loop E) (httpx_workflow E) w (Httpx.main E w).
Proof.
  unfold splits_into, Httpx.main.
  rewrite bind_run, input_run.
  destruct (stdin w) as [|username inp] eqn:Hin.
  { exists None, (Raise EOFError), w, [Prompt username_question].
    split; [constructor; assumption | reflexivity]. }
  cbv beta iota zeta. rewrite bind_run.
  destruct (token_missing (GITHUB_TOKEN E)) eqn:Htok.
  { exists None, (Exit 1), (consumed w inp). eexists.
    split; [eapply prelude_no_token; eassumption | reflexivity]. }
  rewrite ret_run. cbv beta iota zeta.
  rewrite bind_run, get_world_run. cbv beta iota zeta.
  rewrite bind_run. cbn [stdin].
  fold (token_headers E). fold (consumed w inp).
  destruct (Httpx.name_loop E (S (length inp)) username (token_headers E)
              (consumed w inp)) as [[[name|e|c|] w2] t2] eqn:Hloop.
  2: { exists None, (Raise e), w2. eexists.
       split; [eapply prelude_loop_raise; eassumption | reflexivity]. }
  2: { exists None, (Exit c), w2. eexists.
       split; [eapply prelude_loop_exit; eassumption | reflexivity]. }
  2: { exists None, OutOfFuel, w2. eexists.
       split; [eapply prelude_loop_fuel; eassumption | reflexivity]. }
  cbv beta iota zeta. rewrite bind_run, input_run.
  destruct (stdin w2) as [|description rest] eqn:Hin2.
  { exists None, (Raise EOFError), w2. eexists.
    split; [eapply prelude_no_description; eassumption | reflexivity]. }
  cbv beta iota zeta.
  exists (Some (username, name, description)), (Ok tt), (consumed w2 rest). eexists.
  split; [eapply prelude_done; eassumption |].
  unfold httpx_workflow, httpx_publish, consumed. cbv beta iota zeta.
  match goal with
  | |- context [outcome ?X] => destruct X as [[r3 w3] t3]
  end.
  unfold outcome, final, trace. cbn [fst snd app].
  rewrite <- app_assoc. reflexivity.
Qed.

Lemma requests_script_splits (E : Env) (w : World) :
  splits_into E (Requests.name_loop E) (requests_workflow E) w (Requests.script E w).
Proof.
  unfold splits_into, Requests.script.
  rewrite bind_run, input_run.
  destruct (stdin w) as [|username inp] eqn:Hin.
  { exists None, (Raise EOFError), w, [Prompt username_question].
    split; [constructor; assumption | reflexivity]. }
  cbv beta iota zeta. rewrite bind_run.
  destruct (token_missing (GITHUB_TOKEN E)) eqn:Htok.
  { exists None, (Exit 1), (consumed w inp). eexists.
    split; [eapply prelude_no_token; eassumption | reflexivity]. }
  rewrite ret_run. cbv beta iota zeta.
  rewrite bind_run, get_world_run. cbv beta iota zeta.
  rewrite bind_run. cbn [stdin].
  fold (token_headers E). fold (consumed w inp).
  destruct (Requests.name_loop E (S (length inp)) username (token_headers E)
              (consumed w inp)) as [[[name|e|c|] w2] t2] eqn:Hloop.
  2: { exists None, (Raise e), w2. eexists.
       split; [eapply prelude_loop_raise; eassumption | reflexivity]. }
  2: { exists None, (Exit c), w2. eexists.
       split; [eapply prelude_loop_exit; eassumption | reflexivity]. }
  2: { exists None, OutOfFuel, w2. eexists.
       split; [eapply prelude_loop_fuel; eassumption | reflexivity]. }
  cbv beta iota zeta. rewrite bind_run, input_run.
  destruct (stdin w2) as [|description rest] eqn:Hin2.
  { exists None, (Raise EOFError), w2. eexists.
    split; [eapply prelude_no_description; eassumption | reflexivity]. }
  cbv beta iota zeta.
  exists (Some (username, name, description)), (Ok tt), (consumed w2 rest). eexists.
  split; [eapply prelude_done; eassumption |].
  unfold requests_workflow, requests_publish, consumed. cbv beta iota zeta.
  match goal with
  | |- context [outcome ?X] => destruct X as [[r3 w3] t3]
  end.
  unfold outcome, final, trace. cbn [fst snd app].
  rewrite <- app_assoc. reflexivity.
Qed.

Lemma name_loop_spec_events (E : Env) username headers n inp r rest n' t :
  name_loop_spec E username headers n inp r rest n' t ->
  Forall prelude_event t.
Proof.
  induction 1; repeat (apply Forall_cons; split);
    try apply Forall_nil; try exact I; try discriminate.
  exact IHname_loop_spec.
Qed.

Lemma name_loop_spec_terminates (E : Env) username headers n inp r rest n' t :
  name_loop_spec E username headers n inp r rest n' t ->
  r <> OutOfFuel.
Proof. induction 1; try discriminate. exact IHname_loop_spec. Qed.

Lemma prelude_run_quiet (E : Env) loop (w : World) reached r w1 t1 :
  loop_meets_spec E loop ->
  prelude_run E loop w reached r w1 t1 ->
  cwd w1 = cwd w /\ sfiles w1 = sfiles w /\ Forall prelude_event t1 /\
  (reached = None -> r <> Ok tt) /\ r <> OutOfFuel.
Proof.
  intros Hloop Hrun.
  assert (Hl : forall username inp r2 w2 t2,
             loop (S (length inp)) username (token_headers E) (consumed w inp)
               = (r2, w2, t2) ->
             cwd w2 = cwd w /\ sfiles w2 = sfiles w /\ Forall prelude_event t2 /\
             r2 <> OutOfFuel).
  { intros username inp r2 w2 t2 H.
    destruct (Hloop (S (length inp)) username (token_headers E) (consumed w inp))
      as (Hspec & Hc & Hs); [simpl; lia|].
    rewrite H in *. unfold outcome, final, trace in *. cbn [fst snd] in *.
    repeat split; auto.
    - eapply name_loop_spec_events; eauto.
    - eapply name_loop_spec_terminates; eauto. }
  destruct Hrun as [Hin | u inp Hin Ht | u inp e w2 t2 Hin Ht Hr
                    | u inp c w2 t2 Hin Ht Hr | u inp w2 t2 Hin Ht Hr
                    | u inp nm w2 t2 Hin Ht Hr Hin2
                    | u inp nm w2 t2 d rest Hin Ht Hr Hin2];
    try (destruct (Hl _ _ _ _ _ Hr) as (Hc & Hs & Hev & Hf));
    cbn [consumed cwd sfiles]; repeat split; auto; try discriminate;
    try congruence;
    repeat (apply Forall_cons; split); try apply Forall_nil; try exact I;
    try discriminate; auto.
  all: apply Forall_app; split; auto;
    repeat (apply Forall_cons; split); try apply Forall_nil; try exact I;
    cbv [prelude_event description_question overwrite_question];
    let H := fresh in intros H; discriminate H.
Qed.

(** ** C4: the order of the steps *)

Lemma last_char_app (a b : string) :
  b <> "" -> last_char (a +:+ b) = last_char b.
Proof.
  intros Hb. induction a as [|c a IH]; [reflexivity|].
  change (String c a +:+ b) with (String c (a +:+ b)).
  cbn [last_char]. rewrite IH.
  destruct (a +:+ b) eqn:Hab; [|reflexivity].
  destruct a; [simpl in Hab; contradiction|discriminate].
Qed.

Lemma last_char_path_join (a b : string) :
  b <> "" -> last_char (path_join a b) = last_char b.
Proof.
  intros Hb. unfold path_join. destruct a as [|c a]; [reflexivity|].
  destruct (endswith_slash (String c a)).
  - apply last_char_app. exact Hb.
  - rewrite last_char_app; [apply last_char_app; exact Hb|].
    discriminate.
Qed.

Lemma gitignore_path_not_readme (a : string) :
  String.eqb (path_join a ".gitignore") "README.md" = false.
Proof.
  apply String.eqb_neq. intros H.
  assert (Hl := last_char_path_join a ".gitignore" ltac:(discriminate)).
  rewrite H in Hl. discriminate Hl.
Qed.

Lemma steps_app (E : Env) (t1 t2 : list event) :
  steps E (t1 ++ t2) = steps E t1 ++ steps E t2.
Proof. apply omap_app. Qed.

Lemma steps_silent (E : Env) (P : event -> Prop) (t : list event) :
  (forall e, P e -> step_of E e = None) ->
  Forall P t -> steps E t = [].
Proof.
  intros HP. induction 1 as [|e t He _ IH]; [reflexivity|].
  unfold steps in *. change (omap (step_of E) (e :: t)) with
    (match step_of E e with Some s => s :: omap (step_of E) t
                          | None => omap (step_of E) t end).
  rewrite (HP e He). exact IH.
Qed.

Lemma steps_prelude (E : Env) (t : list event) :
  Forall prelude_event t -> steps E t = [].
Proof. apply steps_silent. intros [] H; try reflexivity; destruct H. Qed.

Lemma steps_removal (E : Env) (t : list event) :
  Forall is_removal t -> steps E t = [].
Proof. apply steps_silent. intros [] H; try reflexivity; destruct H. Qed.

(** ** Two small logics for straight-line code *)

Lemma bind_trace {A B} (m : M A) (k : A -> M B) (w : World) :
  trace ((m ≫= k) w) =
  trace (m w) ++ match outcome (m w) with
                 | Ok a => trace (k a (final (m w)))
                 | _ => []
                 end.
Proof.
  rewrite bind_run. destruct (m w) as [[[a|e|c|] w1] t1];
    unfold trace, outcome, final; cbn [fst snd]; rewrite ?app_nil_r; try reflexivity.
  destruct (k a w1) as [[r w2] t2]. reflexivity.
Qed.

Lemma bind_outcome {A B} (m : M A) (k : A -> M B) (w : World) :
  outcome ((m ≫= k) w) =
  match outcome (m w) with
  | Ok a => outcome (k a (final (m w)))
  | Raise e => Raise e
  | Exit c => Exit c
  | OutOfFuel => OutOfFuel
  end.
Proof.
  rewrite bind_run. destruct (m w) as [[[a|e|c|] w1] t1];
    unfold trace, outcome, final; cbn [fst snd]; try reflexivity.
  destruct (k a w1) as [[r w2] t2]. reflexivity.
Qed.

Lemma try_trace {A} (m : M A) handles (h : exn -> M A) (w : World) :
  trace (try_except m handles h w) =
  trace (m w) ++ match outcome (m w) with
                 | Raise e => if handles e then trace (h e (final (m w))) else []
                 | _ => []
                 end.
Proof.
  unfold try_except. destruct (m w) as [[[a|e|c|] w1] t1];
    unfold trace, outcome, final; cbn [fst snd]; rewrite ?app_nil_r; try reflexivity.
  destruct (handles e); [|rewrite app_nil_r; reflexivity].
  destruct (h e w1) as [[r w2] t2]. reflexivity.
Qed.

Lemma try_ok {A} (m : M A) handles (h : exn -> M A) (w w' : World) a t :
  fatal h ->
  try_except m handles h w = (Ok a, w', t) -> m w = (Ok a, w', t).
Proof.
  intros Hf. unfold try_except.
  destruct (m w) as [[[a1|e|c|] w1] t1]; try discriminate; auto.
  destruct (handles e); [|discriminate].
  specialize (Hf e w1 a). destruct (h e w1) as [[r w2] t2].
  intros H. injection H as -> _ _. contradiction Hf. reflexivity.
Qed.

Section EventClass.
Context (C : event -> Prop).

Lemma emits_bind {A B} (m : M A) (k : A -> M B) :
  emits C m -> (forall a, emits C (k a)) -> emits C (m ≫= k).
Proof.
  intros Hm Hk w. rewrite bind_trace. apply Forall_app. split; [apply Hm|].
  destruct (outcome (m w)); try constructor. apply Hk.
Qed.

Lemma emits_try {A} (m : M A) handles (h : exn -> M A) :
  emits C m -> (forall e, emits C (h e)) -> emits C (try_except m handles h).
Proof.
  intros Hm Hh w. rewrite try_trace. apply Forall_app. split; [apply Hm|].
  destruct (outcome (m w)); try constructor.
  destruct (handles e); [apply Hh|constructor].
Qed.

Lemma emits_ret {A} (a : A) : emits C (ret a).
Proof. intros w. constructor. Qed.

Lemma emits_exit {A} (c : Z) : emits C (@exit A c).
Proof. intros w. constructor. Qed.

Lemma emits_raise {A} (e : exn) : emits C (@raise A e).
Proof. intros w. constructor. Qed.

Lemma emits_print (msg : string) : C (Print msg) -> emits C (print msg).
Proof. intros H w. apply Forall_cons. split; [exact H|constructor]. Qed.

Lemma emits_subprocess_run (E : Env) cmd check :
  C (Run cmd) -> emits C (subprocess_run E cmd check).
Proof.
  intros H w. rewrite subprocess_run_run. cbv zeta.
  destruct (check && negb _)%bool;
    (apply Forall_cons; split; [exact H|constructor]).
Qed.

Lemma emits_create_readme (repo_name repo_description : string) :
  C (Print "Creating README.md...") ->
  C (WriteFile "README.md" (readme_content repo_name repo_description)) ->
  emits C (create_readme repo_name repo_description).
Proof.
  intros H1 H2 w. rewrite create_readme_run.
  destruct (exists_ _); [constructor|].
  repeat (apply Forall_cons; split); auto; constructor.
Qed.
End EventClass.

Section StepLanguage.
Context (E : Env).

Lemma oksteps_bind {A B} (m : M A) (k : A -> M B) L1 L2 :
  oksteps E m L1 -> (forall a, oksteps E (k a) L2) -> oksteps E (m ≫= k) (seq L1 L2).
Proof.
  intros Hm Hk w b w' t H. rewrite bind_run in H.
  destruct (m w) as [[[a|e|c|] w1] t1] eqn:Hmw; try discriminate.
  destruct (k a w1) as [[r w2] t2] eqn:Hkw. injection H as -> -> <-.
  exists (steps E t1), (steps E t2). rewrite steps_app.
  split; [reflexivity|split; [eapply Hm; eassumption | eapply Hk; eassumption]].
Qed.

Lemma oksteps_try {A} (m : M A) handles (h : exn -> M A) L :
  oksteps E m L -> fatal h -> oksteps E (try_except m handles h) L.
Proof. intros Hm Hf w a w' t H. apply try_ok in H; eauto. Qed.

Lemma oksteps_ret {A} (a : A) : oksteps E (ret a) (eq []).
Proof. intros w b w' t H. injection H as _ _ <-. reflexivity. Qed.

Lemma oksteps_print (msg : string) : oksteps E (print msg) (eq []).
Proof. intros w b w' t H. injection H as _ _ <-. reflexivity. Qed.

Lemma oksteps_subprocess_run cmd check :
  oksteps E (subprocess_run E cmd check) (eq (steps E [Run cmd])).
Proof.
  intros w b w' t H. rewrite subprocess_run_run in H. cbv zeta in H.
  destruct (check && negb _)%bool; [discriminate|].
  injection H as _ _ <-. reflexivity.
Qed.

Lemma oksteps_create_readme (repo_name repo_description : string) :
  oksteps E (create_readme repo_name repo_description)
    (fun s => s = [] \/ s = [WriteReadme]).
Proof.
  intros w b w' t H. rewrite create_readme_run in H.
  destruct (exists_ _); injection H as _ _ <-; [left|right]; reflexivity.
Qed.

Lemma fatal_print_exit {A} (msg : exn -> string) (c : Z) :
  fatal (fun e => print (msg e) ;; @exit A c).
Proof. intros e w a. discriminate. Qed.

Lemma fatal_print_print_exit {A} (msg : exn -> string) (msg' : string) (c : Z) :
  fatal (fun e => print (msg e) ;; print msg' ;; @exit A c).
Proof. intros e w a. discriminate. Qed.
End StepLanguage.

(** ** The steps of the blocks *)

Lemma step_of_git (E : Env) (url : string) :
  step_of E (Run ["git"; "init"]) = Some InitLocalRepo /\
  step_of E (Run ["git"; "checkout"; "-b"; "main"]) = Some CreateBranch /\
  step_of E (Run ["git"; "add"; "."]) = None /\
  step_of E (Run ["git"; "commit"; "-m"; "Initial commit"]) = Some Commit /\
  step_of E (Run ["git"; "remote"; "add"; "origin"; url]) = Some AddRemote /\
  step_of E (Run ["git"; "push"; "-u"; "origin"; "main"]) = Some Push.
Proof. repeat split; vm_compute; reflexivity. Qed.

Lemma step_of_python (E : Env) : step_of E (Run (python_cmd E)) = Some WriteGitignore.
Proof. unfold step_of. rewrite bool_decide_eq_true_2; reflexivity. Qed.

Lemma step_of_write_gitignore (E : Env) (content : string) :
  step_of E (WriteFile (path_join (getcwd E) ".gitignore") content)
  = Some WriteGitignore.
Proof.
  unfold step_of. rewrite gitignore_path_not_readme, String.eqb_refl. reflexivity.
Qed.

Lemma oksteps_clean (E : Env) :
  oksteps E clean_git_artifacts (eq [CleanLocalArtifacts]).
Proof.
  intros w a w' t H.
  destruct (clean_git_artifacts_run w) as (d & post & Hrun & Hpost & _).
  rewrite Hrun in H. injection H as _ _ <-.
  rewrite steps_app. change (Listdir :: post) with ([Listdir] ++ post).
  rewrite steps_app, (steps_removal E post Hpost).
  destruct (is_dir _); reflexivity.
Qed.

Lemma httpx_create_repository_run (E : Env) repo_name repo_description headers
    (w : World) :
  exists r t,
    Httpx.create_repository E repo_name repo_description headers w =
      (r, ticked w,
       HttpPost github_api_url (Payload repo_name repo_description false) headers :: t) /\
    Forall (fun e => match e with Print _ => True | _ => False end) t /\
    (forall msg,
        http E (ticks w) = NoResponse msg ->
        r = Raise (UnboundLocalError "response") /\
        t = [Print ("Error creating repository: " +:+
                    str_exn E (TransportError msg))]).
Proof.
  unfold Httpx.create_repository, raise_for_status. msimpl.
  rewrite http_post_run.
  destruct (http E (ticks w)) as [status_code|msg]; mrun.
  - destruct (raises_for_status E status_code); mrun.
    + destruct (status_code =? 422); mrun; cbn [app];
        eexists _, _; (split; [reflexivity|split; [|intros ?; discriminate]]);
        repeat constructor.
    + eexists _, _. split; [reflexivity|split; [|intros ?; discriminate]].
      repeat constructor.
  - eexists _, _. split; [reflexivity|split].
    + repeat constructor.
    + intros msg' Hm. injection Hm as <-. split; reflexivity.
Qed.

Lemma requests_create_repository_run (E : Env) repo_name repo_description headers
    (w : World) :
  exists r t,
    Requests.create_repository E repo_name repo_description headers w =
      (r, ticked w,
       HttpPost github_api_url (Payload repo_name repo_description false) headers :: t) /\
    Forall (fun e => match e with Print _ => True | _ => False end) t /\
    (forall msg,
        http E (ticks w) = NoResponse msg ->
        r = Raise (NameError "response") /\
        t = [Print ("Error creating repository: " +:+
                    str_exn E (TransportError msg))]).
Proof.
  unfold Requests.create_repository, raise_for_status. msimpl.
  rewrite http_post_run.
  destruct (http E (ticks w)) as [status_code|msg]; mrun.
  - destruct (raises_for_status E status_code); mrun.
    + destruct (status_code =? 422); mrun; cbn [app];
        eexists _, _; (split; [reflexivity|split; [|intros ?; discriminate]]);
        repeat constructor.
    + eexists _, _. split; [reflexivity|split; [|intros ?; discriminate]].
      repeat constructor.
  - eexists _, _. split; [reflexivity|split].
    + repeat constructor.
    + intros msg' Hm. injection Hm as <-. split; reflexivity.
Qed.

Lemma steps_prints (E : Env) (t : list event) :
  Forall (fun e => match e with Print _ => True | _ => False end) t ->
  steps E t = [].
Proof. apply steps_silent. intros [] H; try reflexivity; destruct H. Qed.

Lemma oksteps_httpx_create_repository (E : Env) repo_name repo_description headers :
  oksteps E (Httpx.create_repository E repo_name repo_description headers)
    (eq [CreateRemote]).
Proof.
  intros w a w' t H.
  destruct (httpx_create_repository_run E repo_name repo_description headers w)
    as (r & t' & Hrun & Hp & _).
  rewrite Hrun in H. injection H as _ _ <-.
  change (?e :: t') with ([e] ++ t'). rewrite steps_app, (steps_prints E t' Hp).
  reflexivity.
Qed.

Lemma oksteps_requests_create_repository (E : Env) repo_name repo_description headers :
  oksteps E (Requests.create_repository E repo_name repo_description headers)
    (eq [CreateRemote]).
Proof.
  intros w a w' t H.
  destruct (requests_create_repository_run E repo_name repo_description headers w)
    as (r & t' & Hrun & Hp & _).
  rewrite Hrun in H. injection H as _ _ <-.
  change (?e :: t') with ([e] ++ t'). rewrite steps_app, (steps_prints E t' Hp).
  reflexivity.
Qed.

Lemma steps_confirmed (E : Env) said (w : World) pre w1 :
  Forall (fun e => match e with Print _ => True | _ => False end) said ->
  confirmed said w pre w1 -> steps E pre = [].
Proof.
  intros Hs [H | answer rest _ _ _]; [reflexivity|].
  change (?e :: said) with ([e] ++ said). rewrite steps_app, (steps_prints E said Hs).
  reflexivity.
Qed.

Lemma oksteps_httpx_create_gitignore (E : Env) :
  oksteps E (Httpx.create_gitignore E (getcwd E))
    (fun s => s = [] \/ s = [WriteGitignore]).
Proof.
  intros w a w' t H.
  destruct (httpx_create_gitignore_run E (getcwd E) w)
    as [_ _ | answer rest _ _ _ | pre w1 c Hc _ _ | pre w1 msg Hc _ | pre w1 path Hc];
    try discriminate; injection H as _ _ <-.
  - left. reflexivity.
  - right. rewrite steps_app, (steps_confirmed E _ _ _ _ (Forall_nil_2 _) Hc).
    unfold steps. cbn [app]. change (omap ?f (?e :: ?l)) with
      (match f e with Some s => s :: omap f l | None => omap f l end).
    rewrite step_of_write_gitignore. reflexivity.
Qed.

Lemma oksteps_requests_create_gitignore (E : Env) (project_path : string) :
  oksteps E (Requests.create_gitignore E project_path)
    (fun s => s = [] \/ s = [WriteGitignore]).
Proof.
  intros w a w' t H.
  destruct (requests_create_gitignore_run E project_path w)
    as [msg _ | _ _ | answer rest _ _ _ | pre w1 Hc _ | pre w1 Hc _];
    try discriminate; injection H as _ _ <-.
  - left. reflexivity.
  - right.
    assert (Hs : Forall (fun e => match e with Print _ => True | _ => False end)
                   [Print "Overwriting existing .gitignore file"])
      by (repeat constructor).
    rewrite steps_app, (steps_confirmed E _ _ _ _ Hs Hc).
    unfold steps. cbn [app]. change (omap ?f (?e :: ?l)) with
      (match f e with Some s => s :: omap f l | None => omap f l end).
    rewrite step_of_python. reflexivity.
Qed.

Lemma steps_git (E : Env) (url : string) :
  steps E [Run ["git"; "init"]] = [InitLocalRepo] /\
  steps E [Run ["git"; "checkout"; "-b"; "main"]] = [CreateBranch] /\
  steps E [Run ["git"; "add"; "."]] = [] /\
  steps E [Run ["git"; "commit"; "-m"; "Initial commit"]] = [Commit] /\
  steps E [Run ["git"; "remote"; "add"; "origin"; url]] = [AddRemote] /\
  steps E [Run ["git"; "push"; "-u"; "origin"; "main"]] = [Push].
Proof. repeat split; vm_compute; reflexivity. Qed.

Ltac oksteps_rules :=
  repeat
    lazymatch goal with
    | |- oksteps _ clean_git_artifacts _ => apply oksteps_clean
    | |- oksteps _ (Httpx.create_repository _ _ _ _) _ =>
        apply oksteps_httpx_create_repository
    | |- oksteps _ (Requests.create_repository _ _ _ _) _ =>
        apply oksteps_requests_create_repository
    | |- oksteps _ (Httpx.create_gitignore _ _) _ =>
        apply oksteps_httpx_create_gitignore
    | |- oksteps _ (Requests.create_gitignore _ _) _ =>
        apply oksteps_requests_create_gitignore
    | |- oksteps _ (create_readme _ _) _ => apply oksteps_create_readme
    | |- oksteps _ (subprocess_run _ _ _) _ => apply oksteps_subprocess_run
    | |- oksteps _ (print _) _ => apply oksteps_print
    | |- oksteps _ (ret _) _ => apply oksteps_ret
    | |- oksteps _ (try_except _ _ _) _ => eapply oksteps_try
    | |- oksteps _ (_ ≫= _) _ => eapply oksteps_bind
    | |- fatal _ => intros ? ? ?; discriminate
    | |- forall _, _ => intros ?
    end.

Ltac unseq H :=
  repeat match type of H with
         | seq _ _ _ =>
             let s1 := fresh "s" in
             let s2 := fresh "s" in
             let H1 := fresh "H" in
             let H2 := fresh "H" in
             destruct H as (s1 & s2 & -> & H1 & H); unseq H1
         | [] = _ => subst
         | _ = _ => subst
         end.

Lemma httpx_workflow_steps (E : Env) username name description headers :
  oksteps E (httpx_workflow E username name description headers)
    (fun s => exists gi rd,
         s = httpx_order gi rd /\ optional WriteGitignore gi /\ optional WriteReadme rd).
Proof.
  assert (HL : exists L, oksteps E (httpx_workflow E username name description headers) L /\
                         forall s, L s -> exists gi rd,
                             s = httpx_order gi rd /\ optional WriteGitignore gi /\
                             optional WriteReadme rd).
  { eexists. split.
    - unfold httpx_workflow, httpx_publish, Httpx.setup_git_repository.
      oksteps_rules.
    - intros s H. cbv beta in H.
      destruct (steps_git E (remote_url_of username name))
        as (G1 & G2 & G3 & G4 & G5 & G6).
      unseq H. rewrite G1, G2, G3, G4, G5, G6.
      match goal with
      | H1 : ?gi = [] \/ ?gi = [WriteGitignore],
        H2 : ?rd = [] \/ ?rd = [WriteReadme] |- _ =>
          exists gi, rd; split; [|split; [exact H1|exact H2]];
          destruct H1 as [-> | ->], H2 as [-> | ->]; reflexivity
      end. }
  destruct HL as (L & HL & Himp).
  intros w a w' t H. apply Himp. eapply HL. exact H.
Qed.

Lemma requests_workflow_steps (E : Env) username name description headers :
  oksteps E (requests_workflow E username name description headers)
    (fun s => exists gi rd,
         s = requests_order gi rd /\ optional WriteGitignore gi /\
         optional WriteReadme rd).
Proof.
  assert (HL : exists L, oksteps E (requests_workflow E username name description headers) L /\
                         forall s, L s -> exists gi rd,
                             s = requests_order gi rd /\ optional WriteGitignore gi /\
                             optional WriteReadme rd).
  { eexists. split.
    - unfold requests_workflow, requests_publish.
      oksteps_rules.
    - intros s H. cbv beta in H.
      destruct (steps_git E (remote_url_of username name))
        as (G1 & G2 & G3 & G4 & G5 & G6).
      unseq H. rewrite G1, G2, G3, G4, G5, G6.
      match goal with
      | H1 : ?gi = [] \/ ?gi = [WriteGitignore],
        H2 : ?rd = [] \/ ?rd = [WriteReadme] |- _ =>
          exists gi, rd; split; [|split; [exact H1|exact H2]];
          destruct H1 as [-> | ->], H2 as [-> | ->]; reflexivity
      end. }
  destruct HL as (L & HL & Himp).
  intros w a w' t H. apply Himp. eapply HL. exact H.
Qed.

Lemma httpx_loop_meets_spec (E : Env) : loop_meets_spec E (Httpx.name_loop E).
Proof. intros fuel u hs w H. apply httpx_name_loop_meets_spec. exact H. Qed.

Lemma requests_loop_meets_spec (E : Env) : loop_meets_spec E (Requests.name_loop E).
Proof. intros fuel u hs w H. apply requests_name_loop_meets_spec. exact H. Qed.

Lemma splits_steps (E : Env) loop workflow (L : list step -> Prop) (w : World) x :
  loop_meets_spec E loop ->
  (forall u n d hs, oksteps E (workflow u n d hs) L) ->
  splits_into E loop workflow w x ->
  outcome x = Ok tt -> L (steps E (trace x)).
Proof.
  intros Hloop Hwf (reached & r & w1 & t1 & Hpre & Hx) Hok.
  destruct (prelude_run_quiet E loop w reached r w1 t1 Hloop Hpre)
    as (_ & _ & Hev & Hnone & _).
  destruct reached as [[[u n] d]|].
  - subst x. unfold outcome, trace in *. cbn [fst snd] in *.
    rewrite steps_app, (steps_prelude E t1 Hev). cbn [app].
    destruct (workflow u n d (token_headers E) w1) as [[r' w'] t'] eqn:Hw.
    cbn [fst snd] in *. subst r'. eapply Hwf. exact Hw.
  - subst x. unfold outcome in Hok. cbn [fst snd] in Hok.
    contradiction (Hnone eq_refl).
Qed.

(** C4 (amended). Every run of a workflow script that ends normally performs
    the steps in this order: the local artifacts are cleaned, then the
    remote repository is created, then [.gitignore] is written (unless it
    is kept); after that the httpx script writes the README (unless there
    is one) and then initializes the local repository, while the requests
    script initializes the local repository and then writes the README;
    then the branch is created, the commit made, the remote attached and
    the branch pushed. *)
Theorem C4_order_of_steps (E : Env) (w : World) :
  (outcome (Httpx.main E w) = Ok tt ->
   exists gi rd,
     steps E (trace (Httpx.main E w)) = httpx_order gi rd /\
     optional WriteGitignore gi /\ optional WriteReadme rd) /\
  (outcome (Requests.script E w) = Ok tt ->
   exists gi rd,
     steps E (trace (Requests.script E w)) = requests_order gi rd /\
     optional WriteGitignore gi /\ optional WriteReadme rd).
Proof.
  split; intros Hok.
  - apply (splits_steps E (Httpx.name_loop E) (httpx_workflow E)
             (fun s => exists gi rd, s = httpx_order gi rd /\
                         optional WriteGitignore gi /\ optional WriteReadme rd)
             w (Httpx.main E w));
      auto using httpx_loop_meets_spec, httpx_main_splits, httpx_workflow_steps.
  - apply (splits_steps E (Requests.name_loop E) (requests_workflow E)
             (fun s => exists gi rd, s = requests_order gi rd /\
                         optional WriteGitignore gi /\ optional WriteReadme rd)
             w (Requests.script E w));
      auto using requests_loop_meets_spec, requests_script_splits,
        requests_workflow_steps.
Qed.

(** C4, as stated, fails: the specification's order has the remote
    repository created before the cleanup and the local repository
    initialized before the README is written; but in this run of the httpx
    script, which ends normally, the cleanup comes before the creation of
    the remote repository and the README is written before the local
    repository is initialized; in the same run of the requests script the
    cleanup comes first as well. *)
Lemma C4_counterexample_clean_first :
  let inp := ["user"; "taken"; "y"; "demo"; "A demo"] in
  comes_before CreateRemote CleanLocalArtifacts spec_order = true /\
  comes_before InitLocalRepo WriteReadme spec_order = true /\
  outcome (Httpx.main Demo.env (Demo.world inp)) = Ok tt /\
  steps Demo.env (trace (Httpx.main Demo.env (Demo.world inp))) =
    [CleanLocalArtifacts; CreateRemote; WriteGitignore; WriteReadme; InitLocalRepo;
     CreateBranch; Commit; AddRemote; Push] /\
  comes_before CreateRemote CleanLocalArtifacts
    (steps Demo.env (trace (Httpx.main Demo.env (Demo.world inp)))) = false /\
  comes_before InitLocalRepo WriteReadme
    (steps Demo.env (trace (Httpx.main Demo.env (Demo.world inp)))) = false /\
  outcome (Requests.script Demo.env (Demo.world inp)) = Ok tt /\
  steps Demo.env (trace (Requests.script Demo.env (Demo.world inp))) =
    [CleanLocalArtifacts; CreateRemote; WriteGitignore; InitLocalRepo; WriteReadme;
     CreateBranch; Commit; AddRemote; Push] /\
  comes_before CreateRemote CleanLocalArtifacts
    (steps Demo.env (trace (Requests.script Demo.env (Demo.world inp)))) = false.
Proof. repeat split; vm_compute; reflexivity. Qed.

(** A witness of C4: a run of the httpx script that ends normally. *)
Lemma C4_witness_demo_run :
  let w := Demo.world ["user"; "taken"; "y"; "demo"; "A demo"] in
  outcome (Httpx.main Demo.env w) = Ok tt /\
  exists gi rd,
    steps Demo.env (trace (Httpx.main Demo.env w)) = httpx_order gi rd /\
    optional WriteGitignore gi /\ optional WriteReadme rd.
Proof.
  split; [vm_compute; reflexivity|].
  apply (proj1 (C4_order_of_steps Demo.env
                  (Demo.world ["user"; "taken"; "y"; "demo"; "A demo"]))).
  vm_compute. reflexivity.
Defined.

(** ** C9: the creation request without response *)

Lemma name_loop_spec_deterministic (E : Env) username headers n inp
    r1 rest1 n1 t1 r2 rest2 n2 t2 :
  name_loop_spec E username headers n inp r1 rest1 n1 t1 ->
  name_loop_spec E username headers n inp r2 rest2 n2 t2 ->
  r1 = r2 /\ rest1 = rest2 /\ n1 = n2 /\ t1 = t2.
Proof.
  intros H1. revert r2 rest2 n2 t2.
  induction H1; intros r2 rest2 n2 t2 H2; inversion H2; subst;
    try (repeat split; reflexivity); try congruence.
  - match goal with
    | |- _ = ?r2 /\ _ =>
        match goal with
        | H : name_loop_spec _ _ _ (S _) _ r2 _ _ _ |- _ =>
            destruct (IHname_loop_spec _ _ _ _ H) as (-> & -> & -> & ->)
        end
    end.
    repeat split; reflexivity.
  - match goal with
    | H1 : http E ?n = _, H2 : http E ?n = _ |- _ =>
        rewrite H1 in H2; injection H2 as <-
    end.
    repeat split; reflexivity.
Qed.

Lemma clean_outcome (w : World) :
  outcome (clean_git_artifacts w) = Ok tt /\
  ticks (final (clean_git_artifacts w)) = ticks w /\
  stdin (final (clean_git_artifacts w)) = stdin w /\
  sfiles (final (clean_git_artifacts w)) = sfiles w.
Proof.
  destruct (clean_git_artifacts_run w) as (d & post & -> & _).
  repeat split; reflexivity.
Qed.

Lemma httpx_workflow_no_response (E : Env) u n d hs (w : World) msg :
  http E (ticks w) = NoResponse msg ->
  outcome (httpx_workflow E u n d hs w) = Raise (UnboundLocalError "response").
Proof.
  intros H. unfold httpx_workflow, httpx_publish.
  destruct (clean_outcome w) as (Hok & Ht & _).
  rewrite bind_outcome, Hok, bind_outcome.
  destruct (httpx_create_repository_run E n d hs (final (clean_git_artifacts w)))
    as (r & t & Hrun & _ & Hno).
  rewrite Ht in Hno. destruct (Hno msg H) as [-> _].
  rewrite Hrun. reflexivity.
Qed.

Lemma requests_workflow_no_response (E : Env) u n d hs (w : World) msg :
  http E (ticks w) = NoResponse msg ->
  outcome (requests_workflow E u n d hs w) = Raise (NameError "response").
Proof.
  intros H. unfold requests_workflow, requests_publish.
  destruct (clean_outcome w) as (Hok & Ht & _).
  rewrite bind_outcome, Hok, bind_outcome.
  destruct (requests_create_repository_run E n d hs (final (clean_git_artifacts w)))
    as (r & t & Hrun & _ & Hno).
  rewrite Ht in Hno. destruct (Hno msg H) as [-> _].
  rewrite Hrun. reflexivity.
Qed.

(** A run that reaches the creation request: a token is set, the user name
    is read, and the name loop ends with a free name after [n'] external
    calls and leaves a line for the description. Then a request without
    response ends the script with the exception [e] of its workflow. *)
Lemma splits_no_response (E : Env) loop workflow (w : World) x
    username inp name description rest n' t msg (e : exn) :
  loop_meets_spec E loop ->
  (forall u n d hs w1, http E (ticks w1) = NoResponse msg ->
                       outcome (workflow u n d hs w1) = Raise e) ->
  splits_into E loop workflow w x ->
  token_missing (GITHUB_TOKEN E) = false ->
  stdin w = username :: inp ->
  name_loop_spec E username (token_headers E) (ticks w) inp (Ok name)
    (description :: rest) n' t ->
  http E n' = NoResponse msg ->
  outcome x = Raise e.
Proof.
  intros Hloop Hwf (reached & r & w1 & t1 & Hpre & Hx) Htok Hin Hspec Hno.
  assert (Hl : forall r2 w2 t2,
             loop (S (length inp)) username (token_headers E) (consumed w inp)
               = (r2, w2, t2) ->
             r2 = Ok name /\ stdin w2 = description :: rest /\ ticks w2 = n').
  { intros r2 w2 t2 H.
    destruct (Hloop (S (length inp)) username (token_headers E) (consumed w inp))
      as (Hs & _); [simpl; lia|].
    rewrite H in Hs. unfold outcome, final, trace in Hs. cbn [fst snd consumed
      stdin ticks] in Hs.
    destruct (name_loop_spec_deterministic _ _ _ _ _ _ _ _ _ _ _ _ _ Hs Hspec)
      as (-> & -> & -> & _).
    auto. }
  destruct Hpre as [Hin' | u inp' Hin' Ht | u inp' e' w2 t2 Hin' Ht Hr
                    | u inp' c w2 t2 Hin' Ht Hr | u inp' w2 t2 Hin' Ht Hr
                    | u inp' nm w2 t2 Hin' Ht Hr Hin2
                    | u inp' nm w2 t2 d rest' Hin' Ht Hr Hin2];
    try congruence;
    rewrite Hin in Hin'; injection Hin' as <- <-;
    destruct (Hl _ _ _ Hr) as (Hr2 & Hs2 & Ht2); try discriminate; try congruence.
  subst x. unfold outcome at 1. cbn [fst snd].
  apply Hwf. cbn [consumed ticks]. rewrite Ht2. exact Hno.
Qed.

(** C9. When the creation request raises a transport error before a
    response is assigned, the handler prints its message and then reads
    the unbound variable [response]: [create_repository] ends with an
    [UnboundLocalError] (httpx script) or a [NameError] (requests script)
    instead of [exit(1)]; and no handler of the workflow script catches
    it, so every run that reaches the creation request and gets no response
    ends with that exception. *)
Theorem C9_unbound_response (E : Env) (w : World) (msg : string) :
  (forall repo_name repo_description headers,
      http E (ticks w) = NoResponse msg ->
      let data := Payload repo_name repo_description false in
      let said := [HttpPost github_api_url data headers;
                   Print ("Error creating repository: " +:+
                          str_exn E (TransportError msg))] in
      Httpx.create_repository E repo_name repo_description headers w
        = (Raise (UnboundLocalError "response"), ticked w, said) /\
      Requests.create_repository E repo_name repo_description headers w
        = (Raise (NameError "response"), ticked w, said)) /\
  (forall username inp name description rest n' t,
      token_missing (GITHUB_TOKEN E) = false ->
      stdin w = username :: inp ->
      name_loop_spec E username (token_headers E) (ticks w) inp (Ok name)
        (description :: rest) n' t ->
      http E n' = NoResponse msg ->
      outcome (Httpx.main E w) = Raise (UnboundLocalError "response") /\
      outcome (Requests.script E w) = Raise (NameError "response")).
Proof.
  split.
  - intros n d hs H. cbv zeta.
    destruct (httpx_create_repository_run E n d hs w) as (r & t & -> & _ & Hno).
    destruct (requests_create_repository_run E n d hs w) as (r' & t' & -> & _ & Hno').
    destruct (Hno msg H) as [-> ->]. destruct (Hno' msg H) as [-> ->].
    split; reflexivity.
  - intros username inp name description rest n' t Htok Hin Hspec Hno. split.
    + eapply (splits_no_response E (Httpx.name_loop E) (httpx_workflow E));
        eauto using httpx_loop_meets_spec, httpx_main_splits.
      intros. eapply httpx_workflow_no_response; eauto.
    + eapply (splits_no_response E (Requests.name_loop E) (requests_workflow E));
        eauto using requests_loop_meets_spec, requests_script_splits.
      intros. eapply requests_workflow_no_response; eauto.
Qed.

(** A witness of C9: the name is free and the creation request gets no
    response. *)
Lemma C9_witness_offline :
  let w := Demo.world ["user"; "demo"; "A demo"] in
  outcome (Httpx.main Demo.env_offline w) = Raise (UnboundLocalError "response") /\
  outcome (Requests.script Demo.env_offline w) = Raise (NameError "response").
Proof.
  eapply (proj2 (C9_unbound_response Demo.env_offline
                   (Demo.world ["user"; "demo"; "A demo"]) "connection refused")
                "user" ["demo"; "A demo"] "demo" "A demo" [] 1%nat).
  - reflexivity.
  - reflexivity.
  - eapply (spec_free Demo.env_offline "user" _ 0 "demo" ["A demo"] 404).
    + reflexivity.
    + discriminate.
  - reflexivity.
Defined.

(** ** C8: what the cleanup removes, and what follows in the workflow *)

Ltac calm_rules :=
  repeat
    lazymatch goal with
    | |- emits _ (create_readme _ _) => apply emits_create_readme
    | |- emits _ (subprocess_run _ _ _) => apply emits_subprocess_run
    | |- emits _ (print _) => apply emits_print
    | |- emits _ (ret _) => apply emits_ret
    | |- emits _ (exit _) => apply emits_exit
    | |- emits _ (raise _) => apply emits_raise
    | |- emits _ (try_except _ _ _) => apply emits_try
    | |- emits _ (_ ≫= _) => apply emits_bind
    | |- calm _ => exact I
    | |- forall _, _ => intros ?
    end.

Lemma calm_prelude (t : list event) : Forall prelude_event t -> Forall calm t.
Proof.
  intros Ht. eapply Forall_impl; [exact Ht|].
  intros [] H; try exact H; try exact I; destruct H.
Qed.

Lemma calm_prints (t : list event) :
  Forall (fun e => match e with Print _ => True | _ => False end) t -> Forall calm t.
Proof.
  intros Ht. eapply Forall_impl; [exact Ht|].
  intros [] H; try destruct H; exact I.
Qed.

Lemma httpx_create_gitignore_calm (E : Env) (project_path : string) (w : World) :
  cwd w !! ".gitignore" = None ->
  Forall calm (trace (Httpx.create_gitignore E project_path w)).
Proof.
  intros Hg.
  assert (Hc : forall pre w1, confirmed [] w pre w1 -> pre = []).
  { intros pre w1 [_ | a r He _ _]; [reflexivity|].
    rewrite Hg in He. discriminate. }
  destruct (httpx_create_gitignore_run E project_path w)
    as [He _ | answer rest He _ _ | pre w1 c Hp _ _ | pre w1 msg Hp _ | pre w1 path Hp];
    try (rewrite Hg in He; discriminate);
    rewrite (Hc _ _ Hp); unfold trace; cbn [snd app]; repeat constructor.
Qed.

Lemma requests_create_gitignore_calm (E : Env) (project_path : string) (w : World) :
  cwd w !! ".gitignore" = None ->
  Forall calm (trace (Requests.create_gitignore E project_path w)).
Proof.
  intros Hg.
  assert (Hc : forall said pre w1, confirmed said w pre w1 -> pre = []).
  { intros said pre w1 [_ | a r He _ _]; [reflexivity|].
    rewrite Hg in He. discriminate. }
  destruct (requests_create_gitignore_run E project_path w)
    as [msg _ | He _ | answer rest He _ _ | pre w1 Hp _ | pre w1 Hp _];
    try (rewrite Hg in He; discriminate);
    try rewrite (Hc _ _ _ Hp); unfold trace; cbn [snd app]; repeat constructor.
Qed.

Lemma httpx_publish_calm (E : Env) u n d hs (w : World) :
  cwd w !! ".gitignore" = None ->
  Forall calm (trace (httpx_publish E u n d hs w)).
Proof.
  intros Hg. unfold httpx_publish.
  destruct (httpx_create_repository_run E n d hs w) as (r & t & Hrun & Hp & _).
  rewrite bind_trace, Hrun. unfold trace at 1, outcome, final. cbn [fst snd].
  apply Forall_app. split.
  { apply Forall_cons. split; [exact I|]. apply calm_prints. exact Hp. }
  destruct r; try apply List.Forall_nil.
  rewrite bind_trace. apply Forall_app. split.
  - rewrite try_trace. apply Forall_app. split.
    + apply httpx_create_gitignore_calm. exact Hg.
    + destruct (outcome _); try apply List.Forall_nil.
      unfold is_Exception, trace. cbn [snd]. repeat constructor.
  - destruct (outcome _); try apply List.Forall_nil.
    generalize (final (try_except (Httpx.create_gitignore E (getcwd E)) is_Exception
      (fun e => print ("Error creating .gitignore: " +:+ str_exn E e) ;; exit 1)
      (ticked w))).
    change (emits calm
      (try_except (Httpx.setup_git_repository E n d) is_CalledProcessError
         (fun e => print ("Error setting up git repository: " +:+ str_exn E e) ;;
                   exit 1) ;;
       try_except
         (print "Adding files according to .gitignore rules..." ;;
          subprocess_run E ["git"; "add"; "."] true ;;
          subprocess_run E ["git"; "commit"; "-m"; "Initial commit"] true ;;
          ret tt)
         is_CalledProcessError
         (fun e => print ("Error during git add/commit: " +:+ str_exn E e) ;; exit 1) ;;
       try_except
         (subprocess_run E ["git"; "remote"; "add"; "origin"; remote_url_of u n] true ;;
          print ("Pushing to remote repository: " +:+ remote_url_of u n) ;;
          subprocess_run E ["git"; "push"; "-u"; "origin"; "main"] true ;;
          print ("Project successfully pushed to GitHub at " +:+ remote_url_of u n))
         is_CalledProcessError
         (fun e =>
            print ("Error pushing to GitHub: " +:+ str_exn E e) ;;
            print "This might be due to SSH key issues or network problems." ;;
            exit 1))).
    unfold Httpx.setup_git_repository. calm_rules.
Qed.

Lemma requests_publish_calm (E : Env) u n d hs (w : World) :
  cwd w !! ".gitignore" = None ->
  Forall calm (trace (requests_publish E u n d hs w)).
Proof.
  intros Hg. unfold requests_publish.
  destruct (requests_create_repository_run E n d hs w) as (r & t & Hrun & Hp & _).
  rewrite bind_trace, Hrun. unfold trace at 1, outcome, final. cbn [fst snd].
  apply Forall_app. split.
  { apply Forall_cons. split; [exact I|]. apply calm_prints. exact Hp. }
  destruct r; try apply List.Forall_nil.
  rewrite bind_trace. apply Forall_app. split.
  - rewrite try_trace. apply Forall_app. split.
    + apply requests_create_gitignore_calm. exact Hg.
    + destruct (outcome _); try apply List.Forall_nil.
      unfold is_Exception, trace. cbn [snd]. repeat constructor.
  - destruct (outcome _); try apply List.Forall_nil.
    match goal with
    | |- Forall calm (trace (?m ?w0)) =>
        generalize w0; change (emits calm m)
    end.
    calm_rules.
Qed.

Lemma calm_no_question (t : list event) :
  Forall calm t -> (Prompt overwrite_question ∉ t) /\ (Listdir ∉ t).
Proof.
  intros H. rewrite Forall_forall in H.
  split; intros Hin; apply H in Hin; [apply Hin; reflexivity|exact Hin].
Qed.

Lemma clean_removes_gitignore (w : World) content :
  cwd w !! ".gitignore" = Some (File content) ->
  cwd (final (clean_git_artifacts w)) !! ".gitignore" = None /\
  no_question_and_removed (trace (clean_git_artifacts w)).
Proof.
  intros Hg.
  destruct (clean_git_artifacts_run w) as (d & post & Hrun & Hev & Hlk & Hrm).
  rewrite Hrun. unfold final, trace. cbn [fst snd cwd]. split.
  - rewrite Hlk, Hg. reflexivity.
  - assert (Hr : Remove ".gitignore" ∈ post).
    { apply Hrm; [reflexivity|rewrite Hg; reflexivity]. }
    split.
    + intros Hin. apply elem_of_app in Hin as [Hin|Hin].
      * destruct (is_dir _); repeat (apply elem_of_cons in Hin as [Hin|Hin];
          [discriminate|]); inversion Hin.
      * apply elem_of_cons in Hin as [Hin|Hin]; [discriminate|].
        rewrite Forall_forall in Hev. apply Hev in Hin. exact Hin.
    + intros _. apply elem_of_app. right. right. exact Hr.
Qed.

(** A workflow that cleans first and then asks no question as long as there
    is no [.gitignore]: started with a regular [.gitignore], the script
    never asks the overwrite question, and once it has listed the working
    directory it has removed the file. *)
Lemma splits_removes_gitignore (E : Env) loop publish (w : World) x content :
  loop_meets_spec E loop ->
  (forall u n d hs w1, cwd w1 !! ".gitignore" = None ->
                       Forall calm (trace (publish u n d hs w1))) ->
  splits_into E loop
    (fun u n d hs => clean_git_artifacts ;; publish u n d hs) w x ->
  cwd w !! ".gitignore" = Some (File content) ->
  no_question_and_removed (trace x).
Proof.
  intros Hloop Hpub (reached & r & w1 & t1 & Hpre & Hx) Hg.
  destruct (prelude_run_quiet E loop w reached r w1 t1 Hloop Hpre)
    as (Hc & _ & Hev & _ & _).
  apply calm_prelude, calm_no_question in Hev as [Hq Hl].
  destruct reached as [[[u n] d]|]; subst x; unfold trace at 1; cbn [snd].
  2: { split; [exact Hq|]. intros H. contradiction. }
  rewrite <- Hc in Hg.
  destruct (clean_removes_gitignore w1 content Hg) as (Hnone & Hq' & Hr').
  destruct (clean_outcome w1) as (Hok & _).
  rewrite bind_trace, Hok.
  specialize (Hpub u n d (token_headers E) _ Hnone).
  apply calm_no_question in Hpub as [Hq2 Hl2].
  split.
  - rewrite !not_elem_of_app. auto.
  - rewrite !elem_of_app. intros [H|[H|H]]; try contradiction. auto.
Qed.

(** A script that is a first half followed by the cleanup and [publish]:
    started with a regular [.gitignore], a run that reads the user name and
    then, as the name loop goes, a free name and the description, cleans
    the working directory right after the question for the description,
    and the cleanup removes the file. *)
Lemma splits_cleans (E : Env) loop publish (w : World) x content
    username inp name description rest n' t :
  loop_meets_spec E loop ->
  splits_into E loop
    (fun u n d hs => clean_git_artifacts ;; publish u n d hs) w x ->
  cwd w !! ".gitignore" = Some (File content) ->
  token_missing (GITHUB_TOKEN E) = false ->
  stdin w = username :: inp ->
  name_loop_spec E username (token_headers E) (ticks w) inp (Ok name)
    (description :: rest) n' t ->
  cleaned_after_questions t (mkWorld (cwd w) (sfiles w) rest n') (trace x).
Proof.
  intros Hloop (reached & r & w1 & t1 & Hpre & Hx) Hg Htok Hin Hspec.
  assert (Hl : forall r2 w2 t2,
             loop (S (length inp)) username (token_headers E) (consumed w inp)
               = (r2, w2, t2) ->
             r2 = Ok name /\
             w2 = mkWorld (cwd w) (sfiles w) (description :: rest) n' /\ t2 = t).
  { intros r2 w2 t2 H.
    destruct (Hloop (S (length inp)) username (token_headers E) (consumed w inp))
      as (Hs & Hc & Hsf); [simpl; lia|].
    rewrite H in Hs, Hc, Hsf. unfold outcome, final, trace in *.
    cbn [fst snd consumed stdin ticks cwd sfiles] in *.
    destruct (name_loop_spec_deterministic _ _ _ _ _ _ _ _ _ _ _ _ _ Hs Hspec)
      as (-> & Hr & Hn & ->).
    destruct w2; cbn [cwd sfiles stdin ticks] in *. subst. auto. }
  destruct Hpre as [Hin' | u inp' Hin' Ht | u inp' e' w2 t2 Hin' Ht Hr
                    | u inp' c w2 t2 Hin' Ht Hr | u inp' w2 t2 Hin' Ht Hr
                    | u inp' nm w2 t2 Hin' Ht Hr Hin2
                    | u inp' nm w2 t2 d rest' Hin' Ht Hr Hin2];
    try congruence;
    rewrite Hin in Hin'; injection Hin' as <- <-;
    destruct (Hl _ _ _ Hr) as (Hr2 & Hw2 & Ht2); try discriminate.
  - subst w2. discriminate Hin2.
  - injection Hr2 as ->. subst w2 t2. cbn [stdin] in Hin2.
    injection Hin2 as <- <-. subst x.
    unfold consumed. cbn [cwd sfiles stdin ticks].
    set (w1 := mkWorld (cwd w) (sfiles w) rest n').
    assert (Hg1 : cwd w1 !! ".gitignore" = Some (File content)) by exact Hg.
    destruct (clean_removes_gitignore w1 content Hg1) as (Hnone & _ & _).
    destruct (clean_outcome w1) as (Hok & _).
    unfold cleaned_after_questions. split; [|split; [|exact Hnone]].
    + unfold trace at 1. cbn [snd]. rewrite bind_trace, Hok.
      eexists. cbn [app]. rewrite <- !app_assoc. reflexivity.
    + destruct (clean_git_artifacts_run w1) as (d0 & post & Hrun & _ & _ & Hrm).
      rewrite Hrun. unfold trace. cbn [snd].
      apply elem_of_app. right. right.
      apply Hrm; [reflexivity|rewrite Hg1; reflexivity].
Qed.

(** C8. The cleanup prints and removes but asks nothing: it leaves the input
    and everything outside the working directory alone, removes [.git] when
    it is a directory and every regular file whose name starts with ".git"
    ([.gitignore] among them), and keeps every other entry as it is, such
    as the directory [.github] or a file whose name does not start with
    ".git". Consequently a workflow script started with a regular
    [.gitignore] never asks the overwrite question, and once it has reached
    the cleanup it has removed that file. And it does reach the cleanup
    whenever it gets past its questions: a run that reads the user name
    and then, as the name loop goes, a free name and the description,
    cleans the working directory right after the question for the
    description, and this cleanup removes [.gitignore]. *)
Theorem C8_clean_removes_gitignore (E : Env) (w : World) :
  (stdin (final (clean_git_artifacts w)) = stdin w /\
   sfiles (final (clean_git_artifacts w)) = sfiles w /\
   forall k : string,
     cwd (final (clean_git_artifacts w)) !! k =
     if (String.eqb k ".git" && is_dir (cwd w !! k))
        || (startswith ".git" k && is_file (cwd w !! k))
     then None else cwd w !! k) /\
  (forall content,
      cwd w !! ".gitignore" = Some (File content) ->
      (no_question_and_removed (trace (Httpx.main E w)) /\
       no_question_and_removed (trace (Requests.script E w))) /\
      (forall username inp name description rest n' t,
          token_missing (GITHUB_TOKEN E) = false ->
          stdin w = username :: inp ->
          name_loop_spec E username (token_headers E) (ticks w) inp (Ok name)
            (description :: rest) n' t ->
          cleaned_after_questions t (mkWorld (cwd w) (sfiles w) rest n')
            (trace (Httpx.main E w)) /\
          cleaned_after_questions t (mkWorld (cwd w) (sfiles w) rest n')
            (trace (Requests.script E w)))).
Proof.
  split.
  - destruct (clean_git_artifacts_run w) as (d & post & Hrun & _ & Hlk & _).
    rewrite Hrun. unfold final. cbn [fst snd cwd stdin sfiles].
    repeat split. exact Hlk.
  - intros content Hg. split; [split|].
    + eapply (splits_removes_gitignore E (Httpx.name_loop E) (httpx_publish E));
        eauto using httpx_loop_meets_spec, httpx_publish_calm.
      apply httpx_main_splits.
    + eapply (splits_removes_gitignore E (Requests.name_loop E) (requests_publish E));
        eauto using requests_loop_meets_spec, requests_publish_calm.
      apply requests_script_splits.
    + intros username inp name description rest n' t Htok Hin Hspec. split.
      * eapply (splits_cleans E (Httpx.name_loop E) (httpx_publish E));
          eauto using httpx_loop_meets_spec.
        apply httpx_main_splits.
      * eapply (splits_cleans E (Requests.name_loop E) (requests_publish E));
          eauto using requests_loop_meets_spec.
        apply requests_script_splits.
Qed.

(** A witness of C8: the demo directory, with its old [.gitignore]. The
    first name is taken, the second is free; both scripts remove the old
    file. *)
Lemma C8_witness_old_gitignore :
  let w := Demo.world ["user"; "taken"; "y"; "demo"; "A demo"] in
  cwd w !! ".gitignore" = Some (File "old") /\
  (no_question_and_removed (trace (Httpx.main Demo.env w)) /\
   no_question_and_removed (trace (Requests.script Demo.env w))) /\
  Remove ".gitignore" ∈ trace (Httpx.main Demo.env w) /\
  Remove ".gitignore" ∈ trace (Requests.script Demo.env w).
Proof.
  split; [reflexivity|].
  pose proof (proj2 (C8_clean_removes_gitignore Demo.env
                       (Demo.world ["user"; "taken"; "y"; "demo"; "A demo"]))
                    "old" eq_refl) as [Hq Hc].
  split; [exact Hq|].
  destruct (Hc "user" ["taken"; "y"; "demo"; "A demo"] "demo" "A demo" [] 2%nat
              (taken_events "user" "taken" (token_headers Demo.env) ++
               [Prompt name_question;
                HttpGet (repos_url "user" "demo") (token_headers Demo.env)])
              eq_refl eq_refl)
    as [((l1 & H1) & Hr1 & _) ((l2 & H2) & Hr2 & _)].
  { eapply spec_retry; [reflexivity | reflexivity |].
    eapply (spec_free Demo.env "user" _ 1 "demo" ["A demo"] 404);
      [reflexivity | discriminate]. }
  split.
  - rewrite H1. right. apply elem_of_app. right. right.
    apply elem_of_app. left. exact Hr1.
  - rewrite H2. right. apply elem_of_app. right. right.
    apply elem_of_app. left. exact Hr2.
Defined.

(** * Further properties of the scripts *)

(** ** How the scripts end *)

Section Tame.
Context (X : exn -> Prop).


Lemma try_outcome {A} (m : M A) handles (h : exn -> M A) (w : World) :
  outcome (try_except m handles h w) =
  match outcome (m w) with
  | Raise e => if handles e then outcome (h e (final (m w))) else Raise e
  | r => r
  end.
Proof.
  unfold try_except. destruct (m w) as [[[a|e|c|] w1] t1]; try reflexivity.
  unfold outcome, final. cbn [fst snd].
  destruct (handles e); [|reflexivity].
  destruct (h e w1) as [[r w2] t2]. reflexivity.
Qed.






End Tame.

Lemma tame_weaken {A} (X Y : exn -> Prop) (m : M A) :
  tame X m -> (forall e, X e -> Y e) -> tame Y m.
Proof.
  intros Hm HXY w. specialize (Hm w). destruct (outcome (m w)); auto.
Qed.











(** ** The events of the blocks, by class *)

Section BlockEvents.
Context (C : event -> Prop).
Context (C_print : forall msg, C (Print msg)).

Lemma emits_clean :
  C (Rmtree ".git") -> C Listdir -> (forall k, C (Remove k)) ->
  emits C clean_git_artifacts.
Proof.
  intros Hr Hl Hk w.
  destruct (clean_git_artifacts_run w) as (d & post & -> & Hpost & _).
  unfold trace. cbn [snd]. apply Forall_app. split.
  - destruct (is_dir _); repeat constructor; auto.
  - constructor; [exact Hl|].
    eapply Forall_impl; [exact Hpost|].
    intros [] H; try destruct H; auto.
Qed.

Lemma emits_confirmed (said : list event) (w : World) pre w1 :
  C (Prompt overwrite_question) -> Forall C said ->
  confirmed said w pre w1 -> Forall C pre.
Proof.
  intros Hq Hs [_ | answer rest _ _ _]; [constructor|].
  constructor; assumption.
Qed.

Lemma emits_httpx_create_gitignore (E : Env) (project_path : string) :
  C (Prompt overwrite_question) ->
  (forall content, C (WriteFile (path_join project_path ".gitignore") content)) ->
  emits C (Httpx.create_gitignore E project_path).
Proof.
  intros Hq Hw w.
  destruct (httpx_create_gitignore_run E project_path w)
    as [_ _ | answer rest _ _ _ | pre w1 c Hc _ _ | pre w1 msg Hc _ | pre w1 path Hc];
    unfold trace; cbn [snd];
    try (apply Forall_app; split);
    try (eapply emits_confirmed; [exact Hq| |exact Hc]);
    repeat constructor; auto.
Qed.

Lemma emits_requests_create_gitignore (E : Env) (project_path : string) :
  C (Prompt overwrite_question) -> C (Run (python_cmd E)) ->
  emits C (Requests.create_gitignore E project_path).
Proof.
  intros Hq Hr w.
  destruct (requests_create_gitignore_run E project_path w)
    as [msg _ | _ _ | answer rest _ _ _ | pre w1 Hc _ | pre w1 Hc _];
    unfold trace; cbn [snd];
    try (apply Forall_app; split);
    try (eapply emits_confirmed; [exact Hq| |exact Hc]);
    repeat constructor; auto.
Qed.


End BlockEvents.

(** ** The actions of the scripts *)

Lemma actions_app (t1 t2 : list event) :
  actions (t1 ++ t2) = actions t1 ++ actions t2.
Proof. apply omap_app. Qed.

Lemma actions_inactive (t : list event) : Forall inactive t -> actions t = [].
Proof.
  induction 1 as [|e t He _ IH]; [reflexivity|].
  unfold actions in *. change (omap action_of (e :: t)) with
    (match action_of e with Some a => a :: omap action_of t
                          | None => omap action_of t end).
  rewrite He. exact IH.
Qed.

Lemma within_bind {A B} (m : M A) (k : A -> M B) l1 l2 :
  within m l1 -> (forall a, within (k a) l2) -> within (m ≫= k) (l1 ++ l2).
Proof.
  intros Hm Hk w. rewrite bind_trace, bind_outcome, actions_app.
  destruct (Hm w) as [Hp Hok].
  destruct (outcome (m w)) as [a|e|c|] eqn:Ho.
  - rewrite (Hok a eq_refl). destruct (Hk a (final (m w))) as [Hp2 Hok2]. split.
    + apply prefix_app. exact Hp2.
    + intros b Hb. rewrite (Hok2 b Hb). reflexivity.
  - cbn [actions omap list_omap]. rewrite app_nil_r.
    split; [apply prefix_app_r; exact Hp|discriminate].
  - cbn [actions omap list_omap]. rewrite app_nil_r.
    split; [apply prefix_app_r; exact Hp|discriminate].
  - cbn [actions omap list_omap]. rewrite app_nil_r.
    split; [apply prefix_app_r; exact Hp|discriminate].
Qed.

Lemma within_try {A} (m : M A) handles (h : exn -> M A) l :
  within m l -> fatal h -> (forall e, emits inactive (h e)) ->
  within (try_except m handles h) l.
Proof.
  intros Hm Hf Hh w. rewrite try_trace, try_outcome, actions_app.
  destruct (Hm w) as [Hp Hok].
  destruct (outcome (m w)) as [a|e|c|] eqn:Ho;
    try (cbn [actions omap list_omap]; rewrite app_nil_r; split; assumption).
  destruct (handles e).
  - rewrite (actions_inactive _ (Hh e _)), app_nil_r. split; [exact Hp|].
    intros a Ha. contradiction (Hf e (final (m w)) a).
  - cbn [actions omap list_omap]. rewrite app_nil_r. split; assumption.
Qed.

Lemma within_inactive {A} (m : M A) : emits inactive m -> within m [].
Proof.
  intros Hm w. rewrite (actions_inactive _ (Hm w)). split; [reflexivity|auto].
Qed.

Lemma within_command (E : Env) cmd check :
  within (subprocess_run E cmd check) [Command cmd].
Proof.
  intros w. rewrite subprocess_run_run. cbv zeta.
  destruct (check && negb _)%bool; split; try reflexivity; try discriminate.
Qed.

Lemma within_httpx_create_repository (E : Env) repo_name repo_description headers :
  within (Httpx.create_repository E repo_name repo_description headers)
    [Created (Payload repo_name repo_description false)].
Proof.
  intros w.
  destruct (httpx_create_repository_run E repo_name repo_description headers w)
    as (r & t & -> & Ht & _).
  unfold trace. cbn [snd]. change (?e :: t) with ([e] ++ t).
  rewrite actions_app, (actions_inactive t), app_nil_r.
  - split; [reflexivity|auto].
  - eapply Forall_impl; [exact Ht|]. intros [] H; try destruct H; reflexivity.
Qed.

Lemma within_requests_create_repository (E : Env) repo_name repo_description headers :
  within (Requests.create_repository E repo_name repo_description headers)
    [Created (Payload repo_name repo_description false)].
Proof.
  intros w.
  destruct (requests_create_repository_run E repo_name repo_description headers w)
    as (r & t & -> & Ht & _).
  unfold trace. cbn [snd]. change (?e :: t) with ([e] ++ t).
  rewrite actions_app, (actions_inactive t), app_nil_r.
  - split; [reflexivity|auto].
  - eapply Forall_impl; [exact Ht|]. intros [] H; try destruct H; reflexivity.
Qed.

Ltac inactive_rules :=
  repeat
    lazymatch goal with
    | |- emits _ clean_git_artifacts => apply emits_clean
    | |- emits _ (Httpx.create_gitignore _ _) => apply emits_httpx_create_gitignore
    | |- emits _ (Requests.create_gitignore _ _) =>
        apply emits_requests_create_gitignore
    | |- emits _ (create_readme _ _) => apply emits_create_readme
    | |- emits _ (subprocess_run _ _ _) => apply emits_subprocess_run
    | |- emits _ (print _) => apply emits_print
    | |- emits _ (ret _) => apply emits_ret
    | |- emits _ (exit _) => apply emits_exit
    | |- emits _ (try_except _ _ _) => apply emits_try
    | |- emits _ (_ ≫= _) => apply emits_bind
    | |- inactive _ => reflexivity
    | |- offline _ => reflexivity
    | |- forall _, _ => intros ?
    end.

Ltac within_rules :=
  repeat
    lazymatch goal with
    | |- within (Httpx.create_repository _ _ _ _) _ =>
        apply within_httpx_create_repository
    | |- within (Requests.create_repository _ _ _ _) _ =>
        apply within_requests_create_repository
    | |- within (subprocess_run _ _ _) _ => apply within_command
    | |- within (try_except _ _ _) _ => eapply within_try
    | |- within (_ ≫= _) _ => eapply within_bind
    | |- within _ _ => apply within_inactive; inactive_rules
    | |- fatal _ => intros ? ? ?; discriminate
    | |- emits _ _ => inactive_rules
    | |- forall _, _ => intros ?
    end.

Lemma within_httpx_workflow (E : Env) u n d hs :
  within (httpx_workflow E u n d hs) (httpx_plan u n d).
Proof.
  assert (H : exists l, within (httpx_workflow E u n d hs) l /\ l = httpx_plan u n d).
  { eexists. split.
    - unfold httpx_workflow, httpx_publish, Httpx.setup_git_repository.
      within_rules.
    - reflexivity. }
  destruct H as (l & H & <-). exact H.
Qed.

Lemma within_either_const {A} (m : M A) l :
  within m l -> within_either m (fun _ => l).
Proof. intros H w. exists true. apply H. Qed.

Lemma within_either_ext {A} (m : M A) (f g : bool -> list action) :
  within_either m f -> (forall b, f b = g b) -> within_either m g.
Proof.
  intros H Hfg w. destruct (H w) as (b & Hb). exists b.
  rewrite <- Hfg. exact Hb.
Qed.

Lemma within_either_bind_l {A B} (m : M A) (k : A -> M B) l1 f :
  within m l1 -> (forall a, within_either (k a) f) ->
  within_either (m ≫= k) (fun b => l1 ++ f b).
Proof.
  intros Hm Hk w. rewrite bind_trace, bind_outcome, actions_app.
  destruct (Hm w) as [Hp Hok].
  destruct (outcome (m w)) as [a|e|c|] eqn:Ho.
  - rewrite (Hok a eq_refl).
    destruct (Hk a (final (m w))) as (b & Hp2 & Hok2). exists b. split.
    + apply prefix_app. exact Hp2.
    + intros b' Hb. rewrite (Hok2 b' Hb). reflexivity.
  - exists true. cbn [actions omap list_omap]. rewrite app_nil_r.
    split; [apply prefix_app_r; exact Hp|discriminate].
  - exists true. cbn [actions omap list_omap]. rewrite app_nil_r.
    split; [apply prefix_app_r; exact Hp|discriminate].
  - exists true. cbn [actions omap list_omap]. rewrite app_nil_r.
    split; [apply prefix_app_r; exact Hp|discriminate].
Qed.

Lemma within_either_bind_r {A B} (m : M A) (k : A -> M B) f l2 :
  within_either m f -> (forall a, within (k a) l2) ->
  within_either (m ≫= k) (fun b => f b ++ l2).
Proof.
  intros Hm Hk w. rewrite bind_trace, bind_outcome, actions_app.
  destruct (Hm w) as (b & Hp & Hok). exists b.
  destruct (outcome (m w)) as [a|e|c|] eqn:Ho.
  - rewrite (Hok a eq_refl). destruct (Hk a (final (m w))) as [Hp2 Hok2]. split.
    + apply prefix_app. exact Hp2.
    + intros b' Hb. rewrite (Hok2 b' Hb). reflexivity.
  - cbn [actions omap list_omap]. rewrite app_nil_r.
    split; [apply prefix_app_r; exact Hp|discriminate].
  - cbn [actions omap list_omap]. rewrite app_nil_r.
    split; [apply prefix_app_r; exact Hp|discriminate].
  - cbn [actions omap list_omap]. rewrite app_nil_r.
    split; [apply prefix_app_r; exact Hp|discriminate].
Qed.

Lemma within_either_try {A} (m : M A) handles (h : exn -> M A) f :
  within_either m f -> fatal h -> (forall e, emits inactive (h e)) ->
  within_either (try_except m handles h) f.
Proof.
  intros Hm Hf Hh w. rewrite try_trace, try_outcome, actions_app.
  destruct (Hm w) as (b & Hp & Hok). exists b.
  destruct (outcome (m w)) as [a|e|c|] eqn:Ho;
    try (cbn [actions omap list_omap]; rewrite app_nil_r; split; assumption).
  destruct (handles e).
  - rewrite (actions_inactive _ (Hh e _)), app_nil_r. split; [exact Hp|].
    intros a Ha. contradiction (Hf e (final (m w)) a).
  - cbn [actions omap list_omap]. rewrite app_nil_r. split; assumption.
Qed.

Lemma within_either_requests_create_gitignore (E : Env) (project_path : string) :
  within_either (Requests.create_gitignore E project_path)
    (fun b => if b : bool then [Command (python_cmd E)] else []).
Proof.
  intros w.
  assert (Hpre : forall pre w1,
             confirmed [Print "Overwriting existing .gitignore file"] w pre w1 ->
             actions pre = []).
  { intros pre w1 Hc. apply actions_inactive.
    eapply emits_confirmed; [| |exact Hc];
      repeat constructor; intros; reflexivity. }
  destruct (requests_create_gitignore_run E project_path w)
    as [msg _ | _ _ | answer rest _ _ _ | pre w1 Hc _ | pre w1 Hc _];
    unfold trace, outcome; cbn [fst snd].
  - exists false. split; [reflexivity|discriminate].
  - exists false. split; [reflexivity|discriminate].
  - exists false. split; [reflexivity|auto].
  - exists true. rewrite actions_app, (Hpre _ _ Hc). split; [reflexivity|auto].
  - exists true. rewrite actions_app, (Hpre _ _ Hc). split; [reflexivity|auto].
Qed.

Lemma within_either_requests_workflow (E : Env) u n d hs :
  within_either (requests_workflow E u n d hs) (fun b => requests_plan E b u n d).
Proof.
  assert (H : exists f, within_either (requests_workflow E u n d hs) f /\
                        forall b, f b = requests_plan E b u n d).
  { eexists. split.
    - unfold requests_workflow, requests_publish.
      eapply within_either_bind_l; [within_rules|intros ?].
      eapply within_either_bind_l; [within_rules|intros ?].
      eapply within_either_bind_r;
        [apply within_either_try;
           [apply within_either_requests_create_gitignore | within_rules ..]
        |intros ?; within_rules].
    - intros []; reflexivity. }
  destruct H as (f & H & Hf). exact (within_either_ext _ _ _ H Hf).
Qed.

Lemma actions_prelude (t : list event) : Forall prelude_event t -> actions t = [].
Proof.
  intros H. apply actions_inactive. eapply Forall_impl; [exact H|].
  intros [] He; try reflexivity; destruct He.
Qed.

Lemma httpx_workflow_creates_first (E : Env) u n d hs (w : World) :
  [Created (Payload n d false)] `prefix_of` actions (trace (httpx_workflow E u n d hs w)).
Proof.
  unfold httpx_workflow, httpx_publish.
  destruct (clean_outcome w) as (Hok & _).
  rewrite bind_trace, Hok, bind_trace.
  destruct (httpx_create_repository_run E n d hs (final (clean_git_artifacts w)))
    as (r & t & -> & _).
  unfold trace at 2. cbn [snd].
  rewrite actions_app, (actions_inactive (trace (clean_git_artifacts w))).
  - cbn [app]. eexists. reflexivity.
  - generalize w. change (emits inactive clean_git_artifacts). inactive_rules.
Qed.

Lemma requests_workflow_creates_first (E : Env) u n d hs (w : World) :
  [Created (Payload n d false)]
    `prefix_of` actions (trace (requests_workflow E u n d hs w)).
Proof.
  unfold requests_workflow, requests_publish.
  destruct (clean_outcome w) as (Hok & _).
  rewrite bind_trace, Hok, bind_trace.
  destruct (requests_create_repository_run E n d hs (final (clean_git_artifacts w)))
    as (r & t & -> & _).
  unfold trace at 2. cbn [snd].
  rewrite actions_app, (actions_inactive (trace (clean_git_artifacts w))).
  - cbn [app]. eexists. reflexivity.
  - generalize w. change (emits inactive clean_git_artifacts). inactive_rules.
Qed.

Lemma splits_plan (E : Env) loop workflow
    (plan : bool -> string -> string -> string -> list action)
    (w : World) x :
  loop_meets_spec E loop ->
  (forall u n d hs, within_either (workflow u n d hs) (fun b => plan b u n d)) ->
  (forall u n d hs w1,
      [Created (Payload n d false)] `prefix_of` actions (trace (workflow u n d hs w1))) ->
  splits_into E loop workflow w x ->
  follows_plan E w plan x.
Proof.
  intros Hloop Hwf Hfirst (reached & r & w1 & t1 & Hpre & Hx).
  destruct (prelude_run_quiet E loop w reached r w1 t1 Hloop Hpre)
    as (_ & _ & Hev & Hnone & _).
  apply actions_prelude in Hev.
  assert (Hl : forall username inp r2 w2 t2,
             loop (S (length inp)) username (token_headers E) (consumed w inp)
               = (r2, w2, t2) ->
             name_loop_spec E username (token_headers E) (ticks w) inp
               r2 (stdin w2) (ticks w2) t2).
  { intros username inp r2 w2 t2 H.
    destruct (Hloop (S (length inp)) username (token_headers E) (consumed w inp))
      as (Hs & _); [simpl; lia|].
    rewrite H in Hs. exact Hs. }
  split.
  - destruct reached as [[[u n] d]|].
    + right.
      inversion Hpre as [| | | | | |u' inp nm w2 t2 d' rest Hin Ht Hr Hin2]; subst.
      pose proof (Hl _ _ _ _ _ Hr) as Hs. rewrite Hin2 in Hs.
      destruct (Hwf u n d (token_headers E) (consumed w2 rest)) as (b & Hp & Hok).
      exists u, inp, n, d, rest, (ticks w2), t2, b.
      split; [exact Hin|]. split; [exact Hs|].
      destruct (workflow u n d (token_headers E) (consumed w2 rest)) as [[r' w'] t'].
      unfold trace, outcome, final in *. cbn [fst snd] in *.
      rewrite actions_app, Hev. cbn [app].
      split; [exact Hp|]. intros Ho. exact (Hok tt Ho).
    + left. subst x. unfold trace, outcome. cbn [fst snd].
      split; [exact Hev|]. apply Hnone. reflexivity.
  - intros username inp name description rest n' t Htok Hin Hspec.
    destruct Hpre as [Hin' | u inp' Hin' Ht | u inp' e' w2 t2 Hin' Ht Hr
                      | u inp' c w2 t2 Hin' Ht Hr | u inp' w2 t2 Hin' Ht Hr
                      | u inp' nm w2 t2 Hin' Ht Hr Hin2
                      | u inp' nm w2 t2 d rest' Hin' Ht Hr Hin2];
      try congruence;
      rewrite Hin in Hin'; injection Hin' as <- <-;
      pose proof (Hl _ _ _ _ _ Hr) as Hs;
      destruct (name_loop_spec_deterministic _ _ _ _ _ _ _ _ _ _ _ _ _ Hs Hspec)
        as (Hr2 & Hrest & _ & _); try discriminate.
    + rewrite Hin2 in Hrest. discriminate.
    + injection Hr2 as ->. rewrite Hin2 in Hrest. injection Hrest as -> ->.
      subst x. unfold trace at 1. cbn [snd].
      rewrite actions_app, Hev. cbn [app]. apply Hfirst.
Qed.

(** X2. What a workflow script does to the outside is fixed in advance. The
    actions of the httpx script, its creation requests and the commands it
    starts, are the creation request for a public repository, then
    [git init], [git checkout -b main], [git add .],
    [git commit -m "Initial commit"], [git remote add origin
    git@github.com:<user>/<name>.git] and [git push -u origin main]; those
    of the requests script are the same, with or without the command that
    starts the writer script between the creation request and [git init]
    (what the writer script runs in its own process is not counted). Every
    run, however it ends, performs the first actions of its list, in this
    order, none twice and no other; a run that ends normally has performed
    all of them. A run that performs any has read the user name first and
    then, as the name loop goes, the name and the description that the
    list is for. *)
Theorem X2_actions_follow_plan (E : Env) (w : World) :
  follows_plan E w (fun _ => httpx_plan) (Httpx.main E w) /\
  follows_plan E w (requests_plan E) (Requests.script E w).
Proof.
  split.
  - apply (splits_plan E (Httpx.name_loop E) (httpx_workflow E));
      auto using httpx_loop_meets_spec, httpx_main_splits,
        httpx_workflow_creates_first.
    intros u n d hs. apply within_either_const, within_httpx_workflow.
  - apply (splits_plan E (Requests.name_loop E) (requests_workflow E));
      auto using requests_loop_meets_spec, requests_script_splits,
        within_either_requests_workflow, requests_workflow_creates_first.
Qed.

(** ** The requests of the scripts *)

Lemma traffic_app (t1 t2 : list event) :
  traffic (t1 ++ t2) = traffic t1 ++ traffic t2.
Proof. apply omap_app. Qed.

Lemma traffic_offline (t : list event) : Forall offline t -> traffic t = [].
Proof.
  induction 1 as [|e t He _ IH]; [reflexivity|].
  unfold traffic in *. change (omap request_of (e :: t)) with
    (match request_of e with Some a => a :: omap request_of t
                           | None => omap request_of t end).
  rewrite He. exact IH.
Qed.

Lemma name_loop_spec_traffic (E : Env) username headers n inp r rest n' t :
  name_loop_spec E username headers n inp r rest n' t ->
  exists names,
    traffic t = map (fun name => Lookup (repos_url username name) headers) names /\
    (forall name, r = Ok name -> last names = Some name).
Proof.
  induction 1 as [n name rest sc Hh Hsc | n name answer rest Hh Hy
                  | n name answer rest r rest' n' t Hh Hy Hrec IH
                  | n | n name Hh | n name rest msg Hh].
  - exists [name]. split; [reflexivity|]. intros nm Hn. injection Hn as <-. reflexivity.
  - exists [name]. split; [reflexivity|]. discriminate.
  - destruct IH as (names & Ht & Hlast). exists (name :: names). split.
    + rewrite traffic_app, Ht. reflexivity.
    + intros nm Hn. specialize (Hlast nm Hn).
      destruct names as [|x names]; [discriminate|]. exact Hlast.
  - exists []. split; [reflexivity|]. discriminate.
  - exists [name]. split; [reflexivity|]. discriminate.
  - exists [name]. split; [reflexivity|]. discriminate.
Qed.

Lemma traffic_prints (t : list event) :
  Forall (fun e => match e with Print _ => True | _ => False end) t ->
  traffic t = [].
Proof.
  intros H. apply traffic_offline. eapply Forall_impl; [exact H|].
  intros [] He; try reflexivity; destruct He.
Qed.

Ltac continuation_offline :=
  match goal with
  | |- traffic (trace (?m ?w0)) = [] =>
      apply traffic_offline; generalize w0; change (emits offline m)
  end;
  unfold Httpx.setup_git_repository; inactive_rules.

Lemma traffic_httpx_workflow (E : Env) u n d hs (w : World) :
  traffic (trace (httpx_workflow E u n d hs w)) =
  [Creation github_api_url (Payload n d false) hs].
Proof.
  unfold httpx_workflow. rewrite bind_trace, traffic_app.
  rewrite (traffic_offline (trace (clean_git_artifacts w)))
    by (generalize w; change (emits offline clean_git_artifacts); inactive_rules).
  destruct (clean_outcome w) as [-> _]. cbn [app].
  unfold httpx_publish. rewrite bind_trace, traffic_app.
  destruct (httpx_create_repository_run E n d hs (final (clean_git_artifacts w)))
    as (r & t & -> & Ht & _).
  unfold trace at 1, outcome, final at 1. cbn [fst snd].
  change (?e :: t) with ([e] ++ t). rewrite traffic_app, (traffic_prints t Ht).
  destruct r; try reflexivity.
  match goal with
  | |- context [traffic (trace (?m ?w0))] =>
      assert (Hx : traffic (trace (m w0)) = []) by continuation_offline;
      rewrite Hx
  end.
  reflexivity.
Qed.

Lemma traffic_requests_workflow (E : Env) u n d hs (w : World) :
  traffic (trace (requests_workflow E u n d hs w)) =
  [Creation github_api_url (Payload n d false) hs].
Proof.
  unfold requests_workflow. rewrite bind_trace, traffic_app.
  rewrite (traffic_offline (trace (clean_git_artifacts w)))
    by (generalize w; change (emits offline clean_git_artifacts); inactive_rules).
  destruct (clean_outcome w) as [-> _]. cbn [app].
  unfold requests_publish. rewrite bind_trace, traffic_app.
  destruct (requests_create_repository_run E n d hs (final (clean_git_artifacts w)))
    as (r & t & -> & Ht & _).
  unfold trace at 1, outcome, final at 1. cbn [fst snd].
  change (?e :: t) with ([e] ++ t). rewrite traffic_app, (traffic_prints t Ht).
  destruct r; try reflexivity.
  match goal with
  | |- context [traffic (trace (?m ?w0))] =>
      assert (Hx : traffic (trace (m w0)) = []) by continuation_offline;
      rewrite Hx
  end.
  reflexivity.
Qed.

Lemma splits_traffic (E : Env) loop workflow (w : World) x :
  loop_meets_spec E loop ->
  (forall u n d hs w1,
      traffic (trace (workflow u n d hs w1)) =
      [Creation github_api_url (Payload n d false) hs]) ->
  splits_into E loop workflow w x ->
  lookups_then_creation E (trace x).
Proof.
  intros Hloop Hwf (reached & r & w1 & t1 & Hpre & Hx).
  assert (Hl : forall username inp r2 w2 t2,
             loop (S (length inp)) username (token_headers E) (consumed w inp)
               = (r2, w2, t2) ->
             exists names,
               traffic t2 = lookups username (token_headers E) names /\
               (forall name, r2 = Ok name -> last names = Some name)).
  { intros username inp r2 w2 t2 H.
    destruct (Hloop (S (length inp)) username (token_headers E) (consumed w inp))
      as (Hs & _); [simpl; lia|].
    rewrite H in Hs. unfold outcome, trace in Hs. cbn [fst snd] in Hs.
    eapply name_loop_spec_traffic. exact Hs. }
  unfold lookups_then_creation.
  destruct Hpre as [Hin | u inp Hin Ht | u inp e w2 t2 Hin Ht Hr
                    | u inp c w2 t2 Hin Ht Hr | u inp w2 t2 Hin Ht Hr
                    | u inp nm w2 t2 Hin Ht Hr Hin2
                    | u inp nm w2 t2 d rest Hin Ht Hr Hin2];
    subst x; unfold trace in *; cbn [fst snd];
    try (destruct (Hl _ _ _ _ _ Hr) as (names & Htr & Hlast)).
  - exists "", []. left. reflexivity.
  - exists "", []. left. reflexivity.
  - exists u, names. left. exact Htr.
  - exists u, names. left. exact Htr.
  - exists u, names. left. exact Htr.
  - exists u, names. left.
    change (?e :: t2 ++ ?l) with ([e] ++ t2 ++ l).
    rewrite !traffic_app, Htr. apply app_nil_r.
  - exists u, names. right. exists nm, d. split; [apply Hlast; reflexivity|].
    change (?e :: t2 ++ ?l) with ([e] ++ t2 ++ l).
    rewrite !traffic_app, Htr, Hwf. cbn [traffic omap list_omap request_of app].
    rewrite app_nil_r. reflexivity.
Qed.

(** X3. The requests of a workflow script are lookups of repository names
    of one user, followed by at most one creation request; the creation
    request is for the name looked up last, for a public repository, and
    it is the last request of the run (nothing is requested after it,
    whether the later steps fail or not). Every request carries the same
    two headers, the token and the media type. *)
Theorem X3_lookups_then_creation (E : Env) (w : World) :
  lookups_then_creation E (trace (Httpx.main E w)) /\
  lookups_then_creation E (trace (Requests.script E w)).
Proof.
  split.
  - apply (splits_traffic E (Httpx.name_loop E) (httpx_workflow E) w);
      auto using httpx_loop_meets_spec, httpx_main_splits, traffic_httpx_workflow.
  - apply (splits_traffic E (Requests.name_loop E) (requests_workflow E) w);
      auto using requests_loop_meets_spec, requests_script_splits,
        traffic_requests_workflow.
Qed.

(** ** Runs that cannot end normally *)

Lemma httpx_create_gitignore_needs_template (E : Env) (project_path : string)
    (w : World) :
  cwd w !! ".gitignore" = None ->
  is_file (script_files E w !! ".gitignore_template") = false ->
  exists e, outcome (Httpx.create_gitignore E project_path w) = Raise e /\
            cwd (final (Httpx.create_gitignore E project_path w)) = cwd w.
Proof.
  intros Hg Ht.
  assert (Hc : forall pre w1, confirmed [] w pre w1 -> w1 = w).
  { intros pre w1 [_ | a r He _ _]; [reflexivity|].
    rewrite Hg in He. discriminate. }
  destruct (httpx_create_gitignore_run E project_path w)
    as [He _ | answer rest He _ _ | pre w1 c Hp Hc' _ | pre w1 msg Hp _ | pre w1 path Hp];
    try (rewrite Hg in He; discriminate).
  - rewrite Hc' in Ht. discriminate.
  - rewrite (Hc _ _ Hp). eexists. split; reflexivity.
  - rewrite (Hc _ _ Hp). eexists. split; reflexivity.
Qed.

Lemma httpx_publish_needs_template (E : Env) u n d hs (w : World) :
  cwd w !! ".gitignore" = None ->
  is_file (script_files E w !! ".gitignore_template") = false ->
  outcome (httpx_publish E u n d hs w) <> Ok tt.
Proof.
  intros Hg Ht. unfold httpx_publish.
  destruct (httpx_create_repository_run E n d hs w) as (r & t & Hrun & _).
  assert (Ho : outcome (Httpx.create_repository E n d hs w) = r)
    by (rewrite Hrun; reflexivity).
  assert (Hf : final (Httpx.create_repository E n d hs w) = ticked w)
    by (rewrite Hrun; reflexivity).
  rewrite bind_outcome, Ho, Hf.
  destruct r; try discriminate.
  rewrite bind_outcome, try_outcome.
  destruct (httpx_create_gitignore_needs_template E (getcwd E) (ticked w) Hg Ht)
    as (e & -> & _).
  unfold is_Exception. discriminate.
Qed.

Lemma clean_sweeps_files (w : World) (k : string) :
  startswith ".git" k = true ->
  is_dir (cwd w !! k) = false ->
  cwd (final (clean_git_artifacts w)) !! k = None /\
  (is_file (cwd w !! k) = true -> Remove k ∈ trace (clean_git_artifacts w)).
Proof.
  intros Hs Hd.
  destruct (clean_git_artifacts_run w) as (d & post & -> & _ & Hlk & Hrm).
  unfold final, trace. cbn [fst snd cwd]. split.
  - rewrite Hlk. unfold swept. rewrite Hs.
    destruct (cwd w !! k) as [[c|tr]|]; try discriminate;
      cbn [is_file is_dir]; rewrite ?andb_false_r; reflexivity.
  - intros Hf. apply elem_of_app. right. right. apply Hrm; assumption.
Qed.

Lemma clean_keeps_absent (w : World) (k : string) :
  cwd w !! k = None -> cwd (final (clean_git_artifacts w)) !! k = None.
Proof.
  intros Hk.
  destruct (clean_git_artifacts_run w) as (d & post & -> & _ & Hlk & _).
  unfold final. cbn [fst snd cwd]. rewrite Hlk, Hk.
  destruct (swept k None); reflexivity.
Qed.

Lemma clean_no_new_file (w : World) (k : string) :
  is_file (cwd w !! k) = false ->
  is_file (cwd (final (clean_git_artifacts w)) !! k) = false.
Proof.
  intros Hk.
  destruct (clean_git_artifacts_run w) as (d & post & -> & _ & Hlk & _).
  unfold final. cbn [fst snd cwd]. rewrite Hlk.
  destruct (swept k _); [reflexivity|exact Hk].
Qed.

(** X4. The httpx script cannot be run from its own directory: there the
    template [.gitignore_template] is itself a regular file whose name
    starts with ".git", so the cleanup removes it, and the writing of
    [.gitignore] that follows fails for want of the template. Unless
    [.gitignore] is a directory (when the question may be declined), no run
    ends normally, and every run that reaches the cleanup has removed the
    template. *)
Theorem X4_httpx_own_directory (E : Env) (w : World) :
  script_directory E = getcwd E ->
  is_dir (cwd w !! ".gitignore") = false ->
  outcome (Httpx.main E w) <> Ok tt /\
  (is_file (cwd w !! ".gitignore_template") = true ->
   Listdir ∈ trace (Httpx.main E w) ->
   Remove ".gitignore_template" ∈ trace (Httpx.main E w)).
Proof.
  intros Hsame Hd.
  destruct (httpx_main_splits E w) as (reached & r & w1 & t1 & Hpre & Hx).
  destruct (prelude_run_quiet E _ w reached r w1 t1 (httpx_loop_meets_spec E) Hpre)
    as (Hc & _ & Hev & Hnone & _).
  destruct reached as [[[u n] d]|]; rewrite Hx; unfold outcome at 1, trace at 1 2;
    cbn [fst snd].
  2: { split; [exact (Hnone eq_refl)|].
       intros _ Hl. apply calm_prelude, calm_no_question in Hev as [_ Hev].
       contradiction. }
  rewrite <- Hc in Hd.
  destruct (clean_sweeps_files w1 ".gitignore" eq_refl Hd) as [Hg _].
  unfold httpx_workflow. split.
  - rewrite bind_outcome. destruct (clean_outcome w1) as [-> _].
    apply httpx_publish_needs_template; [exact Hg|].
    unfold script_files. rewrite Hsame, String.eqb_refl.
    destruct (is_dir (cwd w1 !! ".gitignore_template")) eqn:Hdt.
    + apply clean_no_new_file.
      destruct (cwd w1 !! ".gitignore_template") as [[c|tr]|]; try discriminate.
      reflexivity.
    + destruct (clean_sweeps_files w1 ".gitignore_template" eq_refl Hdt) as [-> _].
      reflexivity.
  - intros Hf _. rewrite <- Hc in Hf.
    apply elem_of_app. right. rewrite bind_trace. apply elem_of_app. left.
    apply clean_sweeps_files; [reflexivity| |exact Hf].
    destruct (cwd w1 !! ".gitignore_template") as [[c|tr]|]; try discriminate.
    reflexivity.
Qed.

Lemma requests_create_gitignore_no_script (E : Env) (project_path : string)
    (w : World) :
  script_files E w !! "create_gitignore.py" = None ->
  Requests.create_gitignore E project_path w =
  (Raise (FileNotFoundError
            ("create_gitignore.py not found at " +:+
             path_join (script_directory E) "create_gitignore.py")),
   w, []).
Proof.
  intros Hs. unfold Requests.create_gitignore, Requests.get_script_directory,
    script_path_exists.
  mrun. rewrite Hs. mrun. reflexivity.
Qed.

Lemma requests_publish_needs_script (E : Env) u n d hs (w : World) :
  script_files E w !! "create_gitignore.py" = None ->
  outcome (requests_publish E u n d hs w) <> Ok tt.
Proof.
  intros Hs. unfold requests_publish.
  destruct (requests_create_repository_run E n d hs w) as (r & t & Hrun & _).
  assert (Ho : outcome (Requests.create_repository E n d hs w) = r)
    by (rewrite Hrun; reflexivity).
  assert (Hf : final (Requests.create_repository E n d hs w) = ticked w)
    by (rewrite Hrun; reflexivity).
  rewrite bind_outcome, Ho, Hf.
  destruct r; try discriminate.
  rewrite bind_outcome, try_outcome.
  rewrite (requests_create_gitignore_no_script E (getcwd E) (ticked w) Hs).
  unfold is_Exception. discriminate.
Qed.

Lemma script_files_after_clean (E : Env) (w : World) (k : string) :
  script_files E w !! k = None ->
  script_files E (final (clean_git_artifacts w)) !! k = None.
Proof.
  unfold script_files. destruct (String.eqb _ _).
  - apply clean_keeps_absent.
  - destruct (clean_outcome w) as (_ & _ & _ & ->). auto.
Qed.

(** X5. The requests script needs [create_gitignore.py] beside it: when
    this file is missing, [create_gitignore] raises [FileNotFoundError]
    before it asks or runs anything, and no run of the script ends
    normally (a run that gets that far has already sent the creation
    request). *)
Theorem X5_requests_needs_writer (E : Env) (w : World) :
  script_files E w !! "create_gitignore.py" = None ->
  (forall project_path,
      Requests.create_gitignore E project_path w =
      (Raise (FileNotFoundError
                ("create_gitignore.py not found at " +:+
                 path_join (script_directory E) "create_gitignore.py")),
       w, [])) /\
  outcome (Requests.script E w) <> Ok tt.
Proof.
  intros Hs. split.
  - intros p. apply requests_create_gitignore_no_script. exact Hs.
  - destruct (requests_script_splits E w) as (reached & r & w1 & t1 & Hpre & Hx).
    destruct (prelude_run_quiet E _ w reached r w1 t1
                (requests_loop_meets_spec E) Hpre)
      as (Hc & Hsf & _ & Hnone & _).
    destruct reached as [[[u n] d]|]; rewrite Hx; unfold outcome at 1;
      cbn [fst snd]; [|exact (Hnone eq_refl)].
    unfold requests_workflow. rewrite bind_outcome.
    destruct (clean_outcome w1) as [-> _].
    apply requests_publish_needs_script, script_files_after_clean.
    unfold script_files in *. rewrite Hc, Hsf. exact Hs.
Qed.

(** ** [create_gitignore] of the httpx script *)


(** X7. Without the template, [create_gitignore] of the httpx script writes
    nothing and leaves the working directory as it is, also when the user
    has just agreed to the overwrite (the question comes before the
    template is looked for); it returns normally only when the user
    declined, and when there is no [.gitignore] it raises
    [FileNotFoundError] with the path of the template, without a
    question. *)
Theorem X7_gitignore_without_template (E : Env) (project_path : string) (w : World) :
  script_files E w !! ".gitignore_template" = None ->
  cwd (final (Httpx.create_gitignore E project_path w)) = cwd w /\
  ~ Exists is_write (trace (Httpx.create_gitignore E project_path w)) /\
  (outcome (Httpx.create_gitignore E project_path w) = Ok tt ->
   exists answer rest,
     exists_ (cwd w !! ".gitignore") = true /\
     stdin w = answer :: rest /\ lower answer <> "y") /\
  (cwd w !! ".gitignore" = None ->
   Httpx.create_gitignore E project_path w =
   (Raise (FileNotFoundError
             (".gitignore_template not found at " +:+
              path_join (script_directory E) ".gitignore_template")),
    w, [])).
Proof.
  intros Ht.
  assert (Hc : forall pre w1, confirmed [] w pre w1 ->
                              cwd w1 = cwd w /\ ~ Exists is_write pre).
  { intros pre w1 [_ | a r _ _ _]; (split; [reflexivity|]); intros H.
    - inversion H.
    - apply Exists_cons in H as [H|H]; [exact H|inversion H]. }
  split; [|split; [|split]].
  - destruct (httpx_create_gitignore_run E project_path w)
      as [_ _ | answer rest _ _ _ | pre w1 c Hp Hc' _ | pre w1 msg Hp _ | pre w1 path Hp];
      unfold final; cbn [fst snd cwd consumed]; try reflexivity;
      try (apply (Hc _ _ Hp)).
    rewrite Hc' in Ht. discriminate.
  - destruct (httpx_create_gitignore_run E project_path w)
      as [_ _ | answer rest _ _ _ | pre w1 c Hp Hc' _ | pre w1 msg Hp _ | pre w1 path Hp];
      unfold trace; cbn [snd].
    + intros H. apply Exists_cons in H as [H|H]; [exact H|inversion H].
    + exact no_write_keeping.
    + rewrite Hc' in Ht. discriminate.
    + apply (Hc _ _ Hp).
    + intros H. apply Exists_app in H as [H|H]; [exact (proj2 (Hc _ _ Hp) H)|].
      apply Exists_cons in H as [H|H]; [exact H|inversion H].
  - destruct (httpx_create_gitignore_run E project_path w)
      as [_ _ | answer rest He Hin Hy | pre w1 c Hp Hc' _ | pre w1 msg Hp _
          | pre w1 path Hp];
      unfold outcome; cbn [fst snd]; try discriminate; intros _.
    + exists answer, rest. auto.
    + rewrite Hc' in Ht. discriminate.
  - intros Hg. unfold Httpx.create_gitignore, Httpx.get_script_directory,
      script_path_exists.
    mrun. rewrite Hg. mrun. rewrite Ht. mrun. reflexivity.
Qed.

(** ** Runs that stop before the cleanup *)

Lemma name_loop_spec_reads_name (E : Env) username headers n inp name rest n' t :
  name_loop_spec E username headers n inp (Ok name) rest n' t ->
  (length rest < length inp)%nat.
Proof.
  remember (Ok name) as r eqn:Hr. induction 1; try discriminate.
  - simpl. lia.
  - specialize (IHname_loop_spec Hr). simpl. lia.
Qed.

Lemma splits_needs_three_lines (E : Env) loop workflow (w : World) x :
  loop_meets_spec E loop ->
  splits_into E loop workflow w x ->
  (length (stdin w) < 3)%nat ->
  cwd (final x) = cwd w /\ sfiles (final x) = sfiles w /\
  actions (trace x) = [] /\ (Listdir ∉ trace x) /\ outcome x <> Ok tt.
Proof.
  intros Hloop (reached & r & w1 & t1 & Hpre & Hx) Hlen.
  destruct (prelude_run_quiet E loop w reached r w1 t1 Hloop Hpre)
    as (Hc & Hs & Hev & Hnone & _).
  destruct reached as [[[u n] d]|].
  - exfalso.
    inversion Hpre as [| | | | | |u' inp nm w2 t2 d' rest Hin Ht Hr Hin2]; subst.
    destruct (Hloop (S (length inp)) u (token_headers E) (consumed w inp))
      as (Hsp & _); [simpl; lia|].
    rewrite Hr in Hsp. unfold outcome, final, trace in Hsp.
    cbn [fst snd consumed stdin ticks] in Hsp. rewrite Hin2 in Hsp.
    apply name_loop_spec_reads_name in Hsp.
    rewrite Hin in Hlen. simpl in Hlen, Hsp. lia.
  - subst x. unfold final, trace, outcome. cbn [fst snd].
    repeat split; auto.
    + apply actions_prelude. exact Hev.
    + apply calm_prelude, calm_no_question in Hev as [_ Hev]. exact Hev.
Qed.

(** X8. A workflow script does nothing before it has read three lines, the
    user name, a repository name and the description: a run with fewer
    than three lines of input leaves the working directory and the script
    directory as they are, performs no action (no creation request, no git
    command), never reaches the cleanup, and does not end normally. *)
Theorem X8_three_lines_first (E : Env) (w : World) :
  (length (stdin w) < 3)%nat ->
  (cwd (final (Httpx.main E w)) = cwd w /\
   sfiles (final (Httpx.main E w)) = sfiles w /\
   actions (trace (Httpx.main E w)) = [] /\
   (Listdir ∉ trace (Httpx.main E w)) /\
   outcome (Httpx.main E w) <> Ok tt) /\
  (cwd (final (Requests.script E w)) = cwd w /\
   sfiles (final (Requests.script E w)) = sfiles w /\
   actions (trace (Requests.script E w)) = [] /\
   (Listdir ∉ trace (Requests.script E w)) /\
   outcome (Requests.script E w) <> Ok tt).
Proof.
  intros Hlen. split.
  - eapply splits_needs_three_lines;
      eauto using httpx_loop_meets_spec, httpx_main_splits.
  - eapply splits_needs_three_lines;
      eauto using requests_loop_meets_spec, requests_script_splits.
Qed.

Lemma splits_loop_raises (E : Env) loop workflow (w : World) x
    username inp e rest n' t :
  loop_meets_spec E loop ->
  splits_into E loop workflow w x ->
  token_missing (GITHUB_TOKEN E) = false ->
  stdin w = username :: inp ->
  name_loop_spec E username (token_headers E) (ticks w) inp (Raise e) rest n' t ->
  x = (Raise e, mkWorld (cwd w) (sfiles w) rest n',
       Prompt username_question :: t).
Proof.
  intros Hloop (reached & r & w1 & t1 & Hpre & Hx) Htok Hin Hspec.
  assert (Hl : forall r2 w2 t2,
             loop (S (length inp)) username (token_headers E) (consumed w inp)
               = (r2, w2, t2) ->
             r2 = Raise e /\ w2 = mkWorld (cwd w) (sfiles w) rest n' /\ t2 = t).
  { intros r2 w2 t2 H.
    destruct (Hloop (S (length inp)) username (token_headers E) (consumed w inp))
      as (Hs & Hc & Hsf); [simpl; lia|].
    rewrite H in Hs, Hc, Hsf. unfold outcome, final, trace in *.
    cbn [fst snd consumed stdin ticks cwd sfiles] in *.
    destruct (name_loop_spec_deterministic _ _ _ _ _ _ _ _ _ _ _ _ _ Hs Hspec)
      as (-> & Hr & Hn & ->).
    destruct w2; cbn [cwd sfiles stdin ticks] in *. subst. auto. }
  destruct Hpre as [Hin' | u inp' Hin' Ht | u inp' e' w2 t2 Hin' Ht Hr
                    | u inp' c w2 t2 Hin' Ht Hr | u inp' w2 t2 Hin' Ht Hr
                    | u inp' nm w2 t2 Hin' Ht Hr Hin2
                    | u inp' nm w2 t2 d rest' Hin' Ht Hr Hin2];
    try congruence;
    rewrite Hin in Hin'; injection Hin' as <- <-;
    destruct (Hl _ _ _ Hr) as (Hr2 & Hw2 & Ht2); try discriminate.
  injection Hr2 as ->. subst. reflexivity.
Qed.

(** X9. Nothing catches what ends the name loop: when the loop ends with an
    exception (a lookup that gets no response, or the end of the input),
    the script ends with this very exception, uncaught, right there: with
    the working directory untouched and no event after those of the
    loop. *)
Theorem X9_loop_errors_escape (E : Env) (w : World)
    (username : string) (inp : list string) (e : exn) (rest : list string)
    (n' : nat) (t : list event) :
  token_missing (GITHUB_TOKEN E) = false ->
  stdin w = username :: inp ->
  name_loop_spec E username (token_headers E) (ticks w) inp (Raise e) rest n' t ->
  Httpx.main E w
    = (Raise e, mkWorld (cwd w) (sfiles w) rest n', Prompt username_question :: t) /\
  Requests.script E w
    = (Raise e, mkWorld (cwd w) (sfiles w) rest n', Prompt username_question :: t).
Proof.
  intros Htok Hin Hspec. split.
  - eapply splits_loop_raises;
      eauto using httpx_loop_meets_spec, httpx_main_splits.
  - eapply splits_loop_raises;
      eauto using requests_loop_meets_spec, requests_script_splits.
Qed.

(** ** Commands that fail *)





















(** ** What the handlers let through *)









(** ** The standalone writer *)

Lemma after_cmd_keeps (E : Env) (cmd : list string) (w : World) (k : string) :
  (forall n cmd d, (proc E n cmd d).2 !! k = d !! k) ->
  cwd (after_cmd E cmd w) !! k = cwd w !! k.
Proof. intros H. unfold after_cmd. cbn [cwd]. apply H. Qed.

(** X11. The standalone script replaces whatever file [.gitignore] was
    there. When [.gitignore] is not a directory, the first thing [main]
    does is to write the fixed content of the script to it, which it
    reports before it runs any command; and if the commands leave the
    entry [.gitignore] of the working directory alone, this entry is in
    the end a file with that content. When [.gitignore] is a directory,
    [main] ends with [IsADirectoryError] for its path before anything is
    printed or run, and changes nothing. *)
Theorem X11_standalone_writes_fixed_content (E : Env) (w : World) :
  (is_dir (cwd w !! ".gitignore") = false ->
   (exists later,
       trace (Standalone.main E w) =
       WriteFile (path_join (getcwd E) ".gitignore") Standalone.gitignore_content ::
       Print ("Created .gitignore file at " +:+ path_join (getcwd E) ".gitignore") ::
       later /\
       Forall (fun e => exists cmd, e = Run cmd) later) /\
   ((forall n cmd d, (proc E n cmd d).2 !! ".gitignore" = d !! ".gitignore") ->
    cwd (final (Standalone.main E w)) !! ".gitignore"
    = Some (File Standalone.gitignore_content))) /\
  (is_dir (cwd w !! ".gitignore") = true ->
   Standalone.main E w
   = (Raise (IsADirectoryError (path_join (getcwd E) ".gitignore")), w, [])).
Proof.
  split.
  - intros Hd. unfold Standalone.main.
    rewrite (standalone_create_gitignore_run E (getcwd E) w Hd).
    cbv zeta. unfold trace, final. cbn [fst snd].
    split.
    + eexists. split; [reflexivity|]. repeat constructor; eexists; reflexivity.
    + intros Hkeep. rewrite !after_cmd_keeps by exact Hkeep.
      cbn [cwd]. apply lookup_insert_eq.
  - intros Hd. unfold Standalone.main, Standalone.create_gitignore, write_file.
    destruct (cwd w !! ".gitignore") as [[c|tr]|] eqn:Hg; try discriminate.
    repeat progress (mrun; rewrite ?Hg). reflexivity.
Qed.

(** ** Instances *)

(** A witness of X4: the httpx script started beside its template. *)
Lemma X4_witness_beside_template :
  let E := Cases.env_beside_template in
  let w := Cases.world_beside_template ["user"; "demo"; "A demo"] in
  script_directory E = getcwd E /\
  is_dir (cwd w !! ".gitignore") = false /\
  outcome (Httpx.main E w) <> Ok tt.
Proof.
  split; [reflexivity|]. split; [reflexivity|].
  exact (proj1 (X4_httpx_own_directory Cases.env_beside_template
                  (Cases.world_beside_template ["user"; "demo"; "A demo"])
                  eq_refl eq_refl)).
Defined.

(** A witness of X5: no writer script beside the requests script. *)
Lemma X5_witness_no_writer :
  let w := Cases.world_no_scripts ["user"; "taken"; "y"; "demo"; "A demo"] in
  script_files Demo.env w !! "create_gitignore.py" = None /\
  outcome (Requests.script Demo.env w) <> Ok tt.
Proof.
  split; [reflexivity|].
  exact (proj2 (X5_requests_needs_writer Demo.env
                  (Cases.world_no_scripts ["user"; "taken"; "y"; "demo"; "A demo"])
                  eq_refl)).
Defined.


(** A witness of X7: no template beside the httpx script. *)
Lemma X7_witness_no_template :
  let w := Cases.world_no_scripts ["y"] in
  script_files Demo.env w !! ".gitignore_template" = None /\
  cwd (final (Httpx.create_gitignore Demo.env "/home/u/demo" w)) = cwd w.
Proof.
  split; [reflexivity|].
  exact (proj1 (X7_gitignore_without_template Demo.env "/home/u/demo"
                  (Cases.world_no_scripts ["y"]) eq_refl)).
Defined.

(** A witness of X8: two lines of input. *)
Lemma X8_witness_two_lines :
  let w := Demo.world ["user"; "demo"] in
  (length (stdin w) < 3)%nat /\
  actions (trace (Requests.script Demo.env_offline w)) = [] /\
  outcome (Requests.script Demo.env_offline w) <> Ok tt.
Proof.
  split; [simpl; lia|].
  pose proof (proj2 (X8_three_lines_first Demo.env_offline
                       (Demo.world ["user"; "demo"]) ltac:(simpl; lia)))
    as (_ & _ & Ha & _ & Ho).
  split; [exact Ha | exact Ho].
Defined.

(** A witness of X9: the lookup gets no response. *)
Lemma X9_witness_unreachable :
  Httpx.main Cases.env_unreachable (Demo.world ["user"; "demo"; "A demo"])
  = (Raise (TransportError "connection refused"),
     mkWorld Demo.dir_old Demo.tools ["A demo"] 1,
     [Prompt username_question; Prompt name_question;
      HttpGet (repos_url "user" "demo") (token_headers Cases.env_unreachable)]) /\
  Requests.script Cases.env_unreachable (Demo.world ["user"; "demo"; "A demo"])
  = (Raise (TransportError "connection refused"),
     mkWorld Demo.dir_old Demo.tools ["A demo"] 1,
     [Prompt username_question; Prompt name_question;
      HttpGet (repos_url "user" "demo") (token_headers Cases.env_unreachable)]).
Proof.
  apply (X9_loop_errors_escape Cases.env_unreachable
           (Demo.world ["user"; "demo"; "A demo"]) "user" ["demo"; "A demo"]
           (TransportError "connection refused") ["A demo"] 1%nat
           [Prompt name_question;
            HttpGet (repos_url "user" "demo") (token_headers Cases.env_unreachable)]).
  - reflexivity.
  - reflexivity.
  - apply spec_no_response. reflexivity.
Defined.


(** A witness of X11: the old [.gitignore] of the demo directory. *)
Lemma X11_witness_old_file_replaced :
  let w := Demo.world [] in
  is_dir (cwd w !! ".gitignore") = false /\
  (forall n cmd d, (proc Demo.env n cmd d).2 !! ".gitignore" = d !! ".gitignore") /\
  cwd w !! ".gitignore" = Some (File "old") /\
  cwd (final (Standalone.main Demo.env w)) !! ".gitignore"
  = Some (File Standalone.gitignore_content).
Proof.
  split; [reflexivity|]. split; [reflexivity|]. split; [reflexivity|].
  exact (proj2 (proj1 (X11_standalone_writes_fixed_content Demo.env (Demo.world []))
                  eq_refl)
               (fun n cmd d => eq_refl)).
Defined.

